(** * wdydoc: the document model, its JSON codec and the build pipeline

    A shallow embedding of the Go package [wdydoc] (model.go, util.go,
    transformer.go, build.go) together with the parts of the Go standard
    library the package calls (dynamic [interface{}] values, [encoding/json],
    [path/filepath], [strings], [crypto/sha256], [encoding/hex]).

    Conventions of the embedding:
    - a Go [string] is a [string] (a sequence of bytes);
    - a Go [int] is a [Z]; the target is a 64-bit platform, so [int] and
      [int64] have the same range and arithmetic wraps modulo 2^64;
    - a Go slice is a [list]; a nil slice and an empty slice are both [[]];
    - a pointer to a struct is the struct itself: the trees of the model are
      finite and own their children (no nil pointers, no cycles);
    - a function that may panic returns an [outcome]; a function with an
      [error] result returns a [result]. *)

From Stdlib Require Import ZArith List String Ascii Bool Lia.
From Stdlib Require Import SpecFloat.
Import ListNotations.

Local Open Scope string_scope.
Local Open Scope Z_scope.

(** Induction over a type that nests [list] or [prod] gets the hypothesis
    for the nested occurrences from these. *)
Scheme All for list.
Scheme All for prod.

(** ** The Go runtime: dynamic values, maps, panics *)

Module Go.

(** [float64]: IEEE 754 binary64, as the specification floats of Rocq. *)
Definition float64 : Type := spec_float.

Definition prec64 : Z := 53.
Definition emax64 : Z := 1024.

(** The dynamic values an [interface{}] of this program holds: what
    [toJson] stores in an attribute map and what [json.Unmarshal] produces.
    An [object] is a [map[string]interface{}]: its entries, at most one per
    key (the order of the entries carries no meaning). *)
Inductive value : Type :=
| VNil                                   (* the nil interface *)
| VBool (b : bool)                       (* bool *)
| VString (s : string)                   (* string *)
| VInt (i : Z)                           (* int *)
| VInt64 (i : Z)                         (* int64 *)
| VFloat64 (f : float64)                 (* float64 *)
| VStrings (l : list string)             (* []string *)
| VSlice (l : list value)                (* []interface{} *)
| VMap (m : object)                      (* map[string]interface{} *)
with object : Type :=
| Object (entries : list (string * value)).

Scheme value_mut := Induction for value Sort Prop
with object_mut := Induction for object Sort Prop.

Definition entries (m : object) : list (string * value) :=
  match m with Object es => es end.

(** [make(map[string]interface{})] *)
Definition make_map : object := Object [].

Fixpoint delete_entry (es : list (string * value)) (key : string)
  : list (string * value) :=
  match es with
  | [] => []
  | (k, v) :: es' =>
      if String.eqb k key then delete_entry es' key
      else (k, v) :: delete_entry es' key
  end.

(** [delete(m, key)] *)
Definition mapDelete (m : object) (key : string) : object :=
  Object (delete_entry (entries m) key).

(** [m[key] = v] *)
Definition mapAssign (m : object) (key : string) (v : value) : object :=
  Object ((key, v) :: delete_entry (entries m) key).

(** [f (m[key])]: [f] at the value stored under [key], at the nil interface
    when there is none. [f] is applied to the entry of [m] itself, so that a
    decoder going through the attributes of a map is structurally
    recursive. *)
Definition mapIndexWith {A : Type} (f : value -> A) (m : object) (key : string) : A :=
  match m with
  | Object es =>
      (fix find (es : list (string * value)) : A :=
         match es with
         | [] => f VNil
         | (k, v) :: es' => if String.eqb k key then f v else find es'
         end) es
  end.

(** [m[key]] *)
Definition mapIndex (m : object) (key : string) : value :=
  mapIndexWith (fun v => v) m key.

(** What a panic carries. *)
Inductive panic : Type :=
| PanicMessage (msg : string) (arg : string) (m : object)
    (* panic(msg + arg + " -> " + debugJson(m)) *)
| PanicInterfaceConversion (have : string) (want : string).
    (* a failed type assertion x.(want), x of dynamic type have *)

(** The outcome of a call that may panic. *)
Inductive outcome (A : Type) : Type :=
| Return (a : A)
| Panics (p : panic).
Arguments Return {A} a.
Arguments Panics {A} p.

Definition bind {A B : Type} (x : outcome A) (k : A -> outcome B) : outcome B :=
  match x with
  | Return a => k a
  | Panics p => Panics p
  end.

(** A loop that appends the outcome of each iteration: the first panic ends
    it. *)
Fixpoint collect {A : Type} (l : list (outcome A)) : outcome (list A) :=
  match l with
  | [] => Return []
  | x :: l' =>
      bind x (fun a => bind (collect l') (fun r => Return (a :: r)))
  end.

Definition is_panic {A : Type} (x : outcome A) : Prop := exists p, x = Panics p.

(** An [error] value: its message. *)
Definition error : Type := string.

(** The two results [(T, error)] of a Go function. *)
Inductive result (A : Type) : Type :=
| Ok (a : A)
| Err (e : error).
Arguments Ok {A} a.
Arguments Err {A} e.

(** The name of the dynamic type of a value, as a panic prints it. *)
Definition dynType (v : value) : string :=
  match v with
  | VNil => "nil"
  | VBool _ => "bool"
  | VString _ => "string"
  | VInt _ => "int"
  | VInt64 _ => "int64"
  | VFloat64 _ => "float64"
  | VStrings _ => "[]string"
  | VSlice _ => "[]interface {}"
  | VMap _ => "map[string]interface {}"
  end.

(** [v.(string)], the one-result form: it panics unless [v] is a string. *)
Definition assertString (v : value) : outcome string :=
  match v with
  | VString s => Return s
  | _ => Panics (PanicInterfaceConversion (dynType v) "string")
  end.

(** The range of [int] and [int64]. *)
Definition minInt : Z := - 2 ^ 63.
Definition maxInt : Z := 2 ^ 63 - 1.
Definition in_int (z : Z) : Prop := minInt <= z <= maxInt.

(** Two's complement wrap-around of 64-bit signed arithmetic. *)
Definition wrap_int (z : Z) : Z := (z + 2 ^ 63) mod 2 ^ 64 - 2 ^ 63.

(** [int(f)] for a [float64]: the fraction is discarded (truncation towards
    zero). For NaN, the infinities and values outside the range of [int] the
    language leaves the result to the implementation; amd64 yields the
    smallest integer, which is what is written here. *)
Definition float64_to_int (f : float64) : Z :=
  match f with
  | S754_zero _ => 0
  | S754_finite s m e =>
      let t := Z.shiftl (Zpos m) e in
      let z := if s then - t else t in
      if (minInt <=? z) && (z <=? maxInt) then z else minInt
  | S754_infinity _ | S754_nan => minInt
  end.

(** The value of a [float64] is the integer [z]. *)
Definition float64_is_int (f : float64) (z : Z) : Prop :=
  match f with
  | S754_zero _ => z = 0
  | S754_finite s m e =>
      let x := if s then Zneg m else Zpos m in
      if 0 <=? e then z = x * 2 ^ e else x = z * 2 ^ (- e)
  | S754_infinity _ | S754_nan => False
  end.

End Go.

(** ** strings and path/filepath (Unix), as far as the package uses them *)

Module Strings.

(** [len(s)] *)
Definition len (s : string) : nat := String.length s.

(** [s[:n]] and [s[n:]] for [n <= len(s)] (Go panics beyond). *)
Definition slice_to (s : string) (n : nat) : string := String.substring 0 n s.
Definition slice_from (s : string) (n : nat) : string :=
  String.substring n (String.length s - n) s.

Definition lower_byte (c : ascii) : ascii :=
  let n := nat_of_ascii c in
  if (65 <=? n)%nat && (n <=? 90)%nat then ascii_of_nat (n + 32) else c.

(** [strings.ToLower]: the upper case letters of ASCII to lower case. (Go
    also maps the letters outside ASCII; none of them maps to an ASCII
    letter of the extensions and prefixes compared here.) *)
Fixpoint ToLower (s : string) : string :=
  match s with
  | EmptyString => EmptyString
  | String c s' => String (lower_byte c) (ToLower s')
  end.

(** [strings.HasPrefix(s, prefix)] *)
Definition HasPrefix (s prefix : string) : bool := String.prefix prefix s.

(** [strings.HasSuffix(s, suffix)] *)
Definition HasSuffix (s suffix : string) : bool :=
  (String.length suffix <=? String.length s)%nat
  && String.eqb (slice_from s (String.length s - String.length suffix)) suffix.

(** [strings.Join(elems, sep)] *)
Fixpoint Join (elems : list string) (sep : string) : string :=
  match elems with
  | [] => ""
  | [e] => e
  | e :: rest => e ++ sep ++ Join rest sep
  end.

End Strings.

Module Filepath.

Definition slash : ascii := "/"%char.
Definition dot : ascii := "."%char.

(** The elements of a path between its separators, from the characters read
    so far ([cur], last first). *)
Fixpoint split_from (cur : string) (s : string) : list string :=
  match s with
  | EmptyString => [cur]
  | String c s' =>
      if Ascii.eqb c slash then cur :: split_from "" s'
      else split_from (cur ++ String c "") s'
  end.

Definition split (s : string) : list string := split_from "" s.

(** One element of a path met by [Clean]; [stack] holds the elements kept so
    far, the last one first. *)
Definition clean_step (rooted : bool) (stack : list string) (elem : string)
  : list string :=
  if String.eqb elem "" then stack
  else if String.eqb elem "." then stack
  else if String.eqb elem ".." then
    match stack with
    | [] => if rooted then [] else [".."]
    | top :: below =>
        if String.eqb top ".." then ".." :: stack else below
    end
  else elem :: stack.

Definition is_rooted (path : string) : bool :=
  match path with
  | String c _ => Ascii.eqb c slash
  | EmptyString => false
  end.

(** [filepath.Clean]: separators are not repeated, [.] elements go, a [..]
    takes the element before it with it, a rooted path does not start with
    [/..], and the empty path is [.]. *)
Definition Clean (path : string) : string :=
  let rooted := is_rooted path in
  let kept := rev (fold_left (clean_step rooted) (split path) []) in
  let out := (if rooted then "/" else "") ++ Strings.Join kept "/" in
  if String.eqb out "" then "." else out.

(** [filepath.Join]: from the first element that is not empty on, the
    elements joined by the separator and cleaned; the empty string when
    there is none. *)
Fixpoint Join (elem : list string) : string :=
  match elem with
  | [] => ""
  | e :: rest =>
      if String.eqb e "" then Join rest else Clean (Strings.Join elem "/")
  end.

(** The characters after the last separator ([last], in order) and the
    characters up to and with it. *)
Fixpoint last_element (s : string) : string :=
  match s with
  | EmptyString => ""
  | String c s' =>
      if existsb (Ascii.eqb slash) (list_ascii_of_string s') then last_element s'
      else if Ascii.eqb c slash then s' else s
  end.

Fixpoint strip_trailing_slashes (s : string) : string :=
  match s with
  | EmptyString => ""
  | String c s' =>
      match strip_trailing_slashes s' with
      | EmptyString => if Ascii.eqb c slash then "" else String c ""
      | rest => String c rest
      end
  end.

(** [filepath.Base]: the last element of the path, trailing separators
    removed first; [.] for the empty path and [/] for a path of separators
    only. *)
Definition Base (path : string) : string :=
  if String.eqb path "" then "."
  else
    let path := strip_trailing_slashes path in
    let path := last_element path in
    if String.eqb path "" then "/" else path.

(** [filepath.Ext]: the suffix that starts at the last dot of the last
    element of the path; empty when that element has no dot. *)
Fixpoint Ext (path : string) : string :=
  match path with
  | EmptyString => ""
  | String c s' =>
      match Ext s' with
      | EmptyString =>
          if existsb (Ascii.eqb slash) (list_ascii_of_string s') then ""
          else if Ascii.eqb c dot then path else ""
      | ext => ext
      end
  end.

(** [filepath.Dir]: the path up to its last separator, cleaned. *)
Definition Dir (path : string) : string :=
  let n := (String.length path - String.length (last_element path))%nat in
  Clean (Strings.slice_to path n).

(** A path element without a separator. *)
Definition no_slash (s : string) : Prop :=
  existsb (Ascii.eqb slash) (list_ascii_of_string s) = false.

(** An element [Clean] keeps: not empty, not [.] and not [..]. *)
Definition ordinary (s : string) : Prop := s <> "" /\ s <> "." /\ s <> "..".

End Filepath.

(** ** crypto/sha256 (Sum224) and encoding/hex *)

Module Sha256.

(** A 32-bit word is a [Z] in [0, 2^32). *)
Definition w32 (x : Z) : Z := x mod 2 ^ 32.
Definition add32 (x y : Z) : Z := w32 (x + y).
Definition rotr (n x : Z) : Z := Z.lor (Z.shiftr x n) (w32 (Z.shiftl x (32 - n))).
Definition not32 (x : Z) : Z := 2 ^ 32 - 1 - x.

Definition Ch (x y z : Z) : Z := Z.lxor (Z.land x y) (Z.land (not32 x) z).
Definition Maj (x y z : Z) : Z :=
  Z.lxor (Z.lxor (Z.land x y) (Z.land x z)) (Z.land y z).
Definition Sigma0 (x : Z) : Z := Z.lxor (Z.lxor (rotr 2 x) (rotr 13 x)) (rotr 22 x).
Definition Sigma1 (x : Z) : Z := Z.lxor (Z.lxor (rotr 6 x) (rotr 11 x)) (rotr 25 x).
Definition sigma0 (x : Z) : Z := Z.lxor (Z.lxor (rotr 7 x) (rotr 18 x)) (Z.shiftr x 3).
Definition sigma1 (x : Z) : Z := Z.lxor (Z.lxor (rotr 17 x) (rotr 19 x)) (Z.shiftr x 10).

(** The constants of the algorithm are roots of primes: the round constants
    are the first 32 bits of the fractions of the cube roots of the first 64
    primes, the initial hash value of SHA-224 is the second 32 bits of the
    fractions of the square roots of the ninth to the sixteenth prime. *)
Definition is_prime (n : nat) : bool :=
  (2 <=? n)%nat
  && forallb (fun d => negb (Nat.eqb (Nat.modulo n d) 0)) (List.seq 2 (n - 2)).

Definition primes (count : nat) : list nat :=
  firstn count (filter is_prime (List.seq 2 320)).

(** The integer cube root of [n] below [2 ^ bits], bit by bit. *)
Fixpoint cube_root (bits : nat) (n : Z) (r : Z) : Z :=
  match bits with
  | O => r
  | S bits' =>
      let r' := r + 2 ^ Z.of_nat bits' in
      cube_root bits' n (if r' * r' * r' <=? n then r' else r)
  end.

Definition K : list Z :=
  Eval vm_compute in
    map (fun p => w32 (cube_root 40 (Z.of_nat p * 2 ^ 96) 0)) (primes 64).

(** The initial hash value of SHA-224. *)
Definition init224 : list Z :=
  Eval vm_compute in
    map (fun p => w32 (Z.sqrt (Z.of_nat p * 2 ^ 128))) (skipn 8 (primes 16)).

Definition byte_of (c : ascii) : Z := Z.of_nat (nat_of_ascii c).

(** The message with its padding: the bit 1, zeros up to 56 bytes modulo 64,
    and the length in bits as 8 bytes, the most significant first. *)
Definition pad (msg : list Z) : list Z :=
  let n := Z.of_nat (List.length msg) in
  let zeros := Z.to_nat ((55 - n) mod 64) in
  let bits := 8 * n in
  msg ++ [0x80] ++ repeat 0 zeros
      ++ map (fun i => Z.shiftr bits (8 * (7 - Z.of_nat i)) mod 256) (seq 0 8).

(** The 32-bit words of a sequence of bytes, the most significant byte
    first. *)
Fixpoint words (bytes : list Z) : list Z :=
  match bytes with
  | a :: b :: c :: d :: rest =>
      (Z.shiftl a 24 + Z.shiftl b 16 + Z.shiftl c 8 + d) :: words rest
  | _ => []
  end.

(** The message schedule: [n] more words after the words [w] (the latest
    first). *)
Fixpoint schedule (n : nat) (w : list Z) : list Z :=
  match n with
  | O => w
  | S n' =>
      let x :=
        add32 (add32 (sigma1 (nth 1 w 0)) (nth 6 w 0))
              (add32 (sigma0 (nth 14 w 0)) (nth 15 w 0)) in
      schedule n' (x :: w)
  end.

(** The working variables [a] to [h]. *)
Definition round (st : list Z) (kw : Z * Z) : list Z :=
  match st with
  | [a; b; c; d; e; f; g; h] =>
      let t1 := add32 (add32 (add32 h (Sigma1 e)) (add32 (Ch e f g) (fst kw))) (snd kw) in
      let t2 := add32 (Sigma0 a) (Maj a b c) in
      [add32 t1 t2; a; b; c; add32 d t1; e; f; g]
  | _ => st
  end.

Definition compress (H : list Z) (block : list Z) : list Z :=
  let w := rev (schedule 48 (rev (words block))) in
  let st := fold_left round (combine K w) H in
  map (fun p => add32 (fst p) (snd p)) (combine H st).

Fixpoint blocks (n : nat) (H : list Z) (bytes : list Z) : list Z :=
  match n with
  | O => H
  | S n' => blocks n' (compress H (firstn 64 bytes)) (skipn 64 bytes)
  end.

Definition word_bytes (x : Z) : list Z :=
  [Z.shiftr x 24 mod 256; Z.shiftr x 16 mod 256; Z.shiftr x 8 mod 256; x mod 256].

(** [sha256.Sum224(data)]: the 28 bytes of the digest. *)
Definition Sum224 (data : string) : list Z :=
  let bytes := pad (map byte_of (list_ascii_of_string data)) in
  let H := blocks (List.length bytes / 64) init224 bytes in
  flat_map word_bytes (firstn 7 H).

(** The range of a byte. *)
Definition is_byte (v : Z) : Prop := 0 <= v < 256.

End Sha256.

Module Hex.

Definition hextable : string := "0123456789abcdef".

Definition digit (n : Z) : ascii :=
  match String.get (Z.to_nat n) hextable with
  | Some c => c
  | None => "0"%char
  end.

(** [hex.EncodeToString]: two digits per byte, the high one first. *)
Fixpoint EncodeToString (src : list Z) : string :=
  match src with
  | [] => ""
  | v :: rest =>
      String (digit (Z.shiftr (v mod 256) 4))
        (String (digit (Z.land (v mod 256) 15)) (EncodeToString rest))
  end.

(** The value of a hexadecimal digit. *)
Definition undigit (c : ascii) : Z :=
  match String.index 0 (String c "") hextable with
  | Some i => Z.of_nat i
  | None => 0
  end.

End Hex.

(** ** unicode/utf8 *)

Module Utf8.

(** The length of the encoding that starts with the byte [b0]: one byte
    below 0x80, two from 0xC2, three from 0xE0, four from 0xF0 to 0xF4, and
    none (0) for a byte that starts no encoding. *)
Definition size (b0 : nat) : nat :=
  if (b0 <? 128)%nat then 1
  else if (b0 <? 194)%nat then 0
  else if (b0 <? 224)%nat then 2
  else if (b0 <? 240)%nat then 3
  else if (b0 <? 245)%nat then 4
  else 0.

(** The range of the second byte: narrower after 0xE0 and 0xF0 (no overlong
    encoding) and after 0xED and 0xF4 (no surrogate, nothing above
    U+10FFFF). *)
Definition accept_lo (b0 : nat) : nat :=
  if (b0 =? 224)%nat then 160 else if (b0 =? 240)%nat then 144 else 128.

Definition accept_hi (b0 : nat) : nat :=
  if (b0 =? 237)%nat then 159 else if (b0 =? 244)%nat then 143 else 191.

Definition between (lo hi : nat) (c : ascii) : bool :=
  let n := nat_of_ascii c in (lo <=? n)%nat && (n <=? hi)%nat.

(** [utf8.ValidString]: the bytes are encodings of runes, one after the
    other. *)
Fixpoint ValidString (s : string) : bool :=
  match s with
  | EmptyString => true
  | String c0 s1 =>
      let b0 := nat_of_ascii c0 in
      match size b0 with
      | 1%nat => ValidString s1
      | 2%nat =>
          match s1 with
          | String c1 s2 => between (accept_lo b0) (accept_hi b0) c1 && ValidString s2
          | _ => false
          end
      | 3%nat =>
          match s1 with
          | String c1 (String c2 s3) =>
              between (accept_lo b0) (accept_hi b0) c1 && between 128 191 c2
              && ValidString s3
          | _ => false
          end
      | 4%nat =>
          match s1 with
          | String c1 (String c2 (String c3 s4)) =>
              between (accept_lo b0) (accept_hi b0) c1 && between 128 191 c2
              && between 128 191 c3 && ValidString s4
          | _ => false
          end
      | _ => false
      end
  end.

End Utf8.

(** ** encoding/json, as far as the package uses it

    [json.Marshal] of an attribute map and [json.Unmarshal] into a
    [map[string]interface{}]. The bytes in between are kept as the JSON
    document they spell: bytes that spell none make [json.Unmarshal] return
    a syntax error and are not part of the model. *)

Module Json.
Import Go.

(** A JSON document. A number is its literal, [m] times ten to the [e]. *)
Inductive json : Type :=
| JNull
| JBool (b : bool)
| JNumber (m : Z) (e : Z)
| JString (s : string)
| JArray (l : list json)
| JObject (members : list (string * json)).

(** The decimal literal of a finite [float64] (its exact value; Go prints
    the shortest literal that reads back as the same float). *)
Definition float64_literal (s : bool) (m : positive) (e : Z) : json :=
  let z := if s then Zneg m else Zpos m in
  if 0 <=? e then JNumber (z * 2 ^ e) 0 else JNumber (z * 5 ^ (- e)) e.

(** [json.Marshal(v)]: an [int] is written as its decimal literal, a slice as
    an array, a map as an object. A NaN or an infinity is the one value the
    encoder refuses. (Not modelled: the members of an object are written in
    the order of their keys; bytes of a string that are not UTF-8 are
    written as U+FFFD; a nil slice is written as null.) *)
Fixpoint Marshal_value (v : value) : result json :=
  match v with
  | VNil => Ok JNull
  | VBool b => Ok (JBool b)
  | VString s => Ok (JString s)
  | VInt i => Ok (JNumber i 0)
  | VInt64 i => Ok (JNumber i 0)
  | VFloat64 f =>
      match f with
      | S754_zero _ => Ok (JNumber 0 0)
      | S754_finite s m e => Ok (float64_literal s m e)
      | S754_infinity _ | S754_nan => Err "json: unsupported value"
      end
  | VStrings l => Ok (JArray (map JString l))
  | VSlice l =>
      (fix elements (l : list value) : result json :=
         match l with
         | [] => Ok (JArray [])
         | x :: l' =>
             match Marshal_value x, elements l' with
             | Ok j, Ok (JArray js) => Ok (JArray (j :: js))
             | Err e, _ => Err e
             | _, Err e => Err e
             | _, Ok other => Ok other
             end
         end) l
  | VMap m => Marshal_object m
  end
with Marshal_object (m : object) : result json :=
  match m with
  | Object es =>
      (fix members (es : list (string * value)) : result json :=
         match es with
         | [] => Ok (JObject [])
         | (k, x) :: es' =>
             match Marshal_value x, members es' with
             | Ok j, Ok (JObject js) => Ok (JObject ((k, j) :: js))
             | Err e, _ => Err e
             | _, Err e => Err e
             | _, Ok other => Ok other
             end
         end) es
  end.

(** [strconv.ParseFloat(s, 64)] at the literal [m] times ten to the [e]: the
    nearest [float64], ties to even. An integer is rounded as it stands; a
    fraction is the quotient of two integers, rounded once. *)
Definition ParseFloat (m e : Z) : float64 :=
  if 0 <=? e then binary_normalize prec64 emax64 (m * 10 ^ e) 0 false
  else
    match m with
    | Z0 => S754_zero false
    | Zpos p =>
        SFdiv prec64 emax64 (S754_finite false p 0)
          (S754_finite false (Z.to_pos (10 ^ (- e))) 0)
    | Zneg p =>
        SFdiv prec64 emax64 (S754_finite true p 0)
          (S754_finite false (Z.to_pos (10 ^ (- e))) 0)
    end.

(** A number read into an [interface{}]: a [float64], and a decoding error
    when the literal is out of the range of a [float64]. *)
Definition convertNumber (m e : Z) : result value :=
  match ParseFloat m e with
  | S754_infinity _ | S754_nan => Err "json: cannot unmarshal number into Go value of type float64"
  | f => Ok (VFloat64 f)
  end.

(** A JSON value read into an [interface{}]: null is nil, a number is a
    [float64], an array is a [[]interface{}], an object is a
    [map[string]interface{}] (of a key that occurs twice the last value
    stays). [json.Unmarshal] goes on after a number out of range and returns
    the first such error at the end; here the error is returned at once, the
    values decoded besides it being dropped by every caller. *)
Fixpoint valueInterface (j : json) : result value :=
  match j with
  | JNull => Ok VNil
  | JBool b => Ok (VBool b)
  | JNumber m e => convertNumber m e
  | JString s => Ok (VString s)
  | JArray l =>
      (fix elements (l : list json) : result value :=
         match l with
         | [] => Ok (VSlice [])
         | x :: l' =>
             match valueInterface x, elements l' with
             | Ok v, Ok (VSlice vs) => Ok (VSlice (v :: vs))
             | Err e, _ => Err e
             | _, Err e => Err e
             | _, Ok other => Ok other
             end
         end) l
  | JObject members =>
      (fix fields (ms : list (string * json)) (acc : object) : result value :=
         match ms with
         | [] => Ok (VMap acc)
         | (k, x) :: ms' =>
             match valueInterface x with
             | Ok v => fields ms' (mapAssign acc k v)
             | Err e => Err e
             end
         end) members make_map
  end.

(** [json.Unmarshal(b, &tmp)] for [tmp] an empty [map[string]interface{}]:
    an object fills the map, null leaves no entry, any other document is an
    error. *)
Definition Unmarshal_map (b : json) : result object :=
  match b with
  | JObject _ =>
      match valueInterface b with
      | Ok (VMap m) => Ok m
      | Ok _ => Err "json: cannot unmarshal into Go value of type map[string]interface {}"
      | Err e => Err e
      end
  | JNull => Ok make_map
  | _ => Err "json: cannot unmarshal into Go value of type map[string]interface {}"
  end.

(** The values [json.Unmarshal] stores in an [interface{}]: nil, a bool, a
    string, a [float64], a [[]interface{}] or a [map[string]interface{}] of
    such values. *)
Fixpoint generic (v : value) : bool :=
  match v with
  | VNil | VBool _ | VString _ | VFloat64 _ => true
  | VInt _ | VInt64 _ | VStrings _ => false
  | VSlice l => forallb generic l
  | VMap m => generic_object m
  end
with generic_object (m : object) : bool :=
  match m with
  | Object es => forallb (fun e => generic (snd e)) es
  end.

(** *** A value written and read back

    [reads_as v v']: [v'] is what [json.Unmarshal] stores for the document
    [json.Marshal] writes for [v], as far as the readers of the attribute
    maps can tell: an [int] comes back as the [float64] of its value, a
    [[]string] as a [[]interface{}] of strings, a map as a map with the
    same value, read back, under every key. *)
Inductive reads_as : value -> value -> Prop :=
| reads_nil : reads_as VNil VNil
| reads_bool (b : bool) : reads_as (VBool b) (VBool b)
| reads_string (s : string) : reads_as (VString s) (VString s)
| reads_int (i : Z) (f : float64) :
    float64_to_int f = i -> reads_as (VInt i) (VFloat64 f)
| reads_strings (l : list string) : reads_as (VStrings l) (VSlice (map VString l))
| reads_slice (l l' : list value) :
    Forall2 reads_as l l' -> reads_as (VSlice l) (VSlice l')
| reads_map (m m' : object) :
    (forall key, reads_as (mapIndex m key) (mapIndex m' key)) ->
    reads_as (VMap m) (VMap m').

(** [key] is a key of the entries. *)
Definition has_key (es : list (string * value)) (key : string) : bool :=
  existsb (fun e => String.eqb (fst e) key) es.

(** No key occurs twice (what holds of every map of the program). *)
Fixpoint distinct_keys (es : list (string * value)) : bool :=
  match es with
  | [] => true
  | e :: es' =>
      negb (existsb (fun e' => String.eqb (fst e') (fst e)) es') && distinct_keys es'
  end.

(** The values the encoder and the decoder take there and back without a
    loss for the readers: no [float64] and no [int64] (the model writes
    none), every [int] of at most 53 bits. *)
Fixpoint writable (v : value) : bool :=
  match v with
  | VNil | VBool _ | VString _ | VStrings _ => true
  | VInt i => (- 2 ^ 53 <? i) && (i <? 2 ^ 53)
  | VInt64 _ | VFloat64 _ => false
  | VSlice l => forallb writable l
  | VMap m => writable_object m
  end
with writable_object (m : object) : bool :=
  match m with
  | Object es => forallb (fun e => writable (snd e)) es && distinct_keys es
  end.

(** The map the decoder fills from the members of an object, one
    assignment per member. *)
Definition assign_all (vs : list (string * value)) (acc : object) : object :=
  fold_left (fun a e => mapAssign a (fst e) (snd e)) vs acc.

(** A member of a JSON object and the entry it is read into. *)
Definition read_member (kj : string * json) (kv : string * value) : Prop :=
  fst kj = fst kv /\ valueInterface (snd kj) = Ok (snd kv).

(** An entry of a map and the entry read back for it. *)
Definition reads_entry (e e' : string * value) : Prop :=
  fst e = fst e' /\ reads_as (snd e) (snd e').

End Json.

(** ** Package wdydoc: the document model (model.go, util.go) *)

Module Wdydoc.
Import Go.

(** *** The type discriminators (util.go) *)

Definition typeAttrName : string := "type".
Definition WorkspaceType : string := "workspace".
Definition DocumentType : string := "document".
Definition ChapterType : string := "chapter".
Definition AuthorType : string := "author".
Definition NewlineType : string := "newline".
Definition NewpageType : string := "newpage".
Definition ItalicType : string := "italic".
Definition BoldType : string := "bold".
Definition UnderlineType : string := "underline".
Definition CodeType : string := "code".
Definition ImageType : string := "image".
Definition TOCType : string := "toc".
Definition TitlepageType : string := "titlepage".
Definition TextType : string := "text".

(** The discriminators [fromJson] has a case for. *)
Definition registry : list string :=
  [ WorkspaceType; DocumentType; AuthorType; ChapterType; TextType; TOCType;
    NewlineType; ItalicType; BoldType; UnderlineType; CodeType; ImageType;
    TitlepageType; NewpageType ].

(** *** The node types (model.go, util.go) *)

Record Author : Type := Build_Author {
  Author_Firstname : string;
  Author_Lastname : string;
  Author_EMail : string }.

Record Span : Type := Build_Span {
  Span_Value : string }.

Record Code : Type := Build_Code {
  Code_Hint : string;
  Code_Lines : list string }.

Record Image : Type := Build_Image {
  Image_Src : string;
  Image_Width : string;
  Image_Height : string }.

Record defaultType : Type := Build_defaultType {
  defaultType_name : string }.

(** [Discriminator] is the interface; its method set has unexported methods,
    so the implementations are exactly the types of this package. The
    constructors name the dynamic type: a pointer for every struct but
    [defaultType], which is stored by value. *)
Inductive Discriminator : Type :=
| PWorkspace (w : Workspace)          (* *Workspace *)
| PDocument (d : Document)            (* *Document *)
| PAuthor (a : Author)                (* *Author *)
| PChapter (c : Chapter)              (* *Chapter *)
| PSpan (s : Span)                    (* *Span *)
| PCode (c : Code)                    (* *Code *)
| PImage (i : Image)                  (* *Image *)
| VdefaultType (d : defaultType)      (* defaultType *)
| PdefaultBody (d : defaultBody)      (* *defaultBody *)
with Workspace : Type :=
| Build_Workspace (Format : Z) (Version : string) (Title : string)
    (Resources : list Discriminator)
with Document : Type :=
| Build_Document (Id : string) (Title : string) (Authors : list Author)
    (Body : list Discriminator)
with Chapter : Type :=
| Build_Chapter (Title : string) (Level : Z) (Body : list Discriminator)
with defaultBody : Type :=
| Build_defaultBody (name : string) (Body : list Discriminator).

Scheme Discriminator_mut := Induction for Discriminator Sort Prop
with Workspace_mut := Induction for Workspace Sort Prop
with Document_mut := Induction for Document Sort Prop
with Chapter_mut := Induction for Chapter Sort Prop
with defaultBody_mut := Induction for defaultBody Sort Prop.

Definition Workspace_Format (w : Workspace) : Z :=
  match w with Build_Workspace format _ _ _ => format end.
Definition Workspace_Version (w : Workspace) : string :=
  match w with Build_Workspace _ version _ _ => version end.
Definition Workspace_Title (w : Workspace) : string :=
  match w with Build_Workspace _ _ title _ => title end.
Definition Workspace_Resources (w : Workspace) : list Discriminator :=
  match w with Build_Workspace _ _ _ resources => resources end.

Definition Document_Id (c : Document) : string :=
  match c with Build_Document id _ _ _ => id end.
Definition Document_Title (c : Document) : string :=
  match c with Build_Document _ title _ _ => title end.
Definition Document_Authors (c : Document) : list Author :=
  match c with Build_Document _ _ authors _ => authors end.
Definition Document_Body (c : Document) : list Discriminator :=
  match c with Build_Document _ _ _ body => body end.

Definition Chapter_Title (c : Chapter) : string :=
  match c with Build_Chapter title _ _ => title end.
Definition Chapter_Level (c : Chapter) : Z :=
  match c with Build_Chapter _ level _ => level end.
Definition Chapter_Body (c : Chapter) : list Discriminator :=
  match c with Build_Chapter _ _ body => body end.

Definition defaultBody_name (d : defaultBody) : string :=
  match d with Build_defaultBody name _ => name end.
Definition defaultBody_Body (d : defaultBody) : list Discriminator :=
  match d with Build_defaultBody _ body => body end.

(** The zero values [&Workspace{}], [&Document{}]. *)
Definition Workspace_zero : Workspace := Build_Workspace 0 "" "" [].
Definition Document_zero : Document := Build_Document "" "" [] [].

(** *** The element constructors (model.go) *)

Definition Newpage : Discriminator := VdefaultType (Build_defaultType NewpageType).
Definition Newline : Discriminator := VdefaultType (Build_defaultType NewlineType).
Definition TOC : Discriminator := VdefaultType (Build_defaultType TOCType).
Definition Italic (body : list Discriminator) : defaultBody :=
  Build_defaultBody ItalicType body.
Definition Bold (body : list Discriminator) : defaultBody :=
  Build_defaultBody BoldType body.
Definition Underline (body : list Discriminator) : defaultBody :=
  Build_defaultBody UnderlineType body.
Definition TitlePage (body : list Discriminator) : defaultBody :=
  Build_defaultBody TitlepageType body.
Definition Text (str : string) : Span := Build_Span str.

(** *** Type() *)

Definition Workspace_Type (w : Workspace) : string := WorkspaceType.
Definition Document_Type (c : Document) : string := DocumentType.
Definition Author_Type (a : Author) : string := AuthorType.
Definition Chapter_Type (c : Chapter) : string := ChapterType.
Definition Span_Type (t : Span) : string := TextType.
Definition Code_Type (c : Code) : string := CodeType.
Definition Image_Type (c : Image) : string := ImageType.
Definition defaultType_Type (d : defaultType) : string := defaultType_name d.
Definition defaultBody_Type (d : defaultBody) : string := defaultBody_name d.

Definition Discriminator_Type (d : Discriminator) : string :=
  match d with
  | PWorkspace w => Workspace_Type w
  | PDocument c => Document_Type c
  | PAuthor a => Author_Type a
  | PChapter c => Chapter_Type c
  | PSpan t => Span_Type t
  | PCode c => Code_Type c
  | PImage c => Image_Type c
  | VdefaultType d => defaultType_Type d
  | PdefaultBody d => defaultBody_Type d
  end.

(** The dynamic type of an interface value, as a panic prints it. *)
Definition Discriminator_dynType (d : Discriminator) : string :=
  match d with
  | PWorkspace _ => "*wdydoc.Workspace"
  | PDocument _ => "*wdydoc.Document"
  | PAuthor _ => "*wdydoc.Author"
  | PChapter _ => "*wdydoc.Chapter"
  | PSpan _ => "*wdydoc.Span"
  | PCode _ => "*wdydoc.Code"
  | PImage _ => "*wdydoc.Image"
  | VdefaultType _ => "wdydoc.defaultType"
  | PdefaultBody _ => "*wdydoc.defaultBody"
  end.

(** *** Workspace.ById (model.go) *)

(** The loop of [ById] over [w.Resources]: the first [*Document] whose [Id]
    is [id], or nil. *)
Fixpoint ById_range (resources : list Discriminator) (id : string)
  : option Discriminator :=
  match resources with
  | [] => None
  | r :: rest =>
      match r with
      | PDocument doc =>
          if String.eqb (Document_Id doc) id then Some (PDocument doc)
          else ById_range rest id
      | _ => ById_range rest id
      end
  end.

Definition Workspace_ById (w : Workspace) (id : string) : option Discriminator :=
  ById_range (Workspace_Resources w) id.

(** *** The attribute readers and writers (util.go) *)

Definition optString (m : object) (key : string) : string :=
  match mapIndex m key with
  | VString str => str
  | _ => ""
  end.

Definition optStringSlice (m : object) (key : string) : list string :=
  match mapIndex m key with
  | VStrings str => str
  | _ => []
  end.

Definition optInt (m : object) (key : string) : Z :=
  match mapIndex m key with
  | VInt i => i
  | _ =>
      match mapIndex m key with
      | VInt64 i => i                       (* int(i), the same 64 bits *)
      | _ =>
          match mapIndex m key with
          | VFloat64 i => float64_to_int i  (* int(i) *)
          | _ => 0
          end
      end
  end.

Definition optSet (m : object) (key : string) (val : value) : object :=
  let m := match val with VNil => mapDelete m key | _ => m end in
  match val with
  | VString s => if String.eqb s "" then mapDelete m key else mapAssign m key (VString s)
  | _ => m
  end.

(** [assertObjList]: the maps among the elements of a [[]interface{}]; no
    element otherwise. *)
Definition assertObjList (v : value) : list object :=
  match v with
  | VSlice slice =>
      (fix range (l : list value) : list object :=
         match l with
         | [] => []
         | VMap m :: l' => m :: range l'
         | _ :: l' => range l'
         end) slice
  | _ => []
  end.

(** [for _, obj := range assertObjList(v) { ... f(obj) ... }] with the body
    applied to the maps inside [v] themselves ([rangeObjList_eq]: it is
    [map f (assertObjList v)]). *)
Definition rangeObjList {A : Type} (f : object -> A) (v : value) : list A :=
  match v with
  | VSlice slice =>
      (fix range (l : list value) : list A :=
         match l with
         | [] => []
         | VMap m :: l' => f m :: range l'
         | _ :: l' => range l'
         end) slice
  | _ => []
  end.

(** [toJson(genericSlice)]: the slice of the items' attribute maps. The Go
    function reads the items by reflection and asserts each to be a
    [Discriminator]; here the item type's [toJson] is passed. *)
Definition toJson {A : Type} (item_toJson : A -> object) (genericSlice : list A)
  : list value :=
  map (fun item => VMap (item_toJson item)) genericSlice.

(** *** toJson *)

Definition Author_toJson (a : Author) : object :=
  let m := make_map in
  let m := mapAssign m typeAttrName (VString (Author_Type a)) in
  let m := mapAssign m "firstname" (VString (Author_Firstname a)) in
  let m := mapAssign m "lastname" (VString (Author_Lastname a)) in
  let m := mapAssign m "email" (VString (Author_EMail a)) in
  m.

Definition Span_toJson (t : Span) : object :=
  let m := make_map in
  let m := mapAssign m typeAttrName (VString (Span_Type t)) in
  let m := mapAssign m "value" (VString (Span_Value t)) in
  m.

Definition Code_toJson (c : Code) : object :=
  let m := make_map in
  let m := mapAssign m typeAttrName (VString (Code_Type c)) in
  let m := mapAssign m "hint" (VString (Code_Hint c)) in
  let m := mapAssign m "lines" (VStrings (Code_Lines c)) in
  m.

Definition Image_toJson (c : Image) : object :=
  let m := make_map in
  let m := mapAssign m typeAttrName (VString (Image_Type c)) in
  let m := mapAssign m "src" (VString (Image_Src c)) in
  let m := mapAssign m "width" (VString (Image_Width c)) in
  let m := mapAssign m "height" (VString (Image_Height c)) in
  m.

Definition defaultType_toJson (d : defaultType) : object :=
  let m := make_map in
  let m := mapAssign m typeAttrName (VString (defaultType_Type d)) in
  m.

Fixpoint Discriminator_toJson (d : Discriminator) : object :=
  match d with
  | PWorkspace w => Workspace_toJson w
  | PDocument c => Document_toJson c
  | PAuthor a => Author_toJson a
  | PChapter c => Chapter_toJson c
  | PSpan t => Span_toJson t
  | PCode c => Code_toJson c
  | PImage c => Image_toJson c
  | VdefaultType d => defaultType_toJson d
  | PdefaultBody d => defaultBody_toJson d
  end
with Workspace_toJson (w : Workspace) : object :=
  match w with
  | Build_Workspace format version title resources =>
      let m := make_map in
      let m := mapAssign m typeAttrName (VString WorkspaceType) in
      let m := mapAssign m "title" (VString title) in
      let m := mapAssign m "version" (VString version) in
      let m := mapAssign m "format" (VInt format) in
      let m := mapAssign m "resources" (VSlice (toJson Discriminator_toJson resources)) in
      m
  end
with Document_toJson (c : Document) : object :=
  match c with
  | Build_Document id title authors body =>
      let m := make_map in
      let m := mapAssign m typeAttrName (VString DocumentType) in
      let m := optSet m "id" (VString id) in
      let m := mapAssign m "title" (VString title) in
      let m := mapAssign m "authors" (VSlice (toJson Author_toJson authors)) in
      let m := mapAssign m "body" (VSlice (toJson Discriminator_toJson body)) in
      m
  end
with Chapter_toJson (c : Chapter) : object :=
  match c with
  | Build_Chapter title level body =>
      let m := make_map in
      let m := mapAssign m typeAttrName (VString ChapterType) in
      let m := mapAssign m "title" (VString title) in
      let m := mapAssign m "level" (VInt level) in
      let m := mapAssign m "body" (VSlice (toJson Discriminator_toJson body)) in
      m
  end
with defaultBody_toJson (d : defaultBody) : object :=
  match d with
  | Build_defaultBody name body =>
      let m := make_map in
      let m := mapAssign m typeAttrName (VString name) in
      let m := mapAssign m "body" (VSlice (toJson Discriminator_toJson body)) in
      m
  end.

(** *** fromJson

    The methods [fromJson] of the node types call the function [fromJson]
    on the children; they are written over it ([decode]) and the function
    ties the knot. A method fills the receiver field by field; here it
    returns the filled value. *)

Section Methods.
Variable decode : object -> outcome Discriminator.

(** [for _, obj := range assertObjList(v) { s = append(s, fromJson(obj)) }] *)
Definition fromJson_range (v : value) : outcome (list Discriminator) :=
  collect (rangeObjList decode v).

(** [fromJson(obj)] asserted to be a pointer to an [Author] *)
Definition fromJson_Author (obj : object) : outcome Author :=
  bind (decode obj) (fun d =>
    match d with
    | PAuthor a => Return a
    | _ => Panics (PanicInterfaceConversion (Discriminator_dynType d) "*wdydoc.Author")
    end).

Definition fromJson_Author_range (v : value) : outcome (list Author) :=
  collect (rangeObjList fromJson_Author v).

Definition Workspace_fromJson (m : object) : outcome Workspace :=
  bind (assertString (mapIndex m "title")) (fun title =>
  bind (assertString (mapIndex m "version")) (fun version =>
  let format := optInt m "format" in
  bind (mapIndexWith fromJson_range m "resources") (fun resources =>
  Return (Build_Workspace format version title resources)))).

Definition Document_fromJson (m : object) : outcome Document :=
  let title := optString m "title" in
  let id := optString m "id" in
  bind (mapIndexWith fromJson_Author_range m "authors") (fun authors =>
  bind (mapIndexWith fromJson_range m "body") (fun body =>
  Return (Build_Document id title authors body))).

Definition Chapter_fromJson (m : object) : outcome Chapter :=
  let title := optString m "title" in
  let level := optInt m "level" in
  bind (mapIndexWith fromJson_range m "body") (fun body =>
  Return (Build_Chapter title level body)).

Definition defaultBody_fromJson (d : defaultBody) (m : object) : outcome defaultBody :=
  bind (mapIndexWith fromJson_range m "body") (fun body =>
  Return (Build_defaultBody (defaultBody_name d) body)).

End Methods.

Definition Author_fromJson (m : object) : outcome Author :=
  bind (assertString (mapIndex m "firstname")) (fun firstname =>
  bind (assertString (mapIndex m "lastname")) (fun lastname =>
  bind (assertString (mapIndex m "email")) (fun email =>
  Return (Build_Author firstname lastname email)))).

Definition Span_fromJson (m : object) : Span :=
  Build_Span (optString m "value").

Definition Code_fromJson (m : object) : Code :=
  Build_Code (optString m "hint") (optStringSlice m "lines").

Definition Image_fromJson (m : object) : Image :=
  Build_Image (optString m "src") (optString m "width") (optString m "height").

Definition defaultType_fromJson (d : defaultType) (m : object) : defaultType := d.

(** [panic("unknown format type: " + typeName + " -> " + debugJson(m))] *)
Definition unknown_format_type (typeName : string) (m : object) : panic :=
  PanicMessage "unknown format type: " typeName m.

Fixpoint fromJson (m : object) : outcome Discriminator :=
  let typeName := optString m typeAttrName in
  if String.eqb typeName WorkspaceType then
    bind (Workspace_fromJson fromJson m) (fun w => Return (PWorkspace w))
  else if String.eqb typeName DocumentType then
    bind (Document_fromJson fromJson m) (fun c => Return (PDocument c))
  else if String.eqb typeName AuthorType then
    bind (Author_fromJson m) (fun a => Return (PAuthor a))
  else if String.eqb typeName ChapterType then
    bind (Chapter_fromJson fromJson m) (fun c => Return (PChapter c))
  else if String.eqb typeName TextType then
    Return (PSpan (Span_fromJson m))
  else if String.eqb typeName TOCType then
    match TOC with
    | VdefaultType d => Return (VdefaultType (defaultType_fromJson d m))
    | obj => Return obj
    end
  else if String.eqb typeName NewlineType then
    match Newline with
    | VdefaultType d => Return (VdefaultType (defaultType_fromJson d m))
    | obj => Return obj
    end
  else if String.eqb typeName ItalicType then
    bind (defaultBody_fromJson fromJson (Italic []) m) (fun d => Return (PdefaultBody d))
  else if String.eqb typeName BoldType then
    bind (defaultBody_fromJson fromJson (Bold []) m) (fun d => Return (PdefaultBody d))
  else if String.eqb typeName UnderlineType then
    bind (defaultBody_fromJson fromJson (Underline []) m) (fun d => Return (PdefaultBody d))
  else if String.eqb typeName CodeType then
    Return (PCode (Code_fromJson m))
  else if String.eqb typeName ImageType then
    Return (PImage (Image_fromJson m))
  else if String.eqb typeName TitlepageType then
    bind (defaultBody_fromJson fromJson (TitlePage []) m) (fun d => Return (PdefaultBody d))
  else if String.eqb typeName NewpageType then
    match Newpage with
    | VdefaultType d => Return (VdefaultType (defaultType_fromJson d m))
    | obj => Return obj
    end
  else
    Panics (unknown_format_type typeName m).

(** *** The builder methods (model.go)

    A method that appends to its receiver returns the receiver after the
    append, and with it the node it created where the Go method returns
    one. *)

Definition Workspace_NewDocument (w : Workspace) : Workspace * Document :=
  match w with
  | Build_Workspace format version title resources =>
      let doc := Document_zero in
      (Build_Workspace format version title (resources ++ [PDocument doc]), doc)
  end.

Definition Document_NewChapter (c : Document) (s : string) : Document * Chapter :=
  match c with
  | Build_Document id title authors body =>
      let chap := Build_Chapter s 0 [] in
      (Build_Document id title authors (body ++ [PChapter chap]), chap)
  end.

Definition Document_Add (c : Document) (e : list Discriminator) : Document :=
  match c with
  | Build_Document id title authors body =>
      Build_Document id title authors (body ++ e)
  end.

Definition Chapter_Add (c : Chapter) (e : list Discriminator) : Chapter :=
  match c with
  | Build_Chapter title level body => Build_Chapter title level (body ++ e)
  end.

Definition Chapter_NewChapter (c : Chapter) (title : string) : Chapter * Chapter :=
  match c with
  | Build_Chapter ctitle level body =>
      let chap := Build_Chapter title (wrap_int (level + 1)) [] in
      (Build_Chapter ctitle level (body ++ [PChapter chap]), chap)
  end.

Definition Chapter_Text (c : Chapter) (str : string) : Chapter :=
  Chapter_Add c [PSpan (Build_Span str)].

(** *** Building a tree

    The Go methods work on pointers: the [*Document] and [*Chapter] a builder
    method returns stays a part of the workspace it was appended to, and a
    later call through it changes that workspace. Here a pointer handed out
    by a builder method is the place of its node in the workspace: the index
    of a document among the resources, and for a chapter the indices that
    lead from the document's body down through the chapter bodies. Places
    stay valid because the builders only append. *)

Definition replace_nth {A : Type} (n : nat) (x : A) (l : list A) : list A :=
  firstn n l ++ match skipn n l with [] => [] | _ :: t => x :: t end.

(** The chapter reached from [c] along [path], replaced by its image under
    [f]; nothing when the path does not lead to a chapter. *)
Fixpoint Chapter_at (path : list nat) (f : Chapter -> Chapter) (c : Chapter)
  : option Chapter :=
  match path with
  | [] => Some (f c)
  | j :: path' =>
      match nth_error (Chapter_Body c) j with
      | Some (PChapter sub) =>
          match Chapter_at path' f sub with
          | Some sub' =>
              Some (Build_Chapter (Chapter_Title c) (Chapter_Level c)
                      (replace_nth j (PChapter sub') (Chapter_Body c)))
          | None => None
          end
      | _ => None
      end
  end.

(** The same from the body of a document. *)
Definition Document_Chapter_at (path : list nat) (f : Chapter -> Chapter) (c : Document)
  : option Document :=
  match path with
  | [] => None
  | j :: path' =>
      match nth_error (Document_Body c) j with
      | Some (PChapter sub) =>
          match Chapter_at path' f sub with
          | Some sub' =>
              Some (Build_Document (Document_Id c) (Document_Title c) (Document_Authors c)
                      (replace_nth j (PChapter sub') (Document_Body c)))
          | None => None
          end
      | _ => None
      end
  end.

Definition Workspace_Document_at (i : nat) (f : Document -> option Document) (w : Workspace)
  : option Workspace :=
  match nth_error (Workspace_Resources w) i with
  | Some (PDocument doc) =>
      match f doc with
      | Some doc' =>
          Some (Build_Workspace (Workspace_Format w) (Workspace_Version w) (Workspace_Title w)
                  (replace_nth i (PDocument doc') (Workspace_Resources w)))
      | None => None
      end
  | _ => None
  end.

(** What the element constructors [Text], [Newline], [Newpage], [TOC],
    [Italic], [Bold], [Underline], [TitlePage] and the leaf literals build:
    content without a chapter, a document or a workspace in it. *)
Fixpoint is_content (d : Discriminator) : bool :=
  match d with
  | PWorkspace _ | PDocument _ | PChapter _ => false
  | PAuthor _ | PSpan _ | PCode _ | PImage _ | VdefaultType _ => true
  | PdefaultBody b =>
      match b with
      | Build_defaultBody _ body => forallb is_content body
      end
  end.

(** One call of a builder method. [Add] appends whatever it is given, as
    the Go methods do: the elements are the nodes as they are at the call.
    (An element that holds a chapter made by [NewChapter] elsewhere is then
    in two places; a later call through its pointer is a call at one of
    them here. With content only, no chapter is in two places and every
    chapter of the workspace has a place.) *)
Inductive builder_call : Type :=
| CallNewDocument
    (* w.NewDocument() *)
| CallDocumentNewChapter (doc : nat) (s : string)
    (* doc.NewChapter(s) *)
| CallDocumentAdd (doc : nat) (e : list Discriminator)
    (* doc.Add(e...) *)
| CallChapterNewChapter (doc : nat) (path : list nat) (title : string)
    (* chap.NewChapter(title) *)
| CallChapterAdd (doc : nat) (path : list nat) (e : list Discriminator)
    (* chap.Add(e...) *)
| CallChapterText (doc : nat) (path : list nat) (str : string).
    (* chap.Text(str) *)

Definition call (w : Workspace) (c : builder_call) : option Workspace :=
  match c with
  | CallNewDocument => Some (fst (Workspace_NewDocument w))
  | CallDocumentNewChapter doc s =>
      Workspace_Document_at doc (fun d => Some (fst (Document_NewChapter d s))) w
  | CallDocumentAdd doc e =>
      Workspace_Document_at doc (fun d => Some (Document_Add d e)) w
  | CallChapterNewChapter doc path title =>
      Workspace_Document_at doc
        (Document_Chapter_at path (fun c => fst (Chapter_NewChapter c title))) w
  | CallChapterAdd doc path e =>
      Workspace_Document_at doc (Document_Chapter_at path (fun c => Chapter_Add c e)) w
  | CallChapterText doc path str =>
      Workspace_Document_at doc (Document_Chapter_at path (fun c => Chapter_Text c str)) w
  end.

(** A call that gives [Add] content only: no chapter, document or
    workspace, at any depth of the elements. *)
Definition adds_content (c : builder_call) : bool :=
  match c with
  | CallDocumentAdd _ e | CallChapterAdd _ _ e => forallb is_content e
  | _ => true
  end.

(** A sequence of builder calls, from the first. *)
Fixpoint build (w : Workspace) (calls : list builder_call) : option Workspace :=
  match calls with
  | [] => Some w
  | c :: calls' =>
      match call w c with
      | Some w' => build w' calls'
      | None => None
      end
  end.

(** Chapter levels agree with the nesting: a chapter with [depth] chapters
    around it has [Level] [depth]. *)
Fixpoint levels_consistent (depth : Z) (d : Discriminator) : bool :=
  match d with
  | PWorkspace w =>
      match w with
      | Build_Workspace _ _ _ resources => forallb (levels_consistent depth) resources
      end
  | PDocument c =>
      match c with
      | Build_Document _ _ _ body => forallb (levels_consistent depth) body
      end
  | PChapter c =>
      match c with
      | Build_Chapter _ level body =>
          (level =? depth) && forallb (levels_consistent (depth + 1)) body
      end
  | PdefaultBody b =>
      match b with
      | Build_defaultBody _ body => forallb (levels_consistent depth) body
      end
  | PAuthor _ | PSpan _ | PCode _ | PImage _ | VdefaultType _ => true
  end.

(** The same with a bound: every chapter lies less than [n] chapters deep
    (and not above the top). After [n] builder calls no chapter lies
    deeper. *)
Fixpoint levels_within (n : Z) (depth : Z) (d : Discriminator) : bool :=
  match d with
  | PWorkspace w =>
      match w with
      | Build_Workspace _ _ _ resources => forallb (levels_within n depth) resources
      end
  | PDocument c =>
      match c with
      | Build_Document _ _ _ body => forallb (levels_within n depth) body
      end
  | PChapter c =>
      match c with
      | Build_Chapter _ level body =>
          (level =? depth) && (0 <=? depth) && (depth <? n)
          && forallb (levels_within n (depth + 1)) body
      end
  | PdefaultBody b =>
      match b with
      | Build_defaultBody _ body => forallb (levels_within n depth) body
      end
  | PAuthor _ | PSpan _ | PCode _ | PImage _ | VdefaultType _ => true
  end.

(** What a builder method does to its chapter, for the invariant: the
    chapter keeps its level and its body stays consistent one call later. *)
Definition keeps_levels (f : Chapter -> Chapter) : Prop :=
  forall n depth c, n <= maxInt ->
    levels_within n depth (PChapter c) = true ->
    levels_within (n + 1) depth (PChapter (f c)) = true.

(** No code block of the tree has a line. *)
Fixpoint no_code_lines (d : Discriminator) : bool :=
  match d with
  | PWorkspace w =>
      match w with
      | Build_Workspace _ _ _ resources => forallb no_code_lines resources
      end
  | PDocument c =>
      match c with
      | Build_Document _ _ _ body => forallb no_code_lines body
      end
  | PChapter c =>
      match c with
      | Build_Chapter _ _ body => forallb no_code_lines body
      end
  | PdefaultBody b =>
      match b with
      | Build_defaultBody _ body => forallb no_code_lines body
      end
  | PCode c => match Code_Lines c with [] => true | _ => false end
  | PAuthor _ | PSpan _ | PImage _ | VdefaultType _ => true
  end.

(** The trees the exported API can construct: the [name] of a [defaultType]
    or [defaultBody] is unexported and set by the element constructors
    only. *)
Fixpoint constructible (d : Discriminator) : bool :=
  match d with
  | PWorkspace w =>
      match w with
      | Build_Workspace _ _ _ resources => forallb constructible resources
      end
  | PDocument c =>
      match c with
      | Build_Document _ _ _ body => forallb constructible body
      end
  | PChapter c =>
      match c with
      | Build_Chapter _ _ body => forallb constructible body
      end
  | PdefaultBody b =>
      match b with
      | Build_defaultBody name body =>
          (String.eqb name ItalicType || String.eqb name BoldType
           || String.eqb name UnderlineType || String.eqb name TitlepageType)
          && forallb constructible body
      end
  | VdefaultType t =>
      String.eqb (defaultType_name t) NewpageType
      || String.eqb (defaultType_name t) NewlineType
      || String.eqb (defaultType_name t) TOCType
  | PAuthor _ | PSpan _ | PCode _ | PImage _ => true
  end.

(** The maps [fromJson m] calls [fromJson] on: the children it decodes, by
    the discriminator of [m]. *)
Definition decoded_children (m : object) : list object :=
  let typeName := optString m typeAttrName in
  if String.eqb typeName WorkspaceType then assertObjList (mapIndex m "resources")
  else if String.eqb typeName DocumentType then
    assertObjList (mapIndex m "authors") ++ assertObjList (mapIndex m "body")
  else if String.eqb typeName ChapterType || String.eqb typeName ItalicType
          || String.eqb typeName BoldType || String.eqb typeName UnderlineType
          || String.eqb typeName TitlepageType
  then assertObjList (mapIndex m "body")
  else [].

(** A map that is decoded when the maps of [roots] are: one of them, or a
    child of a map that is. *)
Inductive decoded_from (roots : list object) : object -> Prop :=
| decoded_root (m : object) : In m roots -> decoded_from roots m
| decoded_child (m child : object) :
    decoded_from roots m -> In child (decoded_children m) -> decoded_from roots child.

(** *** Marshal and Unmarshal (transformer.go) *)

Definition Marshal (w : Workspace) : result Json.json :=
  Json.Marshal_value (VMap (Workspace_toJson w)).

(** [Unmarshal] returns the error of [json.Unmarshal], or the workspace; the
    decoding of the attribute map may panic. *)
Definition Unmarshal (b : Json.json) : outcome (result Workspace) :=
  match Json.Unmarshal_map b with
  | Err err => Return (Err err)
  | Ok tmp =>
      bind (Workspace_fromJson fromJson tmp) (fun w => Return (Ok w))
  end.

(** *** The operating system and the template engines

    What the pipeline calls outside the package: the file system ([os],
    [io/ioutil], [path/filepath.Walk]), external commands ([os/exec]) and
    the engines [text/template] and [html/template]. They are operations on
    a world [W]; [T] is the type of a parsed template. A call that only
    reads takes the world; a call that may change it returns the next
    world. Output on the console ([fmt.Println]) is left out. *)

(** What [filepath.Walk] meets below a path: [Lstat] fails, or the path is
    not a directory, or it is one, with the error of reading its entries or
    the entries in the order of their names. *)
Inductive fstree : Type :=
| Missing (name : string) (err : error)
| Regular (name : string)
| Directory (name : string) (children : result (list fstree)).

Definition fstree_name (t : fstree) : string :=
  match t with
  | Missing name _ | Regular name | Directory name _ => name
  end.

Definition fstree_IsDir (t : fstree) : bool :=
  match t with
  | Directory _ _ => true
  | _ => false
  end.

Inductive flavor : Type := HtmlFlavor | TextFlavor.

Record Sys (W T : Type) : Type := Build_Sys {
  (* os.Stat(p): whether p is a directory, or the error *)
  Stat : string -> W -> result bool;
  (* os.MkdirAll(p, os.ModePerm) *)
  MkdirAll : string -> W -> option error * W;
  (* os.RemoveAll(p) *)
  RemoveAll : string -> W -> option error * W;
  (* ioutil.ReadDir(p): the names of the entries, sorted *)
  ReadDir : string -> W -> result (list string);
  (* ioutil.TempDir(dir, prefix) *)
  TempDir : string -> string -> W -> result string * W;
  (* the tree filepath.Walk(root, fn) goes through *)
  WalkTree : string -> W -> fstree;
  (* cmd := exec.Command(name, args...); cmd.Dir = dir; cmd.CombinedOutput() *)
  CombinedOutput : string -> list string -> string -> W -> option error * W;
  (* os.OpenFile(p, os.O_RDONLY, 0) and what reading it to the end gives:
     the bytes read, and the error that ended the reading, if one did *)
  OpenRead : string -> W -> result (string * option error);
  (* os.OpenFile(p, os.O_CREATE|os.O_RDWR, os.ModePerm) *)
  OpenWrite : string -> W -> option error * W;
  (* the bytes written to a file opened by OpenWrite *)
  Write : string -> string -> W -> option error * W;
  (* set.New(name).ParseFiles(file) of html/template and text/template *)
  ParseFiles : flavor -> string -> string -> W -> result T;
  (* tpl.ExecuteTemplate(out, name, model): the bytes the execution gives
     out, and the error that ended it, if one did *)
  ExecuteTemplate : flavor -> T -> string -> Discriminator -> W -> string * option error;
  (* CopyDir(src, dst) and CopyFile(src, dst) of util.go, the copy
     primitives of the pipeline *)
  CopyDir : string -> string -> W -> option error * W;
  CopyFile : string -> string -> W -> option error * W }.

Arguments Stat {W T} _ _ _.
Arguments MkdirAll {W T} _ _ _.
Arguments RemoveAll {W T} _ _ _.
Arguments ReadDir {W T} _ _ _.
Arguments TempDir {W T} _ _ _ _.
Arguments WalkTree {W T} _ _ _.
Arguments CombinedOutput {W T} _ _ _ _ _.
Arguments OpenRead {W T} _ _ _.
Arguments OpenWrite {W T} _ _ _.
Arguments Write {W T} _ _ _ _.
Arguments ParseFiles {W T} _ _ _ _ _.
Arguments ExecuteTemplate {W T} _ _ _ _ _ _.
Arguments CopyDir {W T} _ _ _ _.
Arguments CopyFile {W T} _ _ _ _.

(** A computation that may change the world. *)
Definition M (W A : Type) : Type := W -> A * W.

Definition ret {W A : Type} (a : A) : M W A := fun w => (a, w).

Definition andThen {W A B : Type} (c : M W A) (k : A -> M W B) : M W B :=
  fun w => let (a, w') := c w in k a w'.

Definition look {W A : Type} (f : W -> A) : M W A := fun w => (f w, w).

Notation "x <- c ;; k" := (andThen c (fun x => k))
  (at level 61, c at next level, right associativity).

(** *** transformer.go *)

Definition htmlTemplate : string := ".gohtml".
Definition textTemplate : string := ".tmpl".

Section Transformer.
Variables W T : Type.
Variable sys : Sys W T.

(** The implementations of the interface [Transformer]. *)
Inductive Transformer : Type :=
| PHtmlTransformer (Name : string) (Template : T)      (* *HtmlTransformer *)
| PTextTransformer (Name : string) (Template : T)      (* *TextTransformer *)
| PCopyTransformer (SrcFilename : string).             (* *CopyTransformer *)

(** A [File]; its [parent] is the template project the functions below are
    given. *)
Record File : Type := Build_File {
  File_srcFile : string;
  File_dstFilename : string;
  File_transformer : Transformer }.

(** A [Template]: the project of a template folder. The two template sets
    of the engines live in the world of [sys]. *)
Record Template : Type := Build_Template {
  Template_dir : string;
  Template_buildDir : string;
  Template_files : list File }.

Definition NewFile (parent : Template) (fname : string) (w : W) : result File :=
  let srcFile := fname in
  let basePath := Filepath.Base fname in
  let ext := Filepath.Ext basePath in
  if String.eqb (Strings.ToLower ext) htmlTemplate then
    let dstFilename :=
      Strings.slice_to basePath (Strings.len basePath - Strings.len htmlTemplate) in
    match ParseFiles sys HtmlFlavor basePath srcFile w with
    | Err err => Err ("failed to parse html template " ++ srcFile ++ ": " ++ err)
    | Ok tpl => Ok (Build_File srcFile dstFilename (PHtmlTransformer basePath tpl))
    end
  else if String.eqb (Strings.ToLower ext) textTemplate then
    let dstFilename :=
      Strings.slice_to basePath (Strings.len basePath - Strings.len textTemplate) in
    match ParseFiles sys TextFlavor basePath srcFile w with
    | Err err => Err ("failed to parse text template " ++ srcFile ++ ": " ++ err)
    | Ok tpl => Ok (Build_File srcFile dstFilename (PTextTransformer basePath tpl))
    end
  else
    Ok (Build_File srcFile basePath (PCopyTransformer srcFile)).

(** The bytes an engine gives out go to [out]; the error of the execution
    is the error of the write when that fails. *)
Definition execute_to (fl : flavor) (tpl : T) (name : string) (model : Discriminator)
    (out : string) : M W (option error) :=
  r <- look (ExecuteTemplate sys fl tpl name model) ;;
  werr <- Write sys out (fst r) ;;
  match werr with
  | Some e => ret (Some e)
  | None => ret (snd r)
  end.

Definition HtmlTransformer_Transform (Name : string) (Template : T)
    (model : Discriminator) (out : string) : M W (option error) :=
  execute_to HtmlFlavor Template Name model out.

Definition TextTransformer_Transform (Name : string) (Template : T)
    (model : Discriminator) (out : string) : M W (option error) :=
  err <- execute_to TextFlavor Template Name model out ;;
  match err with
  | Some e => ret (Some ("failed to apply text template for " ++ Name ++ ": " ++ e))
  | None => ret None
  end.

(** [io.Copy(out, in)]: what is read from [in] is written to [out]. *)
Definition io_Copy (out : string) (in_ : string * option error) : M W (option error) :=
  werr <- Write sys out (fst in_) ;;
  match werr with
  | Some e => ret (Some e)
  | None => ret (snd in_)
  end.

Definition CopyTransformer_Transform (SrcFilename : string)
    (model : Discriminator) (out : string) : M W (option error) :=
  opened <- look (OpenRead sys SrcFilename) ;;
  match opened with
  | Err err => ret (Some ("unable to open " ++ SrcFilename ++ ": " ++ err))
  | Ok in_ =>
      err <- io_Copy out in_ ;;
      match err with
      | Some e => ret (Some ("failed to copy: " ++ SrcFilename ++ ": " ++ e))
      | None => ret None
      end
  end.

Definition Transform (t : Transformer) (model : Discriminator) (out : string)
  : M W (option error) :=
  match t with
  | PHtmlTransformer Name Template => HtmlTransformer_Transform Name Template model out
  | PTextTransformer Name Template => TextTransformer_Transform Name Template model out
  | PCopyTransformer SrcFilename => CopyTransformer_Transform SrcFilename model out
  end.

Definition File_Apply (parent : Template) (f : File) (model : Discriminator)
  : M W (option error) :=
  let relativePath :=
    Strings.slice_from (File_srcFile f) (Strings.len (Template_dir parent)) in
  let dstFile :=
    Filepath.Join [Template_buildDir parent; Filepath.Dir relativePath; File_dstFilename f] in
  _ <- MkdirAll sys (Filepath.Dir dstFile) ;;
  err <- OpenWrite sys dstFile ;;
  match err with
  | Some e => ret (Some ("unable to create file " ++ dstFile ++ ": " ++ e))
  | None => Transform (File_transformer f) model dstFile
  end.

End Transformer.

Arguments PHtmlTransformer {T} Name Template.
Arguments PTextTransformer {T} Name Template.
Arguments PCopyTransformer {T} SrcFilename.
Arguments Build_File {T} _ _ _.
Arguments File_srcFile {T} _.
Arguments File_dstFilename {T} _.
Arguments File_transformer {T} _.
Arguments Build_Template {T} _ _ _.
Arguments Template_dir {T} _.
Arguments Template_buildDir {T} _.
Arguments Template_files {T} _.
Arguments NewFile {W T} sys parent fname w.
Arguments Transform {W T} sys t model out _.
Arguments CopyTransformer_Transform {W T} sys SrcFilename model out _.
Arguments TextTransformer_Transform {W T} sys Name Template model out _.
Arguments HtmlTransformer_Transform {W T} sys Name Template model out _.
Arguments File_Apply {W T} sys parent f model _.

(** *** build.go *)

(** What a [filepath.WalkFunc] returns: nil, [filepath.SkipDir] or another
    error. *)
Inductive walk_error : Type :=
| WalkNil
| SkipDir
| WalkErr (err : error).

(** A [BuildRule]. *)
Record BuildRule : Type := Build_BuildRule {
  BuildRule_Id : string;
  BuildRule_Template : string;
  BuildRule_Name : string }.

(** A [Build]. *)
Record Build : Type := Build_Build {
  Build_workspace : Workspace;
  Build_dir : string;
  Build_rules : list BuildRule;
  Build_tmpDir : string }.

Definition Build_AddRule (b : Build) (r : BuildRule) : Build :=
  Build_Build (Build_workspace b) (Build_dir b) (Build_rules b ++ [r]) (Build_tmpDir b).

Definition isUrl (str : string) : bool :=
  let str := Strings.ToLower str in
  Strings.HasPrefix str "http".

(** The staging directory of a rule: [Apply] derives it from the digest of
    the identifier followed by the template. *)
Definition transformTmpDir (b : Build) (r : BuildRule) : string :=
  let tmp := Sha256.Sum224 (BuildRule_Id r ++ BuildRule_Template r) in
  Filepath.Join [Build_tmpDir b; "transform"; Hex.EncodeToString tmp].

(** The directory a remote template is cloned into: [provideTemplate]
    derives it from the digest of the URL. *)
Definition templateDstDir (b : Build) (urlOrDir : string) : string :=
  let tmp := Sha256.Sum224 urlOrDir in
  Filepath.Join [Build_tmpDir b; "template"; Hex.EncodeToString tmp].

Section Pipeline.
Variables W T : Type.
Variable sys : Sys W T.

Definition NewBuild (w : Workspace) (dir : string) : M W (result Build) :=
  tmp <- TempDir sys "" "wdydoc" ;;
  match tmp with
  | Err err => ret (Err ("tmp dir required: " ++ err))
  | Ok tmp => ret (Ok (Build_Build w dir [] tmp))
  end.

(** The function of [ReadTemplate] given to [filepath.Walk]; [info] is the
    name of the entry and whether it is a directory. *)
Definition ReadTemplate_walkFn (buildDir : string) (w : W) (prj : Template T)
    (path : string) (info : string * bool) (err : option error)
  : walk_error * Template T :=
  match err with
  | Some err => (WalkErr ("failed to walk path " ++ path ++ ": " ++ err), prj)
  | None =>
      if (snd info && Strings.HasPrefix (fst info) ".") || String.eqb path buildDir
      then (SkipDir, prj)
      else if negb (snd info) then
        if String.eqb (fst info) ".DS_Store" then (WalkNil, prj)
        else
          match NewFile sys prj path w with
          | Err err => (WalkErr ("failed to scan file: " ++ err), prj)
          | Ok file =>
              (WalkNil,
               Build_Template (Template_dir prj) (Template_buildDir prj)
                 (Template_files prj ++ [file]))
          end
      else (WalkNil, prj)
  end.

Section Walk.
Variable A : Type.
Variable walkFn : A -> string -> string * bool -> option error -> walk_error * A.

(** [walk(path, info, walkFn)] of path/filepath, for a path [Lstat] has
    found: the function is called on the path, and on the entries of a
    directory it does not skip. *)
Fixpoint walk (path : string) (t : fstree) (acc : A) : walk_error * A :=
  match t with
  | Missing name err => walkFn acc path (name, false) (Some err)
  | Regular name => walkFn acc path (name, false) None
  | Directory name children =>
      let err := match children with Err e => Some e | Ok _ => None end in
      let (err1, acc) := walkFn acc path (name, true) err in
      match children, err1 with
      | Ok names, WalkNil =>
          (fix range (names : list fstree) (acc : A) : walk_error * A :=
             match names with
             | [] => (WalkNil, acc)
             | child :: rest =>
                 let filename := Filepath.Join [path; fstree_name child] in
                 match child with
                 | Missing _ e =>
                     let (r, acc) := walkFn acc filename (fstree_name child, false) (Some e) in
                     match r with
                     | WalkErr _ => (r, acc)
                     | _ => range rest acc
                     end
                 | _ =>
                     let (r, acc) := walk filename child acc in
                     match r with
                     | WalkNil => range rest acc
                     | SkipDir =>
                         if fstree_IsDir child then range rest acc else (SkipDir, acc)
                     | WalkErr _ => (r, acc)
                     end
                 end
             end) names acc
      | _, _ => (err1, acc)
      end
  end.

(** [filepath.Walk(root, walkFn)] over the tree found at [root]. *)
Definition Walk (root : string) (t : fstree) (acc : A) : option error * A :=
  let (err, acc) := walk root t acc in
  match err with
  | WalkNil | SkipDir => (None, acc)
  | WalkErr e => (Some e, acc)
  end.

End Walk.

(** [ReadTemplate] returns the project also when it returns an error. *)
Definition ReadTemplate (dir buildDir : string) (w : W) : Template T * option error :=
  let prj := Build_Template dir buildDir [] in
  let (err, prj) :=
    Walk (Template T) (ReadTemplate_walkFn buildDir w) dir (WalkTree sys dir w) prj in
  match err with
  | Some err => (prj, Some ("failed to list template files: " ++ err))
  | None => (prj, None)
  end.

Definition listRootFiles (dir : string) (w : W) : list string * option error :=
  match ReadDir sys dir w with
  | Err err => ([], Some ("unable to list file from " ++ dir ++ ": " ++ err))
  | Ok files => (map (fun f => Filepath.Join [dir; f]) files, None)
  end.

Definition Template_autobuild (p : Template T) : M W (list string * option error) :=
  st <- look (Stat sys (Filepath.Join [Template_buildDir p; "latexmkrc"])) ;;
  match st with
  | Ok _ =>
      err <- CombinedOutput sys "latexmk" [] (Template_buildDir p) ;;
      match err with
      | Some err =>
          ret ([], Some ("failed to build latex project in " ++ Template_buildDir p
                           ++ ": " ++ err))
      | None =>
          r <- look (listRootFiles (Template_buildDir p)) ;;
          match snd r with
          | Some err => ret ([], Some err)
          | None => ret (filter (fun f => Strings.HasSuffix f ".pdf") (fst r), None)
          end
      end
  | Err _ => look (listRootFiles (Template_buildDir p))
  end.

(** The loop of [Template.Build] over the files of the project. *)
Fixpoint Template_Build_files (p : Template T) (files : list (File T))
    (model : Discriminator) : M W (option error) :=
  match files with
  | [] => ret None
  | file :: rest =>
      err <- File_Apply sys p file model ;;
      match err with
      | Some err => ret (Some ("failed to build: " ++ err))
      | None => Template_Build_files p rest model
      end
  end.

Definition Template_Build (p : Template T) (model : Discriminator)
  : M W (list string * option error) :=
  let dstDir := Template_buildDir p in
  err <- RemoveAll sys dstDir ;;
  match err with
  | Some err => ret ([], Some ("failed to remove build dir " ++ dstDir ++ ": " ++ err))
  | None =>
      err <- MkdirAll sys dstDir ;;
      match err with
      | Some err => ret ([], Some ("failed to create build dir " ++ dstDir ++ ": " ++ err))
      | None =>
          err <- Template_Build_files p (Template_files p) model ;;
          match err with
          | Some err => ret ([], Some err)
          | None => Template_autobuild p
          end
      end
  end.

Definition IsDir (p : string) (w : W) : bool :=
  match Stat sys p w with
  | Ok isdir => isdir
  | Err _ => false
  end.

Definition Build_exec (b : Build) (dir : string) (name : string) (args : list string)
  : M W (option error) :=
  let str := "cd " ++ dir ++ " && " ++ name ++ " " ++ Strings.Join args " " in
  err <- CombinedOutput sys "git" args dir ;;
  match err with
  | Some err => ret (Some ("'" ++ str ++ "' failed: " ++ err))
  | None => ret None
  end.

Definition Build_provideTemplate (b : Build) (urlOrDir : string) : M W (result string) :=
  if isUrl urlOrDir then
    let dstDir := templateDstDir b urlOrDir in
    st <- look (Stat sys dstDir) ;;
    match st with
    | Ok _ =>
        err <- Build_exec b dstDir "git" ["pull"] ;;
        match err with
        | Some err => ret (Err err)
        | None => ret (Ok dstDir)
        end
    | Err _ =>
        err <- MkdirAll sys dstDir ;;
        match err with
        | Some err =>
            ret (Err ("failed to create template clone folder " ++ dstDir ++ ": " ++ err))
        | None =>
            err <- Build_exec b dstDir "git" ["clone"; urlOrDir; "."] ;;
            match err with
            | Some err => ret (Err err)
            | None => ret (Ok dstDir)
            end
        end
    end
  else
    st <- look (Stat sys urlOrDir) ;;
    match st with
    | Err err => ret (Err ("cannot find template " ++ urlOrDir ++ ": " ++ err))
    | Ok _ => ret (Ok urlOrDir)
    end.

(** The loop of [Apply] that copies the files of a rule to [targetDir]. *)
Fixpoint Apply_copy (targetDir : string) (files : list string) : M W (option error) :=
  match files with
  | [] => ret None
  | f :: rest =>
      let dst := Filepath.Join [targetDir; Filepath.Base f] in
      isdir <- look (IsDir f) ;;
      if (isdir : bool) then
        err <- CopyDir sys f dst ;;
        match err with
        | Some err => ret (Some ("failed to copy result folder: " ++ err))
        | None => Apply_copy targetDir rest
        end
      else
        err <- CopyFile sys f dst ;;
        match err with
        | Some err => ret (Some ("failed to copy result file: " ++ err))
        | None => Apply_copy targetDir rest
        end
  end.

(** The loop of [Apply] over the rules. The error of [tpl.Build] is assigned
    to [err] and overwritten by the result of [os.MkdirAll] before it is
    read. *)
Fixpoint Apply_rules (b : Build) (rules : list BuildRule) : M W (option error) :=
  match rules with
  | [] => ret None
  | r :: rest =>
      provided <- Build_provideTemplate b (BuildRule_Template r) ;;
      match provided with
      | Err err => ret (Some ("unable to provide template: " ++ err))
      | Ok template =>
          match Workspace_ById (Build_workspace b) (BuildRule_Id r) with
          | None => ret (Some ("workspace does not contain '" ++ BuildRule_Id r ++ "'"))
          | Some objRoot =>
              let transformTmpDir := transformTmpDir b r in
              read <- look (ReadTemplate template transformTmpDir) ;;
              match snd read with
              | Some err =>
                  ret (Some ("failed to read template " ++ template ++ ": " ++ err))
              | None =>
                  let tpl := fst read in
                  built <- Template_Build tpl objRoot ;;
                  let files := fst built in
                  let err := snd built in
                  let targetDir := Filepath.Join [Build_dir b; BuildRule_Name r] in
                  err <- MkdirAll sys targetDir ;;
                  match err with
                  | Some err => ret (Some ("mkdir " ++ targetDir ++ " failed: " ++ err))
                  | None =>
                      err <- Apply_copy targetDir files ;;
                      match err with
                      | Some err => ret (Some err)
                      | None => Apply_rules b rest
                      end
                  end
              end
          end
      end
  end.

Definition Build_Apply (b : Build) : M W (option error) :=
  Apply_rules b (Build_rules b).

End Pipeline.

Arguments ReadTemplate {W T} sys dir buildDir w.
Arguments Template_Build {W T} sys p model _.
Arguments Template_autobuild {W T} sys p _.
Arguments Build_provideTemplate {W T} sys b urlOrDir _.
Arguments Build_exec {W T} sys b dir name args _.
Arguments Apply_copy {W T} sys targetDir files _.
Arguments Apply_rules {W T} sys b rules _.
Arguments Build_Apply {W T} sys b _.
Arguments NewBuild {W T} sys w dir _.
Arguments IsDir {W T} sys p w.
Arguments listRootFiles {W T} sys dir w.

(** Whatever [fromJson] returns for a map has no line in a code block; the
    same of the maps in a value. *)
Definition decodes_without_lines (o : object) : Prop :=
  forall d, fromJson o = Return d -> no_code_lines d = true.

Definition children_without_lines (v : value) : Prop :=
  forall o, In o (assertObjList v) -> decodes_without_lines o.

(** *** Maps that decode

    What [fromJson] needs of the map [m] itself to return: the required
    strings of a workspace and of an author, an author under [authors] of a
    document (the loop asserts every decoded element to be an [*Author]),
    and a registered discriminator. *)
Definition is_string (v : value) : bool :=
  match v with VString _ => true | _ => false end.

Definition decodable_node (m : object) : bool :=
  let typeName := optString m typeAttrName in
  if String.eqb typeName WorkspaceType then
    is_string (mapIndex m "title") && is_string (mapIndex m "version")
  else if String.eqb typeName AuthorType then
    is_string (mapIndex m "firstname") && is_string (mapIndex m "lastname")
    && is_string (mapIndex m "email")
  else if String.eqb typeName DocumentType then
    forallb (fun a => String.eqb (optString a typeAttrName) AuthorType)
      (assertObjList (mapIndex m "authors"))
  else existsb (String.eqb typeName) registry.

(** *** A tree after Marshal and Unmarshal *)

(** The tree without the lines of its code blocks. *)
Fixpoint drop_lines (d : Discriminator) : Discriminator :=
  match d with
  | PWorkspace w => PWorkspace (Workspace_drop_lines w)
  | PDocument c => PDocument (Document_drop_lines c)
  | PChapter c => PChapter (Chapter_drop_lines c)
  | PdefaultBody b => PdefaultBody (defaultBody_drop_lines b)
  | PCode c => PCode (Build_Code (Code_Hint c) [])
  | PAuthor _ | PSpan _ | PImage _ | VdefaultType _ => d
  end
with Workspace_drop_lines (w : Workspace) : Workspace :=
  match w with
  | Build_Workspace format version title resources =>
      Build_Workspace format version title (map drop_lines resources)
  end
with Document_drop_lines (c : Document) : Document :=
  match c with
  | Build_Document id title authors body =>
      Build_Document id title authors (map drop_lines body)
  end
with Chapter_drop_lines (c : Chapter) : Chapter :=
  match c with
  | Build_Chapter title level body => Build_Chapter title level (map drop_lines body)
  end
with defaultBody_drop_lines (b : defaultBody) : defaultBody :=
  match b with
  | Build_defaultBody name body => Build_defaultBody name (map drop_lines body)
  end.

(** [Format] and every [Level] have at most 53 bits: the integers a
    [float64] holds exactly. *)
Fixpoint small_ints (d : Discriminator) : bool :=
  match d with
  | PWorkspace w =>
      match w with
      | Build_Workspace format _ _ resources =>
          (- 2 ^ 53 <? format) && (format <? 2 ^ 53) && forallb small_ints resources
      end
  | PDocument c =>
      match c with
      | Build_Document _ _ _ body => forallb small_ints body
      end
  | PChapter c =>
      match c with
      | Build_Chapter _ level body =>
          (- 2 ^ 53 <? level) && (level <? 2 ^ 53) && forallb small_ints body
      end
  | PdefaultBody b =>
      match b with
      | Build_defaultBody _ body => forallb small_ints body
      end
  | PAuthor _ | PSpan _ | PCode _ | PImage _ | VdefaultType _ => true
  end.

(** Every string of the tree but the lines of the code blocks is valid
    UTF-8. ([json.Marshal] writes U+FFFD for a byte that is not; the model
    of the encoder leaves the bytes as they are, which is what happens to a
    valid string.) *)
Definition Author_valid_strings (a : Author) : bool :=
  Utf8.ValidString (Author_Firstname a) && Utf8.ValidString (Author_Lastname a)
  && Utf8.ValidString (Author_EMail a).

Fixpoint valid_strings (d : Discriminator) : bool :=
  match d with
  | PWorkspace w =>
      match w with
      | Build_Workspace _ version title resources =>
          Utf8.ValidString version && Utf8.ValidString title
          && forallb valid_strings resources
      end
  | PDocument c =>
      match c with
      | Build_Document id title authors body =>
          Utf8.ValidString id && Utf8.ValidString title
          && forallb Author_valid_strings authors && forallb valid_strings body
      end
  | PChapter c =>
      match c with
      | Build_Chapter title _ body => Utf8.ValidString title && forallb valid_strings body
      end
  | PdefaultBody b =>
      match b with
      | Build_defaultBody name body => Utf8.ValidString name && forallb valid_strings body
      end
  | PAuthor a => Author_valid_strings a
  | PSpan t => Utf8.ValidString (Span_Value t)
  | PCode c => Utf8.ValidString (Code_Hint c)
  | PImage i =>
      Utf8.ValidString (Image_Src i) && Utf8.ValidString (Image_Width i)
      && Utf8.ValidString (Image_Height i)
  | VdefaultType t => Utf8.ValidString (defaultType_name t)
  end.

(** Whatever [fromJson] returns for [o], it returns without the code lines
    for a map that [o] reads back as. *)
Definition decodes_dropped (o : object) : Prop :=
  forall o' d, Json.reads_as (VMap o) (VMap o') -> fromJson o = Return d ->
               fromJson o' = Return (drop_lines d).

End Wdydoc.

(** ** A small world to run the pipeline in

    Regular files with their content and directories, by path. No external
    command is installed: every command fails. The template engine of this
    world knows one action, [{{.Title}}], the title of the model; any other
    action is an error of the execution. A parsed template is its text. *)

Module Scenario.
Import Go Wdydoc.

Record world : Type := Build_world {
  files : list (string * string);
  dirs : list string }.

Fixpoint find_file (fs : list (string * string)) (p : string) : option string :=
  match fs with
  | [] => None
  | (q, content) :: fs' => if String.eqb q p then Some content else find_file fs' p
  end.

Definition is_dir (w : world) (p : string) : bool := existsb (String.eqb p) (dirs w).

Definition no_such (op p : string) : error := op ++ " " ++ p ++ ": no such file or directory".

Definition under (dir p : string) : bool :=
  String.eqb p dir || Strings.HasPrefix p (dir ++ "/").

Definition set_file (fs : list (string * string)) (p content : string)
  : list (string * string) :=
  (p, content) :: filter (fun e => negb (String.eqb (fst e) p)) fs.

(** The names of the regular files directly in [dir]. *)
Definition names_in (w : world) (dir : string) : list string :=
  map (fun e => Filepath.Base (fst e))
    (filter (fun e => String.eqb (Filepath.Dir (fst e)) dir) (files w)).

(** The text before and after the first occurrence of [marker]. *)
Fixpoint cut (marker s : string) : option (string * string) :=
  if String.prefix marker s
  then Some ("", Strings.slice_from s (String.length marker))
  else
    match s with
    | EmptyString => None
    | String c s' =>
        match cut marker s' with
        | Some (before, after) => Some (String c before, after)
        | None => None
        end
    end.

Definition model_title (model : Discriminator) : string :=
  match model with
  | PWorkspace w => Workspace_Title w
  | PDocument c => Document_Title c
  | PChapter c => Chapter_Title c
  | _ => ""
  end.

Definition execute (tpl : string) (model : Discriminator) : string * option error :=
  match cut "{{.Title}}" tpl with
  | Some (before, after) => (before ++ model_title model ++ after, None)
  | None =>
      match cut "{{" tpl with
      | Some (before, _) => (before, Some "template: can't evaluate field")
      | None => (tpl, None)
      end
  end.

Definition sys : Sys world string :=
  Build_Sys world string
    (* Stat *)
    (fun p w =>
       if is_dir w p then Ok true
       else match find_file (files w) p with
            | Some _ => Ok false
            | None => Err (no_such "stat" p)
            end)
    (* MkdirAll *)
    (fun p w => (None, Build_world (files w) (p :: dirs w)))
    (* RemoveAll *)
    (fun p w =>
       (None,
        Build_world (filter (fun e => negb (under p (fst e))) (files w))
                    (filter (fun d => negb (under p d)) (dirs w))))
    (* ReadDir *)
    (fun p w => if is_dir w p then Ok (names_in w p) else Err (no_such "open" p))
    (* TempDir *)
    (fun dir prefix w =>
       (Ok ("/tmp/" ++ prefix ++ "1"),
        Build_world (files w) (("/tmp/" ++ prefix ++ "1") :: dirs w)))
    (* WalkTree *)
    (fun root w =>
       if is_dir w root
       then Directory (Filepath.Base root) (Ok (map Regular (names_in w root)))
       else match find_file (files w) root with
            | Some _ => Regular (Filepath.Base root)
            | None => Missing (Filepath.Base root) (no_such "lstat" root)
            end)
    (* CombinedOutput *)
    (fun name args dir w => (Some ("exec: " ++ name ++ ": executable file not found"), w))
    (* OpenRead *)
    (fun p w =>
       match find_file (files w) p with
       | Some content => Ok (content, None)
       | None => Err (no_such "open" p)
       end)
    (* OpenWrite *)
    (fun p w =>
       match find_file (files w) p with
       | Some _ => (None, w)
       | None => (None, Build_world (set_file (files w) p "") (dirs w))
       end)
    (* Write *)
    (fun p data w =>
       match find_file (files w) p with
       | Some old =>
           (None,
            Build_world
              (set_file (files w) p (data ++ Strings.slice_from old (String.length data)))
              (dirs w))
       | None => (Some (no_such "write" p), w)
       end)
    (* ParseFiles *)
    (fun fl name file w =>
       match find_file (files w) file with
       | Some content => Ok content
       | None => Err (no_such "open" file)
       end)
    (* ExecuteTemplate *)
    (fun fl tpl name model w => execute tpl model)
    (* CopyDir *)
    (fun src dst w =>
       if is_dir w src
       then (None,
             Build_world
               (map (fun e => (Filepath.Join [dst; Filepath.Base (fst e)], snd e))
                    (filter (fun e => String.eqb (Filepath.Dir (fst e)) src) (files w))
                ++ files w)
               (dst :: dirs w))
       else (Some (no_such "stat" src), w))
    (* CopyFile *)
    (fun src dst w =>
       match find_file (files w) src with
       | Some content => (None, Build_world (set_file (files w) dst content) (dirs w))
       | None => (Some (no_such "open" src), w)
       end).

(** A workspace with one document, [D1], titled [demo]. *)
Definition demo_workspace : Workspace :=
  Build_Workspace 1 "1.0" "W"
    [PDocument
       (Build_Document "D1" "demo" []
          [PChapter (Build_Chapter "Intro" 0 [PSpan (Text "hello")])])].

(** A template folder with a text template, an HTML template and an
    image. *)
Definition template_world : world :=
  Build_world
    [ ("/tpl/index.tmpl", "Hello {{.Title}}");
      ("/tpl/page.gohtml", "<h1>{{.Title}}</h1>");
      ("/tpl/logo.png", "PNG...") ]
    [ "/tpl"; "/tmp/wdydoc1" ].

(** A template folder whose one template fails when it is executed. *)
Definition broken_world : world :=
  Build_world
    [ ("/bad/index.tmpl", "Hello {{.Nope}}") ]
    [ "/bad"; "/tmp/wdydoc1" ].

Definition demo_build (template : string) (id : string) : Build :=
  Build_Build demo_workspace "/out" [Build_BuildRule id template "book"] "/tmp/wdydoc1".

(** The calls of the example of the README, shortened: a document with two
    chapters, a section in the first and a subsection in the section. *)
Definition readme_calls : list builder_call :=
  [ CallNewDocument;
    CallDocumentAdd 0 [PdefaultBody (TitlePage [PSpan (Text "my technical book")]); TOC];
    CallDocumentNewChapter 0 "my first chapter";
    CallChapterText 0 [2%nat] "no space between";
    CallChapterAdd 0 [2%nat] [Newline; PdefaultBody (Bold [PSpan (Text "d")])];
    CallChapterNewChapter 0 [2%nat] "a section";
    CallChapterNewChapter 0 [2%nat; 3%nat] "a subsection";
    CallChapterText 0 [2%nat; 3%nat; 0%nat] "This is another text.";
    CallDocumentNewChapter 0 "another main chapter" ].

Definition readme_workspace : Workspace :=
  Build_Workspace 1 "1.0.1" "my workspace"
    [PDocument
       (Build_Document "" "" []
          [PdefaultBody (TitlePage [PSpan (Text "my technical book")]);
           TOC;
           PChapter
             (Build_Chapter "my first chapter" 0
                [PSpan (Text "no space between");
                 Newline;
                 PdefaultBody (Bold [PSpan (Text "d")]);
                 PChapter
                   (Build_Chapter "a section" 1
                      [PChapter
                         (Build_Chapter "a subsection" 2
                            [PSpan (Text "This is another text.")])])]);
           PChapter (Build_Chapter "another main chapter" 0 [])])].

(** A section made by the builders in a workspace of its own (the chapter
    [b] of the chapter [s] of a new document), given to [Add] of the
    document of another workspace, and the workspace that results. *)
Definition stray_section : Chapter :=
  snd (Chapter_NewChapter
         (snd (Document_NewChapter (snd (Workspace_NewDocument Workspace_zero)) "s")) "b").

Definition stray_calls : list builder_call :=
  [ CallNewDocument; CallDocumentAdd 0 [PChapter stray_section] ].

Definition stray_workspace : Workspace :=
  Build_Workspace 0 "" ""
    [PDocument (Build_Document "" "" [] [PChapter (Build_Chapter "b" 1 [])])].

(** A workspace with a code block of one line. *)
Definition code_workspace : Workspace :=
  Build_Workspace 1 "1.0" "W"
    [PDocument (Build_Document "D1" "Doc" []
       [PCode (Build_Code "go" ["package main"])])].

(** What [Unmarshal] reads back from its encoding: the same without the
    line. *)
Definition code_workspace_reread : Workspace :=
  Build_Workspace 1 "1.0" "W"
    [PDocument (Build_Document "D1" "Doc" [] [PCode (Build_Code "go" [])])].

(** The JSON document of the workspace with a code block. *)
Definition code_json : Json.json :=
  Eval vm_compute in
    match Marshal code_workspace with
    | Ok b => b
    | Err _ => Json.JNull
    end.

(** The staged project of the failing template and the worlds the steps of
    [Apply] leave. *)
Definition broken_rule : BuildRule := Build_BuildRule "D1" "/bad" "book".

Definition broken_build : Build := demo_build "/bad" "D1".

Definition broken_project : Template string :=
  Eval vm_compute in
    fst (ReadTemplate sys "/bad" (transformTmpDir broken_build broken_rule)
           broken_world).

Definition broken_document : Discriminator :=
  PDocument (Build_Document "D1" "demo" []
    [PChapter (Build_Chapter "Intro" 0 [PSpan (Text "hello")])]).

Definition world_after_Build : world :=
  Eval vm_compute in
    snd (Template_Build sys broken_project broken_document broken_world).

Definition world_after_MkdirAll : world :=
  Eval vm_compute in
    snd (MkdirAll sys "/out/book" world_after_Build).

End Scenario.

(** * Properties *)

(** ** Attribute maps *)

Module GoFacts.
Import Go.

Lemma mapIndexWith_eq {A : Type} (f : value -> A) (m : object) (key : string) :
  mapIndexWith f m key = f (mapIndex m key).
Proof.
  destruct m as [es]. unfold mapIndex. simpl.
  induction es as [|[k v] es IH]; simpl; [reflexivity|].
  destruct (String.eqb k key); [reflexivity | exact IH].
Qed.

Lemma mapIndex_Object_cons (k : string) (v : value) (es : list (string * value)) (key : string) :
  mapIndex (Object ((k, v) :: es)) key
  = if String.eqb k key then v else mapIndex (Object es) key.
Proof. reflexivity. Qed.

Lemma mapIndex_make_map (key : string) : mapIndex make_map key = VNil.
Proof. reflexivity. Qed.

Lemma mapIndex_mapDelete (m : object) (k key : string) :
  mapIndex (mapDelete m k) key
  = if String.eqb k key then VNil else mapIndex m key.
Proof.
  destruct m as [es]. unfold mapDelete. cbn [entries].
  induction es as [|[k' v] es IH]; cbn [delete_entry].
  - rewrite mapIndex_make_map. destruct (String.eqb k key); reflexivity.
  - destruct (String.eqb k' k) eqn:E1.
    + apply String.eqb_eq in E1. subst k'. rewrite IH.
      rewrite mapIndex_Object_cons. destruct (String.eqb k key); reflexivity.
    + rewrite !mapIndex_Object_cons. rewrite IH.
      destruct (String.eqb k' key) eqn:E2; [|reflexivity].
      apply String.eqb_eq in E2. subst k'.
      rewrite String.eqb_sym, E1. reflexivity.
Qed.

Lemma mapIndex_mapAssign (m : object) (k : string) (v : value) (key : string) :
  mapIndex (mapAssign m k v) key
  = if String.eqb k key then v else mapIndex m key.
Proof.
  unfold mapAssign. rewrite mapIndex_Object_cons.
  destruct (String.eqb k key) eqn:E; [reflexivity|].
  change (Object (delete_entry (entries m) k)) with (mapDelete m k).
  rewrite mapIndex_mapDelete, E. reflexivity.
Qed.

Lemma bind_Return {A B : Type} (a : A) (k : A -> outcome B) :
  bind (Return a) k = k a.
Proof. reflexivity. Qed.

Lemma collect_map_Return {A B : Type} (f : A -> outcome B) (g : A -> B) (l : list A) :
  (forall x, In x l -> f x = Return (g x)) ->
  collect (map f l) = Return (map g l).
Proof.
  induction l as [|x l IH]; intros H; simpl; [reflexivity|].
  rewrite (H x (or_introl eq_refl)). simpl.
  rewrite IH; [reflexivity|]. intros y Hy. apply H. right. exact Hy.
Qed.

End GoFacts.

(** ** The codec: decoding what was encoded *)

Module CodecFacts.
Import Go Wdydoc GoFacts.

Lemma list_all_In {A : Type} (P : A -> Prop) (l : list A) :
  list_all A P l -> forall x, In x l -> P x.
Proof.
  induction 1 as [|a Ha l Hl IH]; intros x Hx; simpl in Hx; [contradiction|].
  destruct Hx as [<-|Hx]; [exact Ha | exact (IH x Hx)].
Qed.

Lemma rangeObjList_eq {A : Type} (f : object -> A) (v : value) :
  rangeObjList f v = map f (assertObjList v).
Proof.
  destruct v; try reflexivity. simpl.
  induction l as [|x l IH]; [reflexivity|].
  destruct x; try exact IH. simpl. f_equal. exact IH.
Qed.

Lemma assertObjList_toJson {A : Type} (g : A -> object) (l : list A) :
  assertObjList (VSlice (toJson g l)) = map g l.
Proof.
  simpl. induction l as [|x l IH]; simpl; [reflexivity|]. f_equal. exact IH.
Qed.

Lemma fromJson_eq (m : object) :
  fromJson m =
  let typeName := optString m typeAttrName in
  if String.eqb typeName WorkspaceType then
    bind (Workspace_fromJson fromJson m) (fun w => Return (PWorkspace w))
  else if String.eqb typeName DocumentType then
    bind (Document_fromJson fromJson m) (fun c => Return (PDocument c))
  else if String.eqb typeName AuthorType then
    bind (Author_fromJson m) (fun a => Return (PAuthor a))
  else if String.eqb typeName ChapterType then
    bind (Chapter_fromJson fromJson m) (fun c => Return (PChapter c))
  else if String.eqb typeName TextType then
    Return (PSpan (Span_fromJson m))
  else if String.eqb typeName TOCType then Return TOC
  else if String.eqb typeName NewlineType then Return Newline
  else if String.eqb typeName ItalicType then
    bind (defaultBody_fromJson fromJson (Italic []) m) (fun d => Return (PdefaultBody d))
  else if String.eqb typeName BoldType then
    bind (defaultBody_fromJson fromJson (Bold []) m) (fun d => Return (PdefaultBody d))
  else if String.eqb typeName UnderlineType then
    bind (defaultBody_fromJson fromJson (Underline []) m) (fun d => Return (PdefaultBody d))
  else if String.eqb typeName CodeType then
    Return (PCode (Code_fromJson m))
  else if String.eqb typeName ImageType then
    Return (PImage (Image_fromJson m))
  else if String.eqb typeName TitlepageType then
    bind (defaultBody_fromJson fromJson (TitlePage []) m) (fun d => Return (PdefaultBody d))
  else if String.eqb typeName NewpageType then Return Newpage
  else
    Panics (unknown_format_type typeName m).
Proof. destruct m. reflexivity. Qed.

(** The loop over the children of a node decodes what [toJson] wrote for
    them. *)
Lemma fromJson_range_toJson (l : list Discriminator) :
  (forall d, In d l -> fromJson (Discriminator_toJson d) = Return d) ->
  fromJson_range fromJson (VSlice (toJson Discriminator_toJson l)) = Return l.
Proof.
  intros H. unfold fromJson_range.
  rewrite rangeObjList_eq, assertObjList_toJson, map_map.
  rewrite (collect_map_Return _ (fun d => d)); [rewrite map_id; reflexivity|].
  exact H.
Qed.

Lemma fromJson_Author_toJson (a : Author) :
  fromJson (Author_toJson a) = Return (PAuthor a).
Proof. destruct a. reflexivity. Qed.

Lemma fromJson_Author_range_toJson (l : list Author) :
  fromJson_Author_range fromJson (VSlice (toJson Author_toJson l)) = Return l.
Proof.
  unfold fromJson_Author_range.
  rewrite rangeObjList_eq, assertObjList_toJson, map_map.
  rewrite (collect_map_Return _ (fun a => a)); [rewrite map_id; reflexivity|].
  intros a _. unfold fromJson_Author. rewrite fromJson_Author_toJson. reflexivity.
Qed.

Lemma forallb_In {A : Type} (f : A -> bool) (l : list A) :
  forallb f l = true -> forall x, In x l -> f x = true.
Proof. intros H x Hx. rewrite forallb_forall in H. exact (H x Hx). Qed.

Lemma children_decode (P : Discriminator -> Prop) (l : list Discriminator) :
  (forall d, P d -> constructible d = true -> fromJson (Discriminator_toJson d) = Return d) ->
  list_all Discriminator P l ->
  forallb constructible l = true ->
  fromJson_range fromJson (VSlice (toJson Discriminator_toJson l)) = Return l.
Proof.
  intros HP Hall Hc. apply fromJson_range_toJson. intros d Hd.
  apply HP; [exact (list_all_In P l Hall d Hd) | exact (forallb_In _ _ Hc d Hd)].
Qed.

Lemma Workspace_fromJson_toJson_step (format : Z) (version title : string)
    (resources : list Discriminator) :
  fromJson_range fromJson (VSlice (toJson Discriminator_toJson resources)) = Return resources ->
  Workspace_fromJson fromJson (Workspace_toJson (Build_Workspace format version title resources))
  = Return (Build_Workspace format version title resources).
Proof.
  intros H. unfold Workspace_fromJson. rewrite mapIndexWith_eq.
  change (mapIndex (Workspace_toJson (Build_Workspace format version title resources)) "resources")
    with (VSlice (toJson Discriminator_toJson resources)).
  rewrite H. reflexivity.
Qed.

Lemma Document_fromJson_toJson_step (id title : string) (authors : list Author)
    (body : list Discriminator) :
  fromJson_range fromJson (VSlice (toJson Discriminator_toJson body)) = Return body ->
  Document_fromJson fromJson (Document_toJson (Build_Document id title authors body))
  = Return (Build_Document id title authors body).
Proof.
  intros H. unfold Document_fromJson. rewrite !mapIndexWith_eq.
  destruct id as [|c id].
  - change (mapIndex (Document_toJson (Build_Document "" title authors body)) "authors")
      with (VSlice (toJson Author_toJson authors)).
    change (mapIndex (Document_toJson (Build_Document "" title authors body)) "body")
      with (VSlice (toJson Discriminator_toJson body)).
    rewrite fromJson_Author_range_toJson, H. reflexivity.
  - change (mapIndex (Document_toJson (Build_Document (String c id) title authors body)) "authors")
      with (VSlice (toJson Author_toJson authors)).
    change (mapIndex (Document_toJson (Build_Document (String c id) title authors body)) "body")
      with (VSlice (toJson Discriminator_toJson body)).
    rewrite fromJson_Author_range_toJson, H. reflexivity.
Qed.

Lemma Chapter_fromJson_toJson_step (title : string) (level : Z) (body : list Discriminator) :
  fromJson_range fromJson (VSlice (toJson Discriminator_toJson body)) = Return body ->
  Chapter_fromJson fromJson (Chapter_toJson (Build_Chapter title level body))
  = Return (Build_Chapter title level body).
Proof.
  intros H. unfold Chapter_fromJson. rewrite mapIndexWith_eq.
  change (mapIndex (Chapter_toJson (Build_Chapter title level body)) "body")
    with (VSlice (toJson Discriminator_toJson body)).
  rewrite H. reflexivity.
Qed.

Lemma defaultBody_fromJson_toJson_step (d : defaultBody) (name : string)
    (body : list Discriminator) :
  defaultBody_name d = name ->
  fromJson_range fromJson (VSlice (toJson Discriminator_toJson body)) = Return body ->
  defaultBody_fromJson fromJson d (defaultBody_toJson (Build_defaultBody name body))
  = Return (Build_defaultBody name body).
Proof.
  intros Hn H. unfold defaultBody_fromJson. rewrite mapIndexWith_eq.
  change (mapIndex (defaultBody_toJson (Build_defaultBody name body)) "body")
    with (VSlice (toJson Discriminator_toJson body)).
  rewrite H, Hn. reflexivity.
Qed.

(** The decoder on the attribute map of a constructible tree, by induction
    on the tree. *)
Lemma decode_encoded (d : Discriminator) :
  constructible d = true -> fromJson (Discriminator_toJson d) = Return d.
Proof.
  revert d.
  apply (Discriminator_mut
    (fun d => constructible d = true -> fromJson (Discriminator_toJson d) = Return d)
    (fun w => constructible (PWorkspace w) = true ->
              Workspace_fromJson fromJson (Workspace_toJson w) = Return w)
    (fun c => constructible (PDocument c) = true ->
              Document_fromJson fromJson (Document_toJson c) = Return c)
    (fun c => constructible (PChapter c) = true ->
              Chapter_fromJson fromJson (Chapter_toJson c) = Return c)
    (fun b => constructible (PdefaultBody b) = true ->
              defaultBody_fromJson fromJson (Build_defaultBody (defaultBody_name b) [])
                (defaultBody_toJson b) = Return b)).
  - (* *Workspace *)
    intros w IH Hc. specialize (IH Hc).
    change (Discriminator_toJson (PWorkspace w)) with (Workspace_toJson w).
    rewrite fromJson_eq.
    replace (optString (Workspace_toJson w) typeAttrName) with WorkspaceType
      by (destruct w; reflexivity).
    cbv zeta. change (String.eqb WorkspaceType WorkspaceType) with true. cbv iota.
    rewrite IH. reflexivity.
  - (* *Document *)
    intros c IH Hc. specialize (IH Hc).
    change (Discriminator_toJson (PDocument c)) with (Document_toJson c).
    rewrite fromJson_eq.
    replace (optString (Document_toJson c) typeAttrName) with DocumentType
      by (destruct c as [[|? ?] ? ? ?]; reflexivity).
    cbv zeta. change (String.eqb DocumentType WorkspaceType) with false.
    change (String.eqb DocumentType DocumentType) with true. cbv iota.
    rewrite IH. reflexivity.
  - (* *Author *)
    intros a _. apply fromJson_Author_toJson.
  - (* *Chapter *)
    intros c IH Hc. specialize (IH Hc).
    change (Discriminator_toJson (PChapter c)) with (Chapter_toJson c).
    rewrite fromJson_eq.
    replace (optString (Chapter_toJson c) typeAttrName) with ChapterType
      by (destruct c; reflexivity).
    cbv zeta. change (String.eqb ChapterType WorkspaceType) with false.
    change (String.eqb ChapterType DocumentType) with false.
    change (String.eqb ChapterType AuthorType) with false.
    change (String.eqb ChapterType ChapterType) with true. cbv iota.
    rewrite IH. reflexivity.
  - (* *Span *)
    intros [v] _. reflexivity.
  - (* *Code *)
    intros [h l] _. reflexivity.
  - (* *Image *)
    intros [a b c] _. reflexivity.
  - (* defaultType *)
    intros [name] Hc. simpl in Hc.
    apply orb_prop in Hc. destruct Hc as [Hc|Hc]; [apply orb_prop in Hc; destruct Hc as [Hc|Hc]|];
      apply String.eqb_eq in Hc; subst name; reflexivity.
  - (* *defaultBody *)
    intros b IH Hc. specialize (IH Hc).
    change (Discriminator_toJson (PdefaultBody b)) with (defaultBody_toJson b).
    rewrite fromJson_eq.
    replace (optString (defaultBody_toJson b) typeAttrName) with (defaultBody_name b)
      by (destruct b; reflexivity).
    destruct b as [name body]. simpl in Hc. apply andb_prop in Hc. destruct Hc as [Hn _].
    cbn [defaultBody_name] in *.
    repeat (apply orb_prop in Hn; destruct Hn as [Hn|Hn]);
      apply String.eqb_eq in Hn; subst name; cbv zeta;
      match goal with
      | |- context [Build_defaultBody ?n body] =>
          change (if String.eqb n WorkspaceType then _ else _)
            with (bind (defaultBody_fromJson fromJson (Build_defaultBody n [])
                          (defaultBody_toJson (Build_defaultBody n body)))
                       (fun d => Return (PdefaultBody d)))
      end; rewrite IH; reflexivity.
  - (* Workspace *)
    intros format version title resources IH Hc.
    apply Workspace_fromJson_toJson_step.
    apply (children_decode _ _ (fun d H => H) IH Hc).
  - (* Document *)
    intros id title authors body IH Hc.
    apply Document_fromJson_toJson_step.
    apply (children_decode _ _ (fun d H => H) IH Hc).
  - (* Chapter *)
    intros title level body IH Hc.
    apply Chapter_fromJson_toJson_step.
    apply (children_decode _ _ (fun d H => H) IH Hc).
  - (* defaultBody *)
    intros name body IH Hc. simpl in Hc. apply andb_prop in Hc. destruct Hc as [_ Hc].
    apply defaultBody_fromJson_toJson_step; [reflexivity|].
    apply (children_decode _ _ (fun d H => H) IH Hc).
Qed.

(** [fromJson] reproduces every constructible tree from its attribute
    map. *)
Theorem fromJson_toJson (d : Discriminator) :
  constructible d = true -> fromJson (Discriminator_toJson d) = Return d.
Proof. exact (decode_encoded d). Qed.

End CodecFacts.

(** ** Decoding an unknown discriminator *)

Module DecodeFacts.
Import Go Wdydoc GoFacts CodecFacts.

Lemma registry_length : List.length registry = 14%nat.
Proof. reflexivity. Qed.

Lemma eqb_not_In (x a : string) (l : list string) :
  ~ In x (a :: l) -> String.eqb x a = false /\ ~ In x l.
Proof.
  intros H. split.
  - apply String.eqb_neq. intros ->. apply H. left. reflexivity.
  - intros Hl. apply H. right. exact Hl.
Qed.

(** C3: a map whose [type] is none of the fourteen registered discriminators
    (a missing [type], or one that is no string, reads as the empty string)
    makes [fromJson] panic with "unknown format type"; it returns no node. *)
Theorem fromJson_unknown_type_panics (m : object) :
  ~ In (optString m typeAttrName) registry ->
  fromJson m = Panics (unknown_format_type (optString m typeAttrName) m)
  /\ forall d : Discriminator, fromJson m <> Return d.
Proof.
  intros H.
  assert (E : fromJson m = Panics (unknown_format_type (optString m typeAttrName) m)).
  { rewrite fromJson_eq. cbv zeta. unfold registry in H.
    repeat (apply eqb_not_In in H; destruct H as [-> H]).
    reflexivity. }
  split; [exact E|]. intros d Hd. rewrite E in Hd. discriminate Hd.
Qed.

Lemma fromJson_unknown_type_witness :
  ~ In (optString (Object [("type", VString "table")]) typeAttrName) registry
  /\ fromJson (Object [("type", VString "table")])
     = Panics (unknown_format_type "table" (Object [("type", VString "table")])).
Proof.
  assert (H : ~ In (optString (Object [("type", VString "table")]) typeAttrName) registry).
  { simpl. intros H. repeat (destruct H as [H|H]; [discriminate H|]). exact H. }
  split; [exact H|].
  exact (proj1 (fromJson_unknown_type_panics (Object [("type", VString "table")]) H)).
Defined.

End DecodeFacts.

(** ** Workspace.ById *)

Module ByIdFacts.
Import Go Wdydoc.

Lemma ById_range_Some (resources : list Discriminator) (id : string) (d : Discriminator) :
  ById_range resources id = Some d <->
  exists before doc after,
    resources = (before ++ PDocument doc :: after)%list
    /\ d = PDocument doc
    /\ Document_Id doc = id
    /\ forall doc', In (PDocument doc') before -> Document_Id doc' <> id.
Proof.
  split.
  - induction resources as [|r rest IH]; simpl; [discriminate|].
    intros H.
    destruct r as [w|doc|a|c|s|c|i|t|b];
      try (destruct (IH H) as (before & doc0 & after & -> & -> & Hid & Hb);
           eexists (_ :: before), doc0, after;
           split; [reflexivity|split; [reflexivity|split; [exact Hid|]]];
           intros doc' [Hd|Hd]; [discriminate Hd | exact (Hb doc' Hd)]).
    destruct (String.eqb (Document_Id doc) id) eqn:E.
    + injection H as <-. apply String.eqb_eq in E.
      exists [], doc, rest. repeat split; [exact E|]. intros doc' [].
    + destruct (IH H) as (before & doc0 & after & -> & -> & Hid & Hb).
      exists (PDocument doc :: before), doc0, after.
      split; [reflexivity|split; [reflexivity|split; [exact Hid|]]].
      intros doc' [Hd|Hd]; [|exact (Hb doc' Hd)].
      injection Hd as <-. apply String.eqb_neq. exact E.
  - intros (before & doc & after & -> & -> & Hid & Hb).
    induction before as [|r before IH]; simpl.
    + rewrite <- Hid, String.eqb_refl. reflexivity.
    + assert (Hb' : forall doc', In (PDocument doc') before -> Document_Id doc' <> id).
      { intros doc' Hd. apply Hb. right. exact Hd. }
      destruct r as [w|doc0|a|c|s|c|i|t|b]; try exact (IH Hb').
      assert (E : String.eqb (Document_Id doc0) id = false).
      { apply String.eqb_neq. apply Hb. left. reflexivity. }
      rewrite E. exact (IH Hb').
Qed.

Lemma ById_range_None (resources : list Discriminator) (id : string) :
  ById_range resources id = None <->
  forall doc, In (PDocument doc) resources -> Document_Id doc <> id.
Proof.
  induction resources as [|r rest IH]; simpl.
  - split; [intros _ doc [] | reflexivity].
  - destruct r as [w|doc0|a|c|s|c|i|t|b];
      try (rewrite IH; split;
           [ intros H doc [Hd|Hd]; [discriminate Hd | exact (H doc Hd)]
           | intros H doc Hd; apply H; right; exact Hd ]).
    destruct (String.eqb (Document_Id doc0) id) eqn:E.
    + split; [discriminate|]. intros H. apply String.eqb_eq in E.
      exfalso. exact (H doc0 (or_introl eq_refl) E).
    + rewrite IH. apply String.eqb_neq in E. split.
      * intros H doc [Hd|Hd]; [injection Hd as <-; exact E | exact (H doc Hd)].
      * intros H doc Hd. apply H. right. exact Hd.
Qed.

(** C6: [ById] goes through the top-level resources only: it returns the
    first document among them whose [Id] is [id], and nil exactly when no
    top-level document has that [Id], whatever lies deeper (a document
    inside a chapter is not found). With documents "A" and "B" it finds
    each of them and nothing for "C". *)
Theorem Workspace_ById_spec (w : Workspace) (id : string) :
  (forall d, Workspace_ById w id = Some d <->
     exists before doc after,
       Workspace_Resources w = (before ++ PDocument doc :: after)%list
       /\ d = PDocument doc
       /\ Document_Id doc = id
       /\ forall doc', In (PDocument doc') before -> Document_Id doc' <> id)
  /\ (Workspace_ById w id = None <->
      forall doc, In (PDocument doc) (Workspace_Resources w) -> Document_Id doc <> id)
  /\ (forall format version title titleA authorsA bodyA titleB authorsB bodyB,
        let docA := Build_Document "A" titleA authorsA bodyA in
        let docB := Build_Document "B" titleB authorsB bodyB in
        let ab := Build_Workspace format version title [PDocument docA; PDocument docB] in
        Workspace_ById ab "A" = Some (PDocument docA)
        /\ Workspace_ById ab "B" = Some (PDocument docB)
        /\ Workspace_ById ab "C" = None)
  /\ (forall format version title ctitle level doc,
        Workspace_ById
          (Build_Workspace format version title
             [PChapter (Build_Chapter ctitle level [PDocument doc])])
          (Document_Id doc) = None).
Proof.
  split; [|split; [|split]].
  - intros d. apply ById_range_Some.
  - apply ById_range_None.
  - intros. repeat split.
  - intros. reflexivity.
Qed.

End ByIdFacts.

(** ** Numeric attributes *)

Module NumericFacts.
Import Go Wdydoc GoFacts.

Lemma float64_to_int_exact (f : float64) (z : Z) :
  float64_is_int f z -> in_int z -> float64_to_int f = z.
Proof.
  unfold in_int, float64_is_int, float64_to_int.
  destruct f as [s| | |s m e]; cbv zeta; intros H R; try contradiction.
  - symmetry. exact H.
  - assert (T : (if s then - Z.shiftl (Zpos m) e else Z.shiftl (Zpos m) e) = z).
    { destruct (0 <=? e) eqn:E.
      - apply Z.leb_le in E. rewrite Z.shiftl_mul_pow2 by exact E.
        destruct s; rewrite H; [change (Zneg m) with (- Zpos m)|]; ring.

      - apply Z.leb_gt in E.
        assert (P : 0 < 2 ^ (- e)) by (apply Z.pow_pos_nonneg; lia).
        rewrite Z.shiftl_div_pow2 by lia.
        destruct s.
        + change (Zneg m) with (- Zpos m) in H.
          assert (Q : - z = Zpos m / 2 ^ (- e))
            by (apply Z.div_unique_exact; lia).
          lia.
        + symmetry. apply Z.div_unique_exact; lia. }
    rewrite T.
    destruct (minInt <=? z) eqn:E1; [|apply Z.leb_gt in E1; lia].
    destruct (z <=? maxInt) eqn:E2; [|apply Z.leb_gt in E2; lia].
    reflexivity.
Qed.

(** C8: [optInt] reads an [int], an [int64] and a [float64] alike: stored as
    either integer type the value comes back as it is, stored as a float
    whose value is an integer (of the range of [int]) that integer comes
    back, and any float is converted as [int(f)] converts it; a missing
    attribute and a value of another kind read as 0. The decoders of [level]
    and [format] are [optInt]. *)
Theorem optInt_spec (m : object) (key : string) :
  (forall i, mapIndex m key = VInt i -> optInt m key = i)
  /\ (forall i, mapIndex m key = VInt64 i -> optInt m key = i)
  /\ (forall f z, mapIndex m key = VFloat64 f -> float64_is_int f z -> in_int z ->
        optInt m key = z)
  /\ (forall f, mapIndex m key = VFloat64 f -> optInt m key = float64_to_int f)
  /\ (mapIndex m key = VNil -> optInt m key = 0)
  /\ (forall b, mapIndex m key = VBool b -> optInt m key = 0)
  /\ (forall s, mapIndex m key = VString s -> optInt m key = 0)
  /\ (forall l, mapIndex m key = VStrings l -> optInt m key = 0)
  /\ (forall l, mapIndex m key = VSlice l -> optInt m key = 0)
  /\ (forall o, mapIndex m key = VMap o -> optInt m key = 0)
  /\ (forall c, Chapter_fromJson fromJson m = Return c -> Chapter_Level c = optInt m "level")
  /\ (forall w, Workspace_fromJson fromJson m = Return w ->
        Workspace_Format w = optInt m "format").
Proof.
  unfold optInt.
  repeat split; try (intros; match goal with H : mapIndex _ _ = _ |- _ => rewrite H end; reflexivity).
  - intros f z H Hz R. rewrite H. apply float64_to_int_exact; assumption.
  - intros c H. unfold Chapter_fromJson in H.
    destruct (mapIndexWith (fromJson_range fromJson) m "body"); simpl in H; [|discriminate H].
    injection H as <-. reflexivity.
  - intros w H. unfold Workspace_fromJson in H.
    destruct (assertString (mapIndex m "title")); simpl in H; [|discriminate H].
    destruct (assertString (mapIndex m "version")); simpl in H; [|discriminate H].
    destruct (mapIndexWith (fromJson_range fromJson) m "resources"); simpl in H; [|discriminate H].
    injection H as <-. reflexivity.
Qed.

(** The three representations of the level 2 read as 2; 2.0 is
    4503599627370496 * 2^-51. *)
Example optInt_level_2 :
  optInt (Object [("level", VInt 2)]) "level" = 2
  /\ optInt (Object [("level", VInt64 2)]) "level" = 2
  /\ optInt (Object [("level", VFloat64 (S754_finite false 4503599627370496 (-51)))]) "level" = 2
  /\ optInt (Object [("level", VFloat64 (Json.ParseFloat 2 0))]) "level" = 2
  /\ optInt (Object [("level", VFloat64 (Json.ParseFloat 25 (-1)))]) "level" = 2
  /\ optInt (Object [("level", VString "2")]) "level" = 0
  /\ optInt (Object []) "level" = 0.
Proof. repeat split. Qed.

End NumericFacts.

(** ** Required attributes *)

Module RequiredFacts.
Import Go Wdydoc GoFacts CodecFacts.

Lemma bind_panics_l {A B : Type} (x : outcome A) (k : A -> outcome B) :
  is_panic x -> is_panic (bind x k).
Proof. intros [p ->]. exists p. reflexivity. Qed.

Lemma bind_panics_r {A B : Type} (x : outcome A) (k : A -> outcome B) :
  (forall a, is_panic (k a)) -> is_panic (bind x k).
Proof. intros H. destruct x as [a|p]; [exact (H a) | exists p; reflexivity]. Qed.

Lemma collect_panics {A : Type} (l : list (outcome A)) (x : outcome A) :
  In x l -> is_panic x -> is_panic (collect l).
Proof.
  induction l as [|y l IH]; simpl; [contradiction|].
  intros [->|Hx] Hp.
  - apply bind_panics_l. exact Hp.
  - apply bind_panics_r. intros a. apply bind_panics_l. exact (IH Hx Hp).
Qed.

Lemma fromJson_range_panics (v : value) (o : object) :
  In o (assertObjList v) -> is_panic (fromJson o) ->
  is_panic (fromJson_range fromJson v).
Proof.
  intros Ho Hp. unfold fromJson_range. rewrite rangeObjList_eq.
  apply (collect_panics _ (fromJson o)); [apply in_map; exact Ho | exact Hp].
Qed.

Lemma fromJson_Author_range_panics (v : value) (o : object) :
  In o (assertObjList v) -> is_panic (fromJson o) ->
  is_panic (fromJson_Author_range fromJson v).
Proof.
  intros Ho Hp. unfold fromJson_Author_range. rewrite rangeObjList_eq.
  apply (collect_panics _ (fromJson_Author fromJson o)).
  - apply (in_map (fromJson_Author fromJson)). exact Ho.
  - apply bind_panics_l. exact Hp.
Qed.

Lemma assertString_panics (v : value) :
  (forall s, v <> VString s) ->
  assertString v = Panics (PanicInterfaceConversion (dynType v) "string").
Proof. intros H. destruct v; try reflexivity. exfalso. exact (H s eq_refl). Qed.

Lemma Workspace_fromJson_child_panics (m o : object) :
  In o (assertObjList (mapIndex m "resources")) -> is_panic (fromJson o) ->
  is_panic (Workspace_fromJson fromJson m).
Proof.
  intros Ho Hp. unfold Workspace_fromJson.
  apply bind_panics_r. intros title. apply bind_panics_r. intros version.
  apply bind_panics_l. rewrite mapIndexWith_eq.
  exact (fromJson_range_panics _ o Ho Hp).
Qed.

Lemma body_child_panics (d : defaultBody) (m o : object) :
  In o (assertObjList (mapIndex m "body")) -> is_panic (fromJson o) ->
  is_panic (Chapter_fromJson fromJson m) /\ is_panic (defaultBody_fromJson fromJson d m).
Proof.
  intros Ho Hp. unfold Chapter_fromJson, defaultBody_fromJson.
  split; apply bind_panics_l; rewrite mapIndexWith_eq;
    exact (fromJson_range_panics _ o Ho Hp).
Qed.

Lemma Document_fromJson_child_panics (m o : object) :
  In o (assertObjList (mapIndex m "authors") ++ assertObjList (mapIndex m "body"))%list ->
  is_panic (fromJson o) ->
  is_panic (Document_fromJson fromJson m).
Proof.
  intros Ho Hp. unfold Document_fromJson. apply in_app_or in Ho. destruct Ho as [Ho|Ho].
  - apply bind_panics_l. rewrite mapIndexWith_eq.
    exact (fromJson_Author_range_panics _ o Ho Hp).
  - apply bind_panics_r. intros authors. apply bind_panics_l. rewrite mapIndexWith_eq.
    exact (fromJson_range_panics _ o Ho Hp).
Qed.

(** A panic in the decoding of a child is a panic of the decoding of the
    parent. *)
Lemma fromJson_child_panics (m o : object) :
  In o (decoded_children m) -> is_panic (fromJson o) -> is_panic (fromJson m).
Proof.
  unfold decoded_children. rewrite (fromJson_eq m). cbv zeta.
  intros Ho Hp.
  destruct (String.eqb (optString m typeAttrName) WorkspaceType).
  { apply bind_panics_l. exact (Workspace_fromJson_child_panics m o Ho Hp). }
  destruct (String.eqb (optString m typeAttrName) DocumentType).
  { apply bind_panics_l. exact (Document_fromJson_child_panics m o Ho Hp). }
  destruct (String.eqb (optString m typeAttrName) ChapterType) eqn:EC.
  { destruct (String.eqb (optString m typeAttrName) AuthorType) eqn:EA.
    - apply String.eqb_eq in EC, EA. rewrite EC in EA. discriminate EA.
    - apply bind_panics_l. exact (proj1 (body_child_panics (Italic []) m o Ho Hp)). }
  destruct (String.eqb (optString m typeAttrName) ItalicType) eqn:EI.
  { apply String.eqb_eq in EI. rewrite EI. simpl.
    apply bind_panics_l. exact (proj2 (body_child_panics (Italic []) m o Ho Hp)). }
  destruct (String.eqb (optString m typeAttrName) BoldType) eqn:EB.
  { apply String.eqb_eq in EB. rewrite EB. simpl.
    apply bind_panics_l. exact (proj2 (body_child_panics (Bold []) m o Ho Hp)). }
  destruct (String.eqb (optString m typeAttrName) UnderlineType) eqn:EU.
  { apply String.eqb_eq in EU. rewrite EU. simpl.
    apply bind_panics_l. exact (proj2 (body_child_panics (Underline []) m o Ho Hp)). }
  destruct (String.eqb (optString m typeAttrName) TitlepageType) eqn:ET.
  { apply String.eqb_eq in ET. rewrite ET. simpl.
    apply bind_panics_l. exact (proj2 (body_child_panics (TitlePage []) m o Ho Hp)). }
  simpl in Ho. contradiction.
Qed.

Lemma decoded_from_panics (roots : list object) (o : object) :
  decoded_from roots o -> is_panic (fromJson o) ->
  exists r, In r roots /\ is_panic (fromJson r).
Proof.
  induction 1 as [m Hm | m child _ IH Hc]; intros Hp.
  - exists m. split; assumption.
  - apply IH. exact (fromJson_child_panics m child Hc Hp).
Qed.

Lemma Author_fromJson_panics (m : object) :
  (forall s, mapIndex m "firstname" <> VString s)
  \/ (forall s, mapIndex m "lastname" <> VString s)
  \/ (forall s, mapIndex m "email" <> VString s) ->
  exists have, Author_fromJson m = Panics (PanicInterfaceConversion have "string").
Proof.
  unfold Author_fromJson. intros H.
  destruct (mapIndex m "firstname") eqn:E1;
    try (eexists; reflexivity).
  destruct (mapIndex m "lastname") eqn:E2;
    try (eexists; reflexivity).
  destruct (mapIndex m "email") eqn:E3;
    try (eexists; reflexivity).
  exfalso. destruct H as [H|[H|H]]; eapply H; reflexivity.
Qed.

(** C10, as amended: for a JSON object that [json.Unmarshal] decodes without
    an error, [Unmarshal] panics on a failed assertion to [string] when
    [title] or [version] is missing or no string; an author map without a
    string [firstname], [lastname] or [email] makes [fromJson] panic the same
    way, and [Unmarshal] panics whenever such a map is among the maps it
    decodes; an optional attribute that is missing or no string reads as the
    empty string. *)
Theorem Unmarshal_required_attributes (b : Json.json) (tmp : object) :
  Json.Unmarshal_map b = Ok tmp ->
  ((forall s, mapIndex tmp "title" <> VString s)
   \/ (forall s, mapIndex tmp "version" <> VString s) ->
   exists have, Unmarshal b = Panics (PanicInterfaceConversion have "string"))
  /\ (forall a,
        optString a typeAttrName = AuthorType ->
        (forall s, mapIndex a "firstname" <> VString s)
        \/ (forall s, mapIndex a "lastname" <> VString s)
        \/ (forall s, mapIndex a "email" <> VString s) ->
        (exists have, fromJson a = Panics (PanicInterfaceConversion have "string"))
        /\ (decoded_from (assertObjList (mapIndex tmp "resources")) a ->
            is_panic (Unmarshal b)))
  /\ (forall m key, (forall s, mapIndex m key <> VString s) -> optString m key = "").
Proof.
  intros Hb. unfold Unmarshal. rewrite Hb. split; [|split].
  - intros H. unfold Workspace_fromJson.
    destruct (mapIndex tmp "title") eqn:E1;
      try (eexists; reflexivity).
    destruct (mapIndex tmp "version") eqn:E2;
      try (eexists; reflexivity).
    exfalso. destruct H as [H|H]; eapply H; reflexivity.
  - intros a Ht Ha.
    assert (P : exists have, fromJson a = Panics (PanicInterfaceConversion have "string")).
    { rewrite fromJson_eq. cbv zeta. rewrite Ht. simpl.
      destruct (Author_fromJson_panics a Ha) as [have ->]. exists have. reflexivity. }
    split; [exact P|].
    intros Hd. apply bind_panics_l.
    destruct P as [have P].
    destruct (decoded_from_panics _ a Hd (ex_intro _ _ P)) as (r & Hr & Hp).
    exact (Workspace_fromJson_child_panics tmp r Hr Hp).
  - intros m key H. unfold optString.
    destruct (mapIndex m key); try reflexivity. exfalso. exact (H s eq_refl).
Qed.

(** A workspace without a title: [{"version": "1.0"}]. *)
Lemma Unmarshal_required_attributes_witness :
  Json.Unmarshal_map (Json.JObject [("version", Json.JString "1.0")])
  = Ok (Object [("version", VString "1.0")])
  /\ exists have,
       Unmarshal (Json.JObject [("version", Json.JString "1.0")])
       = Panics (PanicInterfaceConversion have "string").
Proof.
  split; [reflexivity|].
  apply (proj1 (Unmarshal_required_attributes
                  (Json.JObject [("version", Json.JString "1.0")])
                  (Object [("version", VString "1.0")]) eq_refl)).
  left. intros s H. discriminate H.
Defined.

(** C10 as stated fails: [{"version": "1.0", "format": 1e999}] has no title,
    and [Unmarshal] returns the error of [json.Unmarshal] (the number is out
    of the range of a [float64]) instead of panicking. *)
Lemma Unmarshal_number_out_of_range_is_error :
  Unmarshal (Json.JObject [("version", Json.JString "1.0"); ("format", Json.JNumber 1 999)])
  = Return (Err "json: cannot unmarshal number into Go value of type float64").
Proof. vm_compute. reflexivity. Qed.

(** An author without an e-mail address in a document of the workspace. *)
Example Unmarshal_author_without_email :
  Unmarshal
    (Json.JObject
       [("title", Json.JString "W"); ("version", Json.JString "1.0");
        ("resources",
         Json.JArray
           [Json.JObject
              [("type", Json.JString "document");
               ("authors",
                Json.JArray
                  [Json.JObject
                     [("type", Json.JString "author");
                      ("firstname", Json.JString "Ada");
                      ("lastname", Json.JString "Lovelace")]])]])])
  = Panics (PanicInterfaceConversion "nil" "string").
Proof. vm_compute. reflexivity. Qed.

End RequiredFacts.

(** ** Chapter levels in a tree made by the builders *)

Module BuilderFacts.
Import Go Wdydoc GoFacts CodecFacts.

Lemma wrap_int_small (z : Z) : minInt <= z <= maxInt -> wrap_int z = z.
Proof.
  unfold wrap_int, minInt, maxInt. intros H.
  rewrite Z.mod_small by lia. lia.
Qed.

Lemma forallb_impl {A : Type} (f g : A -> bool) (l : list A) :
  (forall x, In x l -> f x = true -> g x = true) ->
  forallb f l = true -> forallb g l = true.
Proof.
  intros H Hf. apply forallb_forall. intros x Hx.
  apply H; [exact Hx|]. exact (forallb_In f l Hf x Hx).
Qed.

Lemma forallb_list_all {A : Type} (P : A -> Prop) (f g : A -> bool) (l : list A) :
  list_all A P l ->
  (forall x, P x -> f x = true -> g x = true) ->
  forallb f l = true -> forallb g l = true.
Proof.
  intros Hall H. apply forallb_impl. intros x Hx. apply H.
  exact (list_all_In P l Hall x Hx).
Qed.

(** An induction over the tree for a property of nodes with a parameter:
    the body of a node is handled by [forallb_list_all]. *)
Lemma levels_within_mono (d : Discriminator) :
  forall n n' depth, n <= n' ->
    levels_within n depth d = true -> levels_within n' depth d = true.
Proof.
  apply (Discriminator_mut
    (fun d => forall n n' depth, n <= n' ->
       levels_within n depth d = true -> levels_within n' depth d = true)
    (fun w => forall n n' depth, n <= n' ->
       levels_within n depth (PWorkspace w) = true ->
       levels_within n' depth (PWorkspace w) = true)
    (fun c => forall n n' depth, n <= n' ->
       levels_within n depth (PDocument c) = true ->
       levels_within n' depth (PDocument c) = true)
    (fun c => forall n n' depth, n <= n' ->
       levels_within n depth (PChapter c) = true ->
       levels_within n' depth (PChapter c) = true)
    (fun b => forall n n' depth, n <= n' ->
       levels_within n depth (PdefaultBody b) = true ->
       levels_within n' depth (PdefaultBody b) = true));
    try (intros ? IH; exact IH); try (intros; reflexivity).
  - intros format version title resources IH n n' depth Hn. simpl.
    apply (forallb_list_all _ _ _ _ IH). intros x Hx. exact (Hx n n' depth Hn).
  - intros id title authors body IH n n' depth Hn. simpl.
    apply (forallb_list_all _ _ _ _ IH). intros x Hx. exact (Hx n n' depth Hn).
  - intros title level body IH n n' depth Hn. simpl. intros H.
    apply andb_prop in H. destruct H as [H Hb].
    apply andb_prop in H. destruct H as [H H3].
    apply andb_prop in H. destruct H as [H1 H2].
    rewrite H1, H2. simpl.
    apply Z.ltb_lt in H3. replace (depth <? n') with true by (symmetry; apply Z.ltb_lt; lia).
    simpl. revert Hb. apply (forallb_list_all _ _ _ _ IH).
    intros x Hx. exact (Hx n n' (depth + 1) Hn).
  - intros name body IH n n' depth Hn. simpl.
    apply (forallb_list_all _ _ _ _ IH). intros x Hx. exact (Hx n n' depth Hn).
Qed.

Lemma levels_within_consistent (d : Discriminator) :
  forall n depth, levels_within n depth d = true -> levels_consistent depth d = true.
Proof.
  apply (Discriminator_mut
    (fun d => forall n depth,
       levels_within n depth d = true -> levels_consistent depth d = true)
    (fun w => forall n depth,
       levels_within n depth (PWorkspace w) = true ->
       levels_consistent depth (PWorkspace w) = true)
    (fun c => forall n depth,
       levels_within n depth (PDocument c) = true ->
       levels_consistent depth (PDocument c) = true)
    (fun c => forall n depth,
       levels_within n depth (PChapter c) = true ->
       levels_consistent depth (PChapter c) = true)
    (fun b => forall n depth,
       levels_within n depth (PdefaultBody b) = true ->
       levels_consistent depth (PdefaultBody b) = true));
    try (intros ? IH; exact IH); try (intros; reflexivity).
  - intros format version title resources IH n depth. simpl.
    apply (forallb_list_all _ _ _ _ IH). intros x Hx. exact (Hx n depth).
  - intros id title authors body IH n depth. simpl.
    apply (forallb_list_all _ _ _ _ IH). intros x Hx. exact (Hx n depth).
  - intros title level body IH n depth. simpl. intros H.
    apply andb_prop in H. destruct H as [H Hb].
    apply andb_prop in H. destruct H as [H _].
    apply andb_prop in H. destruct H as [H1 _].
    rewrite H1. simpl. revert Hb. apply (forallb_list_all _ _ _ _ IH).
    intros x Hx. exact (Hx n (depth + 1)).
  - intros name body IH n depth. simpl.
    apply (forallb_list_all _ _ _ _ IH). intros x Hx. exact (Hx n depth).
Qed.

(** Content holds no chapter. *)
Lemma content_levels_within (d : Discriminator) :
  forall n depth, is_content d = true -> levels_within n depth d = true.
Proof.
  apply (Discriminator_mut
    (fun d => forall n depth, is_content d = true -> levels_within n depth d = true)
    (fun w => True) (fun c => True) (fun c => True)
    (fun b => forall n depth,
       is_content (PdefaultBody b) = true -> levels_within n depth (PdefaultBody b) = true));
    try (intros; exact I); try (intros; reflexivity);
    try (intros; simpl in *; discriminate).
  - intros b IH n depth. exact (IH n depth).
  - intros name body IH n depth. simpl.
    apply (forallb_list_all _ _ _ _ IH). intros x Hx. exact (Hx n depth).
Qed.

Lemma content_list_levels_within (e : list Discriminator) (n depth : Z) :
  forallb is_content e = true -> forallb (levels_within n depth) e = true.
Proof.
  apply forallb_impl. intros x _. apply content_levels_within.
Qed.

Lemma forallb_replace_nth {A : Type} (f : A -> bool) (j : nat) (x : A) (l : list A) :
  forallb f l = true -> f x = true -> forallb f (replace_nth j x l) = true.
Proof.
  intros Hl Hx. unfold replace_nth. rewrite forallb_app.
  rewrite <- (firstn_skipn j l), forallb_app in Hl.
  apply andb_prop in Hl. destruct Hl as [H1 H2]. rewrite H1. simpl.
  destruct (skipn j l) as [|y t]; [reflexivity|].
  simpl in *. apply andb_prop in H2. destruct H2 as [_ H2]. rewrite Hx, H2. reflexivity.
Qed.

Lemma forallb_nth_error {A : Type} (f : A -> bool) (j : nat) (x : A) (l : list A) :
  forallb f l = true -> nth_error l j = Some x -> f x = true.
Proof.
  intros Hl Hx. apply (forallb_In f l Hl). exact (nth_error_In l j Hx).
Qed.

Lemma Chapter_Add_keeps_levels (e : list Discriminator) :
  forallb is_content e = true -> keeps_levels (fun c => Chapter_Add c e).
Proof.
  intros He n depth [title level body] Hn H.
  apply (levels_within_mono _ n (n + 1) depth) in H; [|lia].
  simpl in *. apply andb_prop in H. destruct H as [H Hb]. rewrite H. simpl.
  rewrite forallb_app, Hb. simpl. apply content_list_levels_within. exact He.
Qed.

Lemma Chapter_Text_keeps_levels (str : string) :
  keeps_levels (fun c => Chapter_Text c str).
Proof. apply Chapter_Add_keeps_levels. reflexivity. Qed.

Lemma Chapter_NewChapter_keeps_levels (title : string) :
  keeps_levels (fun c => fst (Chapter_NewChapter c title)).
Proof.
  intros n depth [ctitle level body] Hn H.
  assert (F : level = depth /\ 0 <= depth /\ depth < n).
  { simpl in H. apply andb_prop in H. destruct H as [H _].
    apply andb_prop in H. destruct H as [H H3].
    apply andb_prop in H. destruct H as [H1 H2].
    apply Z.eqb_eq in H1. apply Z.leb_le in H2. apply Z.ltb_lt in H3. auto. }
  destruct F as (-> & F2 & F3).
  apply (levels_within_mono _ n (n + 1) depth) in H; [|lia].
  simpl in *. apply andb_prop in H. destruct H as [H Hb]. rewrite H. simpl.
  rewrite forallb_app, Hb. simpl.
  rewrite wrap_int_small by (unfold minInt, maxInt in *; lia).
  rewrite Z.eqb_refl. simpl.
  replace (0 <=? depth + 1) with true by (symmetry; apply Z.leb_le; lia).
  replace (depth + 1 <? n + 1) with true by (symmetry; apply Z.ltb_lt; lia).
  reflexivity.
Qed.

Lemma Chapter_at_levels (f : Chapter -> Chapter) (path : list nat) :
  keeps_levels f ->
  forall n depth c c', n <= maxInt ->
    levels_within n depth (PChapter c) = true ->
    Chapter_at path f c = Some c' ->
    levels_within (n + 1) depth (PChapter c') = true.
Proof.
  intros Hf. induction path as [|j path IH]; intros n depth c c' Hn H Hat.
  - simpl in Hat. injection Hat as <-. exact (Hf n depth c Hn H).
  - simpl in Hat.
    destruct (nth_error (Chapter_Body c) j) as [[w|d|a|sub|s|k|i|t|b]|] eqn:E;
      try discriminate Hat.
    destruct (Chapter_at path f sub) as [sub'|] eqn:E'; [|discriminate Hat].
    injection Hat as <-. destruct c as [title level body]. simpl in *.
    apply andb_prop in H. destruct H as [H Hb].
    assert (Hsub : levels_within n (depth + 1) (PChapter sub) = true)
      by exact (forallb_nth_error _ j _ body Hb E).
    apply (IH n (depth + 1) sub sub' Hn) in Hsub; [|exact E'].
    apply andb_prop in H. destruct H as [H H3]. rewrite H. simpl.
    apply Z.ltb_lt in H3.
    replace (depth <? n + 1) with true by (symmetry; apply Z.ltb_lt; lia). simpl.
    apply forallb_replace_nth; [|exact Hsub].
    revert Hb. apply forallb_impl. intros x _.
    apply levels_within_mono. lia.
Qed.

Lemma Document_Chapter_at_levels (f : Chapter -> Chapter) (path : list nat) :
  keeps_levels f ->
  forall n c c', n <= maxInt ->
    levels_within n 0 (PDocument c) = true ->
    Document_Chapter_at path f c = Some c' ->
    levels_within (n + 1) 0 (PDocument c') = true.
Proof.
  intros Hf n c c' Hn H Hat. destruct path as [|j path]; [discriminate Hat|].
  simpl in Hat.
  destruct (nth_error (Document_Body c) j) as [[w|d|a|sub|s|k|i|t|b]|] eqn:E;
    try discriminate Hat.
  destruct (Chapter_at path f sub) as [sub'|] eqn:E'; [|discriminate Hat].
  injection Hat as <-. destruct c as [id title authors body]. simpl in *.
  assert (Hsub : levels_within n 0 (PChapter sub) = true)
    by exact (forallb_nth_error _ j _ body H E).
  apply (Chapter_at_levels f path Hf n 0 sub sub' Hn) in Hsub; [|exact E'].
  apply forallb_replace_nth; [|exact Hsub].
  revert H. apply forallb_impl. intros x _. apply levels_within_mono. lia.
Qed.

Lemma Workspace_Document_at_levels (g : Document -> option Document) (i : nat) :
  forall n w w',
    (forall c c', levels_within n 0 (PDocument c) = true -> g c = Some c' ->
                  levels_within (n + 1) 0 (PDocument c') = true) ->
    levels_within n 0 (PWorkspace w) = true ->
    Workspace_Document_at i g w = Some w' ->
    levels_within (n + 1) 0 (PWorkspace w') = true.
Proof.
  intros n w w' Hg H Hat. unfold Workspace_Document_at in Hat.
  destruct (nth_error (Workspace_Resources w) i) as [[x|doc|a|c|s|k|im|t|b]|] eqn:E;
    try discriminate Hat.
  destruct (g doc) as [doc'|] eqn:E'; [|discriminate Hat].
  injection Hat as <-. destruct w as [format version title resources]. simpl in *.
  assert (Hdoc : levels_within n 0 (PDocument doc) = true)
    by exact (forallb_nth_error _ i _ resources H E).
  apply forallb_replace_nth; [|exact (Hg doc doc' Hdoc E')].
  revert H. apply forallb_impl. intros x _. apply levels_within_mono. lia.
Qed.

(** One builder call keeps the levels consistent when it adds content
    only. *)
Lemma call_levels (c : builder_call) (n : Z) (w w' : Workspace) :
  0 <= n <= maxInt ->
  adds_content c = true ->
  levels_within n 0 (PWorkspace w) = true ->
  call w c = Some w' ->
  levels_within (n + 1) 0 (PWorkspace w') = true.
Proof.
  intros [Hn0 Hn] He H Hc.
  destruct c as [|doc s|doc e|doc path title|doc path e|doc path str];
    cbn [adds_content] in He; simpl in Hc.
  - injection Hc as <-. destruct w as [format version title resources]. simpl in *.
    rewrite forallb_app. simpl. rewrite andb_true_r.
    revert H. apply forallb_impl. intros x _. apply levels_within_mono. lia.
  - revert Hc. apply Workspace_Document_at_levels; [|exact H].
    intros c c' Hl Hg. injection Hg as <-. destruct c as [id title authors body].
    simpl in *. rewrite forallb_app. simpl.
    replace (0 <? n + 1) with true by (symmetry; apply Z.ltb_lt; lia).
    simpl. rewrite andb_true_r.
    revert Hl. apply forallb_impl. intros x _. apply levels_within_mono. lia.
  - revert Hc. apply Workspace_Document_at_levels; [|exact H].
    intros c c' Hl Hg. injection Hg as <-. destruct c as [id title authors body].
    simpl in *. rewrite forallb_app.
    rewrite (content_list_levels_within e (n + 1) 0 He), andb_true_r.
    revert Hl. apply forallb_impl. intros x _. apply levels_within_mono. lia.
  - revert Hc. apply Workspace_Document_at_levels; [|exact H].
    intros c c' Hl. apply Document_Chapter_at_levels; [|exact Hn|exact Hl].
    apply Chapter_NewChapter_keeps_levels.
  - revert Hc. apply Workspace_Document_at_levels; [|exact H].
    intros c c' Hl. apply Document_Chapter_at_levels; [|exact Hn|exact Hl].
    apply Chapter_Add_keeps_levels. exact He.
  - revert Hc. apply Workspace_Document_at_levels; [|exact H].
    intros c c' Hl. apply Document_Chapter_at_levels; [|exact Hn|exact Hl].
    apply Chapter_Text_keeps_levels.
Qed.

Lemma build_levels (calls : list builder_call) :
  forall n w w',
    0 <= n -> n + Z.of_nat (List.length calls) <= maxInt ->
    forallb adds_content calls = true ->
    levels_within n 0 (PWorkspace w) = true ->
    build w calls = Some w' ->
    levels_within (n + Z.of_nat (List.length calls)) 0 (PWorkspace w') = true.
Proof.
  induction calls as [|c calls IH]; intros n w w' Hn0 Hn He H Hb.
  - simpl in *. injection Hb as <-. rewrite Z.add_0_r. exact H.
  - simpl in Hb. destruct (call w c) as [w1|] eqn:Ec; [|discriminate Hb].
    cbn [forallb] in He. apply andb_prop in He. destruct He as [Hc He].
    cbn [List.length] in *. rewrite Nat2Z.inj_succ in *.
    replace (n + Z.succ (Z.of_nat (List.length calls)))
      with ((n + 1) + Z.of_nat (List.length calls)) by lia.
    apply (IH (n + 1) w1 w'); [lia | lia | exact He | | exact Hb].
    apply (call_levels c n w w1); [lia | exact Hc | exact H | exact Ec].
Qed.

(** C9, as amended: in a workspace made by builder calls alone (fewer than
    2^63 of them), starting without resources, every chapter has the level
    of its nesting depth, provided that [Add] is given content only (no
    chapter, document or workspace at any depth of its elements):
    [Document.NewChapter] creates a chapter of level 0 and
    [Chapter.NewChapter] one of the level of its parent plus 1 (in the
    arithmetic of [int]; the sum itself below the largest [int]). The
    decoder does not check levels: a chapter of level 5 at the top of a
    document is decoded as it is. *)
Theorem builder_levels_consistent (format : Z) (version title : string)
    (calls : list builder_call) (w : Workspace) :
  Z.of_nat (List.length calls) <= maxInt ->
  forallb adds_content calls = true ->
  build (Build_Workspace format version title []) calls = Some w ->
  levels_consistent 0 (PWorkspace w) = true
  /\ (forall c s, Chapter_Level (snd (Document_NewChapter c s)) = 0
                  /\ Document_Body (fst (Document_NewChapter c s))
                     = (Document_Body c ++ [PChapter (snd (Document_NewChapter c s))])%list)
  /\ (forall c t, Chapter_Level (snd (Chapter_NewChapter c t)) = wrap_int (Chapter_Level c + 1)
                  /\ Chapter_Body (fst (Chapter_NewChapter c t))
                     = (Chapter_Body c ++ [PChapter (snd (Chapter_NewChapter c t))])%list)
  /\ (forall c t, minInt <= Chapter_Level c < maxInt ->
                  Chapter_Level (snd (Chapter_NewChapter c t)) = Chapter_Level c + 1)
  /\ (let d := PDocument (Build_Document "D" "" [] [PChapter (Build_Chapter "c" 5 [])]) in
      fromJson (Discriminator_toJson d) = Return d /\ levels_consistent 0 d = false).
Proof.
  intros Hn He Hb. split; [|split; [|split; [|split]]].
  - apply (levels_within_consistent _ (0 + Z.of_nat (List.length calls)) 0).
    apply (build_levels calls 0 (Build_Workspace format version title []) w);
      [lia | lia | exact He | reflexivity | exact Hb].
  - intros [id dtitle authors body] s. split; reflexivity.
  - intros [ctitle level body] t. split; reflexivity.
  - intros [ctitle level body] t H. simpl in *. apply wrap_int_small.
    unfold minInt, maxInt in *. lia.
  - split; reflexivity.
Qed.

Lemma builder_levels_consistent_witness :
  Z.of_nat (List.length Scenario.readme_calls) <= maxInt
  /\ forallb adds_content Scenario.readme_calls = true
  /\ build (Build_Workspace 1 "1.0.1" "my workspace" []) Scenario.readme_calls = Some Scenario.readme_workspace
  /\ levels_consistent 0 (PWorkspace Scenario.readme_workspace) = true.
Proof.
  assert (H1 : Z.of_nat (List.length Scenario.readme_calls) <= maxInt)
    by (unfold maxInt; simpl; lia).
  assert (H2 : build (Build_Workspace 1 "1.0.1" "my workspace" []) Scenario.readme_calls
               = Some Scenario.readme_workspace) by reflexivity.
  assert (H3 : forallb adds_content Scenario.readme_calls = true) by reflexivity.
  split; [exact H1|split; [exact H3|split; [exact H2|]]].
  exact (proj1 (builder_levels_consistent 1 "1.0.1" "my workspace"
                  Scenario.readme_calls Scenario.readme_workspace H1 H3 H2)).
Defined.

(** C9 as stated fails: [Add] appends what it is given. A section made by
    [NewChapter] of a chapter has level 1; given to [Add] of a document it
    lies at the top of that document, at depth 0. Both calls are builder
    operations, and the workspace they make is not consistent. *)
Lemma builder_Add_of_a_section :
  Scenario.stray_section = Build_Chapter "b" 1 []
  /\ build Workspace_zero Scenario.stray_calls = Some Scenario.stray_workspace
  /\ levels_consistent 0 (PWorkspace Scenario.stray_workspace) = false.
Proof. repeat split. Qed.

End BuilderFacts.

(** ** Paths and digests *)

Module PathFacts.
Import Strings Filepath.

Lemma append_assoc (a b c : string) : ((a ++ b) ++ c = a ++ (b ++ c))%string.
Proof. induction a as [|x a IH]; simpl; [reflexivity | rewrite IH; reflexivity]. Qed.

Lemma append_nil_r (a : string) : (a ++ "" = a)%string.
Proof. induction a as [|x a IH]; simpl; [reflexivity | rewrite IH; reflexivity]. Qed.

Lemma length_append (a b : string) :
  String.length (a ++ b) = (String.length a + String.length b)%nat.
Proof. induction a as [|x a IH]; simpl; [reflexivity | rewrite IH; reflexivity]. Qed.

(** Two strings with a common end of the same length. *)
Lemma append_same_length_end (p q x y : string) :
  String.length x = String.length y ->
  (p ++ x = q ++ y)%string -> x = y.
Proof.
  intros Hl. revert q. induction p as [|c p IH]; intros q H.
  - destruct q as [|d q]; [exact H|].
    exfalso. apply (f_equal String.length) in H. simpl in H.
    rewrite length_append in H. lia.
  - destruct q as [|d q].
    + exfalso. apply (f_equal String.length) in H. simpl in H.
      rewrite length_append in H. lia.
    + simpl in H. injection H as _ H. exact (IH q H).
Qed.

Lemma split_from_append (x y cur : string) :
  split_from cur (x ++ String slash y) = (split_from cur x ++ split_from "" y)%list.
Proof.
  revert cur. induction x as [|c x IH]; intros cur; cbn [split_from append].
  - rewrite Ascii.eqb_refl. reflexivity.
  - destruct (Ascii.eqb c slash); rewrite IH; reflexivity.
Qed.

Lemma split_from_no_slash (y cur : string) :
  no_slash y -> split_from cur y = [(cur ++ y)%string].
Proof.
  unfold no_slash. revert cur. induction y as [|c y IH]; intros cur H;
    cbn [split_from existsb list_ascii_of_string] in *.
  - rewrite append_nil_r. reflexivity.
  - apply orb_false_elim in H. destruct H as [Hc Hy].
    rewrite Ascii.eqb_sym, Hc. rewrite (IH _ Hy), append_assoc. reflexivity.
Qed.

Lemma clean_step_ordinary (rooted : bool) (stack : list string) (elem : string) :
  ordinary elem -> clean_step rooted stack elem = elem :: stack.
Proof.
  intros (H1 & H2 & H3). unfold clean_step.
  apply String.eqb_neq in H1, H2, H3. rewrite H1, H2, H3. reflexivity.
Qed.

Lemma Join_two_last (l : list string) (a h : string) :
  exists P, Strings.Join (l ++ [a; h]) "/" = (P ++ a ++ "/" ++ h)%string.
Proof.
  induction l as [|e l IH].
  - exists "". reflexivity.
  - destruct IH as [P IH]. exists (e ++ "/" ++ P)%string.
    change ((e :: l) ++ [a; h])%list with (e :: (l ++ [a; h]))%list.
    destruct (l ++ [a; h])%list as [|e' rest] eqn:E.
    + destruct l; discriminate E.
    + cbn [Strings.Join]. cbn [Strings.Join] in IH. rewrite IH.
      rewrite !append_assoc. reflexivity.
Qed.

Lemma append_not_empty (p a q : string) : a <> "" -> String.eqb (p ++ a ++ q) "" = false.
Proof.
  intros Ha. apply String.eqb_neq. intros H.
  apply (f_equal String.length) in H. rewrite !length_append in H. simpl in H.
  destruct a; [apply Ha; reflexivity | simpl in H; lia].
Qed.

(** [Clean] keeps two last elements that are ordinary. *)
Lemma Clean_two_last (l : list string) (path a h : string) :
  split path = (l ++ [a; h])%list -> ordinary a -> ordinary h ->
  exists P, Clean path = (P ++ a ++ "/" ++ h)%string.
Proof.
  intros Hs Ha Hh. unfold Clean. rewrite Hs, fold_left_app. simpl.
  rewrite (clean_step_ordinary _ _ a Ha), (clean_step_ordinary _ _ h Hh).
  simpl. rewrite <- !app_assoc. simpl.
  destruct (Join_two_last (rev (fold_left (clean_step (is_rooted path)) l [])) a h)
    as [P HP].
  rewrite HP. exists ((if is_rooted path then "/" else "") ++ P)%string.
  rewrite <- append_assoc.
  rewrite append_not_empty by (destruct Ha as [Ha _]; exact Ha).
  reflexivity.
Qed.

(** The path of a cache directory ends with the kind of the cache and the
    digest. *)
Lemma Join_three (t a h : string) :
  ordinary a -> no_slash a -> ordinary h -> no_slash h ->
  exists P, Filepath.Join [t; a; h] = (P ++ a ++ "/" ++ h)%string.
Proof.
  intros Ha Sa Hh Sh.
  assert (Hah : split_from "" (a ++ String slash h) = [a; h]).
  { rewrite split_from_append, (split_from_no_slash a "" Sa), (split_from_no_slash h "" Sh).
    reflexivity. }
  cbn [Filepath.Join]. destruct (String.eqb t "") eqn:Et.
  - assert (Ea : String.eqb a "" = false)
      by (apply String.eqb_neq; destruct Ha as [Ha _]; exact Ha).
    rewrite Ea. apply (Clean_two_last [] _ a h); [|exact Ha|exact Hh].
    exact Hah.
  - apply (Clean_two_last (split t) _ a h); [|exact Ha|exact Hh].
    cbn [Strings.Join]. unfold split.
    change ("/" ++ a ++ "/" ++ h)%string with (String slash (a ++ String slash h)).
    rewrite split_from_append, Hah. reflexivity.
Qed.

End PathFacts.

Module DigestFacts.
Import Sha256 Hex Filepath PathFacts.

Lemma round_length (st : list Z) (kw : Z * Z) :
  List.length st = 8%nat -> List.length (round st kw) = 8%nat.
Proof.
  intros H. do 9 (destruct st as [|? st]; try discriminate H). reflexivity.
Qed.

Lemma fold_round_length (kws : list (Z * Z)) (st : list Z) :
  List.length st = 8%nat -> List.length (fold_left round kws st) = 8%nat.
Proof.
  revert st. induction kws as [|kw kws IH]; intros st H; simpl; [exact H|].
  apply IH, round_length, H.
Qed.

Lemma compress_length (H : list Z) (block : list Z) :
  List.length H = 8%nat -> List.length (compress H block) = 8%nat.
Proof.
  intros HH. unfold compress. rewrite length_map, length_combine.
  rewrite fold_round_length by exact HH. rewrite HH. reflexivity.
Qed.

Lemma blocks_length (n : nat) (H : list Z) (bytes : list Z) :
  List.length H = 8%nat -> List.length (blocks n H bytes) = 8%nat.
Proof.
  revert H bytes. induction n as [|n IH]; intros H bytes HH; simpl; [exact HH|].
  apply IH, compress_length, HH.
Qed.

Lemma flat_map_word_bytes (ws : list Z) :
  List.length (flat_map word_bytes ws) = (4 * List.length ws)%nat
  /\ Forall is_byte (flat_map word_bytes ws).
Proof.
  induction ws as [|x ws [IH1 IH2]]; simpl; [split; [reflexivity | constructor]|].
  split; [rewrite IH1; lia|].
  repeat (constructor; [apply Z.mod_pos_bound; lia|]). exact IH2.
Qed.

(** The digest has 28 bytes. *)
Lemma Sum224_bytes (data : string) :
  List.length (Sum224 data) = 28%nat /\ Forall is_byte (Sum224 data).
Proof.
  unfold Sum224.
  set (H := blocks _ _ _).
  assert (HH : List.length H = 8%nat) by (apply blocks_length; reflexivity).
  destruct (flat_map_word_bytes (firstn 7 H)) as [L B].
  split; [|exact B]. rewrite L, length_firstn, HH. reflexivity.
Qed.

Lemma EncodeToString_length (src : list Z) :
  String.length (EncodeToString src) = (2 * List.length src)%nat.
Proof. induction src as [|v src IH]; simpl; [reflexivity | rewrite IH; lia]. Qed.

Lemma digit_cases (n : Z) :
  In (digit n) (list_ascii_of_string hextable).
Proof.
  unfold digit. generalize (Z.to_nat n). intros k.
  do 16 (destruct k as [|k]; [simpl; tauto|]). simpl. tauto.
Qed.

Lemma digit_not (c : ascii) (n : Z) :
  ~ In c (list_ascii_of_string hextable) -> digit n <> c.
Proof. intros H E. apply H. rewrite <- E. apply digit_cases. Qed.

Lemma EncodeToString_no_slash (src : list Z) : no_slash (EncodeToString src).
Proof.
  unfold no_slash. induction src as [|v src IH];
    cbn [EncodeToString existsb list_ascii_of_string]; [reflexivity|].
  rewrite IH.
  assert (D : forall n, Ascii.eqb Filepath.slash (digit n) = false).
  { intros n. apply Ascii.eqb_neq. intros E. symmetry in E. revert E.
    apply digit_not. simpl. intros H.
    repeat (destruct H as [H|H]; [discriminate H|]). exact H. }
  rewrite !D. reflexivity.
Qed.

Lemma EncodeToString_ordinary (src : list Z) :
  src <> [] -> ordinary (EncodeToString src).
Proof.
  intros H. destruct src as [|v src]; [contradiction|]. simpl.
  assert (D : forall n, digit n <> "."%char).
  { intros n. apply digit_not. simpl. intros E.
    repeat (destruct E as [E|E]; [discriminate E|]). exact E. }
  repeat split; intros E; try discriminate E; injection E as E _; exact (D _ E).
Qed.

Lemma undigit_digit (n : Z) : 0 <= n < 16 -> undigit (digit n) = n.
Proof.
  intros H. rewrite <- (Z2Nat.id n) by lia.
  assert (K : (Z.to_nat n < 16)%nat) by lia.
  revert K. generalize (Z.to_nat n). intros k K.
  do 16 (destruct k as [|k]; [reflexivity|]). lia.
Qed.

Lemma EncodeToString_inj (l1 l2 : list Z) :
  Forall is_byte l1 -> Forall is_byte l2 ->
  EncodeToString l1 = EncodeToString l2 -> l1 = l2.
Proof.
  intros H1. revert l2. induction H1 as [|v l1 Hv _ IH]; intros l2 H2 E.
  - destruct l2; [reflexivity | discriminate E].
  - destruct H2 as [|u l2 Hu H2]; [discriminate E|].
    simpl in E. injection E as Ehi Elo E.
    unfold is_byte in *.
    rewrite !Z.mod_small in Ehi, Elo by lia.
    apply (f_equal undigit) in Ehi, Elo.
    rewrite !Z.shiftr_div_pow2 in Ehi by lia.
    change (Z.land ?x 15) with (Z.land x (Z.ones 4)) in Elo.
    rewrite !Z.land_ones in Elo by lia.
    change (2 ^ 4) with 16 in *.
    rewrite !undigit_digit in Ehi, Elo
      by (first [ apply Z.mod_pos_bound; lia
                | split; [apply Z.div_pos; lia | apply Z.div_lt_upper_bound; lia] ]).
    f_equal; [|exact (IH l2 H2 E)].
    rewrite (Z.div_mod v 16), (Z.div_mod u 16) by lia. rewrite Ehi, Elo. reflexivity.
Qed.

End DigestFacts.

(** ** The cache directories of a build *)

Module CacheFacts.
Import Go Wdydoc Filepath PathFacts DigestFacts.

Lemma cache_dir_shape (t kind data : string) :
  ordinary kind -> no_slash kind ->
  exists P,
    Filepath.Join [t; kind; Hex.EncodeToString (Sha256.Sum224 data)]
    = (P ++ kind ++ "/" ++ Hex.EncodeToString (Sha256.Sum224 data))%string.
Proof.
  intros Hk Sk. apply Join_three; [exact Hk | exact Sk | | apply EncodeToString_no_slash].
  apply EncodeToString_ordinary. intros E.
  pose proof (proj1 (Sum224_bytes data)) as L. rewrite E in L. discriminate L.
Qed.

Lemma hex_digest_length (data : string) :
  String.length (Hex.EncodeToString (Sha256.Sum224 data)) = 56%nat.
Proof. rewrite EncodeToString_length, (proj1 (Sum224_bytes data)). reflexivity. Qed.

Lemma transform_ordinary : ordinary "transform" /\ no_slash "transform".
Proof. repeat split; discriminate. Qed.

Lemma template_ordinary : ordinary "template" /\ no_slash "template".
Proof. repeat split; discriminate. Qed.

(** C4, as amended: two rules whose staging directories are the same path
    have the same SHA-224 digest of identifier followed by template, so the
    directories differ whenever these digests differ; for two rules with the
    same template and different identifiers the digested strings differ; and
    no staging directory is the provisioning directory of any URL, of the
    same build or another. *)
Theorem staging_directories (b : Build) (r1 r2 : BuildRule) :
  (transformTmpDir b r1 = transformTmpDir b r2 ->
   Sha256.Sum224 (BuildRule_Id r1 ++ BuildRule_Template r1)
   = Sha256.Sum224 (BuildRule_Id r2 ++ BuildRule_Template r2))
  /\ (Sha256.Sum224 (BuildRule_Id r1 ++ BuildRule_Template r1)
      <> Sha256.Sum224 (BuildRule_Id r2 ++ BuildRule_Template r2) ->
      transformTmpDir b r1 <> transformTmpDir b r2)
  /\ (BuildRule_Template r1 = BuildRule_Template r2 ->
      BuildRule_Id r1 <> BuildRule_Id r2 ->
      (BuildRule_Id r1 ++ BuildRule_Template r1 <> BuildRule_Id r2 ++ BuildRule_Template r2)%string)
  /\ (forall (b' : Build) (url : string), transformTmpDir b r1 <> templateDstDir b' url).
Proof.
  assert (A : transformTmpDir b r1 = transformTmpDir b r2 ->
              Sha256.Sum224 (BuildRule_Id r1 ++ BuildRule_Template r1)
              = Sha256.Sum224 (BuildRule_Id r2 ++ BuildRule_Template r2)).
  { unfold transformTmpDir. intros E.
    destruct transform_ordinary as [Ho Hs].
    destruct (cache_dir_shape (Build_tmpDir b) "transform"
                (BuildRule_Id r1 ++ BuildRule_Template r1) Ho Hs) as [P1 E1].
    destruct (cache_dir_shape (Build_tmpDir b) "transform"
                (BuildRule_Id r2 ++ BuildRule_Template r2) Ho Hs) as [P2 E2].
    cbv zeta in E. rewrite E1, E2 in E.
    rewrite <- !(append_assoc _ "transform" _), <- !(append_assoc _ "/" _) in E.
    apply append_same_length_end in E; [|rewrite !hex_digest_length; reflexivity].
    apply EncodeToString_inj in E; [exact E | |]; apply Sum224_bytes. }
  split; [exact A|]. split; [intros N E; exact (N (A E))|]. split.
  - intros Et Hid E. apply Hid. rewrite Et in E.
    apply (f_equal (fun s => String.length s)) in E as L.
    rewrite !length_append in L.
    assert (Ll : String.length (BuildRule_Id r1) = String.length (BuildRule_Id r2)) by lia.
    clear L. revert E Ll. generalize (BuildRule_Template r2) as t.
    generalize (BuildRule_Id r2) as y. generalize (BuildRule_Id r1) as x.
    induction x as [|c x IH]; intros [|d y] t E L; try discriminate L; [reflexivity|].
    simpl in *. injection E as -> E. f_equal. apply (IH y t E). lia.
  - intros b' url E. unfold transformTmpDir, templateDstDir in E. cbv zeta in E.
    destruct transform_ordinary as [Ho Hs]. destruct template_ordinary as [Ho' Hs'].
    destruct (cache_dir_shape (Build_tmpDir b) "transform"
                (BuildRule_Id r1 ++ BuildRule_Template r1) Ho Hs) as [P1 E1].
    destruct (cache_dir_shape (Build_tmpDir b') "template" url Ho' Hs') as [P2 E2].
    rewrite E1, E2 in E.
    change ("transform" ++ "/" ++ ?h)%string with ("t" ++ ("ransform/" ++ h))%string in E.
    rewrite <- (append_assoc P1 "t" _) in E.
    apply append_same_length_end in E.
    + discriminate E.
    + rewrite !length_append, !hex_digest_length. reflexivity.
Qed.

(** C4 as stated fails: the rules (book, s/latex) and (books, /latex) are
    different pairs, and identifier followed by template is books/latex for
    both, so both are staged in the same directory. *)
Lemma staging_directories_collide :
  let b := Build_Build Workspace_zero "out" [] "/tmp/wdydoc1" in
  let r1 := Build_BuildRule "book" "s/latex" "a" in
  let r2 := Build_BuildRule "books" "/latex" "b" in
  (BuildRule_Id r1, BuildRule_Template r1) <> (BuildRule_Id r2, BuildRule_Template r2)
  /\ transformTmpDir b r1 = transformTmpDir b r2.
Proof. split; [discriminate | reflexivity]. Qed.

(** The staging directory of the rule of the command line example and the
    provisioning directory of its template. *)
Example cache_directories_example :
  let b := Build_Build Workspace_zero ".build" [] "/tmp/wdydoc1" in
  let url := "https://github.com/worldiety/tmpl-doc-latex-book-01.git" in
  transformTmpDir b (Build_BuildRule "1234" url "")
  = "/tmp/wdydoc1/transform/9cc2519bc7a8ebb18dde283a0454c8df898bd9a5e3f8b1c07fdcdc30"
  /\ templateDstDir b url
     = "/tmp/wdydoc1/template/cdadb0fdd61300ce534747078a8fbddf3fcf1f60058baf3817cfd346".
Proof. vm_compute. split; reflexivity. Qed.

End CacheFacts.

(** ** The files of a template project *)

Module TransformerFacts.
Import Go Wdydoc PathFacts.

Lemma Ext_suffix (path : string) : exists pre, path = (pre ++ Filepath.Ext path)%string.
Proof.
  induction path as [|c s IH].
  - exists "". reflexivity.
  - cbn [Filepath.Ext]. destruct (Filepath.Ext s) as [|e ext] eqn:E.
    + destruct (existsb _ _).
      * exists (String c s). rewrite append_nil_r. reflexivity.
      * destruct (Ascii.eqb c Filepath.dot).
        -- exists "". reflexivity.
        -- exists (String c s). rewrite append_nil_r. reflexivity.
    + destruct IH as [pre IH]. exists (String c pre). simpl. rewrite <- IH. reflexivity.
Qed.

Lemma ToLower_length (s : string) :
  String.length (Strings.ToLower s) = String.length s.
Proof. induction s as [|c s IH]; simpl; [reflexivity | rewrite IH; reflexivity]. Qed.

Lemma substring_0_append (a b : string) :
  String.substring 0 (String.length a) (a ++ b) = a.
Proof.
  induction a as [|c a IH]; simpl.
  - destruct b; reflexivity.
  - rewrite IH. reflexivity.
Qed.

(** The destination name of a template: the base name without its
    extension. *)
Lemma strip_extension (basePath suffix : string) :
  Strings.ToLower (Filepath.Ext basePath) = suffix ->
  (Strings.slice_to basePath (Strings.len basePath - Strings.len suffix)
   ++ Filepath.Ext basePath)%string = basePath.
Proof.
  intros H. destruct (Ext_suffix basePath) as [pre E].
  remember (Filepath.Ext basePath) as e eqn:He. clear He. subst basePath.
  assert (L : Strings.len suffix = String.length e).
  { unfold Strings.len. rewrite <- H. apply ToLower_length. }
  rewrite L. unfold Strings.slice_to, Strings.len.
  rewrite length_append.
  replace (String.length pre + String.length e - String.length e)%nat
    with (String.length pre) by lia.
  rewrite substring_0_append. reflexivity.
Qed.

Section Dispatch.
Variables W T : Type.
Variable sys : Sys W T.

(** C5: the extension of the base name, compared without regard to case,
    decides the transform and the destination name of a project file: a
    text template for [.tmpl] and an HTML template for [.gohtml], both named
    by the base name without the extension, and a copy under the full base
    name for every other file. So [index.tmpl] becomes [index] (text),
    [page.gohtml] becomes [page] (HTML) and [logo.png] stays [logo.png]
    (copy). The copy transform writes to its output the bytes read from the
    source, as they are. *)
Theorem NewFile_dispatch (parent : Template T) (fname : string) (w : W) (f : File T) :
  NewFile sys parent fname w = Ok f ->
  let basePath := Filepath.Base fname in
  let ext := Strings.ToLower (Filepath.Ext basePath) in
  File_srcFile f = fname
  /\ (ext = textTemplate ->
      (File_dstFilename f ++ Filepath.Ext basePath)%string = basePath
      /\ exists tpl, ParseFiles sys TextFlavor basePath fname w = Ok tpl
                     /\ File_transformer f = PTextTransformer basePath tpl)
  /\ (ext = htmlTemplate ->
      (File_dstFilename f ++ Filepath.Ext basePath)%string = basePath
      /\ exists tpl, ParseFiles sys HtmlFlavor basePath fname w = Ok tpl
                     /\ File_transformer f = PHtmlTransformer basePath tpl)
  /\ (ext <> textTemplate -> ext <> htmlTemplate ->
      File_dstFilename f = basePath /\ File_transformer f = PCopyTransformer fname)
  /\ (basePath = "index.tmpl" ->
      File_dstFilename f = "index"
      /\ exists tpl, File_transformer f = PTextTransformer "index.tmpl" tpl)
  /\ (basePath = "page.gohtml" ->
      File_dstFilename f = "page"
      /\ exists tpl, File_transformer f = PHtmlTransformer "page.gohtml" tpl)
  /\ (basePath = "logo.png" ->
      File_dstFilename f = "logo.png" /\ File_transformer f = PCopyTransformer fname)
  /\ (forall model out data w0,
        OpenRead sys fname w0 = Ok (data, None) ->
        Transform sys (PCopyTransformer fname) model out w0
        = (match fst (Write sys out data w0) with
           | Some e => Some ("failed to copy: " ++ fname ++ ": " ++ e)%string
           | None => None
           end, snd (Write sys out data w0))).
Proof.
  intros H basePath ext. unfold NewFile in H. fold basePath in H. fold ext in H.
  assert (Copy : forall model out data w0,
        OpenRead sys fname w0 = Ok (data, None) ->
        Transform sys (PCopyTransformer fname) model out w0
        = (match fst (Write sys out data w0) with
           | Some e => Some ("failed to copy: " ++ fname ++ ": " ++ e)%string
           | None => None
           end, snd (Write sys out data w0))).
  { intros model out data w0 Hr.
    unfold Transform, CopyTransformer_Transform, io_Copy, andThen, look, ret.
    rewrite Hr. cbn [fst snd]. destruct (Write sys out data w0) as [[e|] w1]; reflexivity. }
  destruct (String.eqb ext htmlTemplate) eqn:Eh.
  - apply String.eqb_eq in Eh.
    destruct (ParseFiles sys HtmlFlavor basePath fname w) as [tpl|err] eqn:Ep;
      [|discriminate H].
    injection H as <-. cbn [File_srcFile File_dstFilename File_transformer].
    assert (S : (Strings.slice_to basePath (Strings.len basePath - Strings.len htmlTemplate)
                 ++ Filepath.Ext basePath)%string = basePath)
      by (apply strip_extension; exact Eh).
    split; [reflexivity|].
    split; [intros E; rewrite Eh in E; discriminate E|].
    split; [intros _; split; [exact S | exists tpl; split; reflexivity]|].
    split; [intros _ N; contradiction|].
    split; [intros E; subst ext; rewrite E in Eh; discriminate Eh|].
    split; [intros E; rewrite E; split; [reflexivity | exists tpl; reflexivity]|].
    split; [intros E; subst ext; rewrite E in Eh; discriminate Eh|].
    exact Copy.
  - apply String.eqb_neq in Eh. destruct (String.eqb ext textTemplate) eqn:Et.
    + apply String.eqb_eq in Et.
      destruct (ParseFiles sys TextFlavor basePath fname w) as [tpl|err] eqn:Ep;
        [|discriminate H].
      injection H as <-. cbn [File_srcFile File_dstFilename File_transformer].
      assert (S : (Strings.slice_to basePath (Strings.len basePath - Strings.len textTemplate)
                   ++ Filepath.Ext basePath)%string = basePath)
        by (apply strip_extension; exact Et).
      split; [reflexivity|].
      split; [intros _; split; [exact S | exists tpl; split; reflexivity]|].
      split; [intros E; contradiction|].
      split; [intros N; contradiction|].
      split; [intros E; rewrite E; split; [reflexivity | exists tpl; reflexivity]|].
      split; [intros E; subst ext; rewrite E in Et; discriminate Et|].
      split; [intros E; subst ext; rewrite E in Et; discriminate Et|].
      exact Copy.
    + apply String.eqb_neq in Et.
      injection H as <-. cbn [File_srcFile File_dstFilename File_transformer].
      split; [reflexivity|].
      split; [intros E; contradiction|].
      split; [intros E; contradiction|].
      split; [intros _ _; split; reflexivity|].
      split; [intros E; subst ext; rewrite E in Et; exfalso; apply Et; reflexivity|].
      split; [intros E; subst ext; rewrite E in Eh; exfalso; apply Eh; reflexivity|].
      split; [intros E; rewrite E; split; reflexivity|].
      exact Copy.
Qed.

End Dispatch.

(** The text template of the template folder of [Scenario]. *)
Lemma NewFile_dispatch_witness :
  NewFile Scenario.sys (Build_Template "/tpl" "/tmp/x" []) "/tpl/index.tmpl"
    Scenario.template_world
  = Ok (Build_File "/tpl/index.tmpl" "index"
          (PTextTransformer "index.tmpl" "Hello {{.Title}}"))
  /\ File_dstFilename
       (Build_File "/tpl/index.tmpl" "index"
          (PTextTransformer "index.tmpl" "Hello {{.Title}}")) = "index".
Proof.
  assert (H : NewFile Scenario.sys (Build_Template "/tpl" "/tmp/x" []) "/tpl/index.tmpl"
                Scenario.template_world
              = Ok (Build_File "/tpl/index.tmpl" "index"
                      (PTextTransformer "index.tmpl" "Hello {{.Title}}")))
    by reflexivity.
  split; [exact H|].
  pose proof (NewFile_dispatch _ _ Scenario.sys _ _ _ _ H) as D.
  exact (proj1 (proj1 (proj2 (proj2 (proj2 (proj2 D)))) eq_refl)).
Defined.

(** The three files of the template folder of [Scenario], staged and
    copied to the output folder: the templates without their extension and
    rendered, the image as it is. *)
Example template_folder_is_built :
  let w := snd (Build_Apply Scenario.sys (Scenario.demo_build "/tpl" "D1")
                  Scenario.template_world) in
  fst (Build_Apply Scenario.sys (Scenario.demo_build "/tpl" "D1") Scenario.template_world)
  = None
  /\ Scenario.find_file (Scenario.files w) "/out/book/index" = Some "Hello demo"
  /\ Scenario.find_file (Scenario.files w) "/out/book/page" = Some "<h1>demo</h1>"
  /\ Scenario.find_file (Scenario.files w) "/out/book/logo.png"
     = Scenario.find_file (Scenario.files Scenario.template_world) "/tpl/logo.png".
Proof. vm_compute. repeat split. Qed.

End TransformerFacts.

(** ** Build.Apply *)

Module ApplyFacts.
Import Go Wdydoc.

Section Apply.
Variables W T : Type.
Variable sys : Sys W T.





(** The error of [Template.Build] is not read: when the steps before it
    succeed and the output folder can be created, [Apply] goes on with the
    files [Build] returned (none) and then with the next rule. *)
Lemma Apply_rules_ignores_Build_error (b : Build) (r : BuildRule) (rest : list BuildRule)
    (w w1 w2 w3 : W) (template : string) (objRoot : Discriminator) (tpl : Template T)
    (err : error) :
  Build_provideTemplate sys b (BuildRule_Template r) w = (Ok template, w1) ->
  Workspace_ById (Build_workspace b) (BuildRule_Id r) = Some objRoot ->
  ReadTemplate sys template (transformTmpDir b r) w1 = (tpl, None) ->
  Template_Build sys tpl objRoot w1 = (([], Some err), w2) ->
  MkdirAll sys (Filepath.Join [Build_dir b; BuildRule_Name r]) w2 = (None, w3) ->
  Apply_rules sys b (r :: rest) w = Apply_rules sys b rest w3.
Proof.
  intros Hp Hi Hr Hb Hm. cbn [Apply_rules]. unfold andThen, look, ret.
  rewrite Hp, Hi, Hr. cbn [fst snd]. rewrite Hb. cbn [fst snd]. rewrite Hm.
  reflexivity.
Qed.


End Apply.


(** C2 fails at a rendering failure: the template of [broken_world] fails
    when it is executed, [Template.Build] returns the error (and no files),
    and [Apply] returns nil, the output folder created and empty. *)
Example Apply_returns_nil_after_render_failure :
  let b := Scenario.demo_build "/bad" "D1" in
  let w := Scenario.broken_world in
  let tpl := fst (ReadTemplate Scenario.sys "/bad"
                    (transformTmpDir b (Build_BuildRule "D1" "/bad" "book")) w) in
  fst (Template_Build Scenario.sys tpl
         (PDocument (Build_Document "D1" "demo" []
            [PChapter (Build_Chapter "Intro" 0 [PSpan (Text "hello")])])) w)
  = ([], Some "failed to build: failed to apply text template for index.tmpl: template: can't evaluate field")
  /\ fst (Build_Apply Scenario.sys b w) = None
  /\ Scenario.is_dir (snd (Build_Apply Scenario.sys b w)) "/out/book" = true
  /\ Scenario.names_in (snd (Build_Apply Scenario.sys b w)) "/out/book" = [].
Proof. vm_compute. repeat split. Qed.

End ApplyFacts.

(** ** Marshal and Unmarshal *)

Module MarshalFacts.
Import Go Wdydoc CodecFacts.

(** C1 fails for a code block: [Code.toJson] stores the lines as a
    [[]string], [json.Unmarshal] reads the array back as a [[]interface{}],
    and [optStringSlice] accepts a [[]string] only, so the lines are gone
    after [Unmarshal(Marshal(w))]. On the attribute map itself ([fromJson]
    of [toJson], without the bytes in between) the tree is reproduced. *)
Theorem Unmarshal_Marshal_drops_code_lines :
  constructible (PWorkspace Scenario.code_workspace) = true
  /\ fromJson (Workspace_toJson Scenario.code_workspace) = Return (PWorkspace Scenario.code_workspace)
  /\ match Marshal Scenario.code_workspace with
     | Ok b => Unmarshal b
     | Err err => Return (Err err)
     end = Return (Ok Scenario.code_workspace_reread)
  /\ Scenario.code_workspace_reread <> Scenario.code_workspace.
Proof.
  split; [reflexivity|]. split; [vm_compute; reflexivity|].
  split; [vm_compute; reflexivity | discriminate].
Qed.

(** The workspace of the README example is reproduced by
    [Unmarshal(Marshal(w))]: it has no code block. *)
Example Unmarshal_Marshal_readme :
  match Marshal Scenario.readme_workspace with
  | Ok b => Unmarshal b
  | Err err => Return (Err err)
  end = Return (Ok Scenario.readme_workspace).
Proof. vm_compute. reflexivity. Qed.

(** The tree of [Scenario] decoded from its attribute map. *)
Lemma fromJson_toJson_witness :
  constructible (PWorkspace Scenario.demo_workspace) = true
  /\ fromJson (Discriminator_toJson (PWorkspace Scenario.demo_workspace))
     = Return (PWorkspace Scenario.demo_workspace).
Proof.
  split; [reflexivity|].
  exact (fromJson_toJson (PWorkspace Scenario.demo_workspace) eq_refl).
Defined.

End MarshalFacts.

(** ** Code blocks read from JSON *)

Module JsonFacts.
Import Go Wdydoc Json GoFacts CodecFacts.

Lemma generic_delete_entry (es : list (string * value)) (key : string) :
  forallb (fun e => generic (snd e)) es = true ->
  forallb (fun e => generic (snd e)) (delete_entry es key) = true.
Proof.
  induction es as [|[k v] es IH]; simpl; [reflexivity|]. intros H.
  apply andb_prop in H. destruct H as [Hv He].
  destruct (String.eqb k key); [exact (IH He)|]. simpl. rewrite Hv. exact (IH He).
Qed.

Lemma generic_mapAssign (m : object) (key : string) (v : value) :
  generic_object m = true -> generic v = true ->
  generic_object (mapAssign m key v) = true.
Proof.
  destruct m as [es]. unfold mapAssign. cbn [entries generic_object forallb snd].
  intros Hm Hv. rewrite Hv. apply generic_delete_entry. exact Hm.
Qed.

(** What [json.Unmarshal] stores is generic. *)
Lemma valueInterface_generic (j : json) :
  forall v, valueInterface j = Ok v -> generic v = true.
Proof.
  induction j as [|b|m e|s|l IH|members IH] using json_ind; intros v H; simpl in H.
  - injection H as <-. reflexivity.
  - injection H as <-. reflexivity.
  - unfold convertNumber in H. destruct (ParseFloat m e); try discriminate H;
      injection H as <-; reflexivity.
  - injection H as <-. reflexivity.
  - revert v H. induction IH as [|x Hx l Hl IHl]; intros v H.
    + injection H as <-. reflexivity.
    + destruct (valueInterface x) as [vx|ex] eqn:Ex.
      * match type of H with
        | match ?r with Ok _ => _ | Err _ => _ end = _ =>
            destruct r as [[| | | | | | |vs|]|er] eqn:Er
        end; try discriminate H;
          try (injection H as <-; apply (IHl _ eq_refl)).
        injection H as <-. simpl. rewrite (Hx vx eq_refl). apply (IHl (VSlice vs) eq_refl).
      * discriminate H.
  - assert (G : forall acc, generic_object acc = true ->
                (fix fields (ms : list (string * json)) (acc : object) : result value :=
                   match ms with
                   | [] => Ok (VMap acc)
                   | (k, x) :: ms' =>
                       match valueInterface x with
                       | Ok v => fields ms' (mapAssign acc k v)
                       | Err e => Err e
                       end
                   end) members acc = Ok v -> generic v = true).
    { clear H. induction IH as [|[k x] Hx ms Hms IHms]; intros acc Hacc H.
      - injection H as <-. exact Hacc.
      - inversion Hx as [k' _ x' Px E]; subst.
        destruct (valueInterface x) as [vx|ex] eqn:Ex; [|discriminate H].
        apply (IHms (mapAssign acc k vx)); [|exact H].
        apply generic_mapAssign; [exact Hacc | exact (Px vx eq_refl)]. }
    apply (G make_map); [reflexivity | exact H].
Qed.

Lemma Unmarshal_map_generic (b : json) (m : object) :
  Unmarshal_map b = Ok m -> generic_object m = true.
Proof.
  unfold Unmarshal_map. destruct b; try discriminate.
  - intros H. injection H as <-. reflexivity.
  - destruct (valueInterface (JObject members)) as [v|e] eqn:E; [|discriminate].
    destruct v; try discriminate. intros H. injection H as <-.
    exact (valueInterface_generic _ _ E).
Qed.

Lemma mapIndex_entry (es : list (string * value)) (key : string) :
  mapIndex (Object es) key = VNil
  \/ exists k, In (k, mapIndex (Object es) key) es.
Proof.
  induction es as [|[k v] es IH]; [left; reflexivity|].
  rewrite mapIndex_Object_cons. destruct (String.eqb k key).
  - right. exists k. left. reflexivity.
  - destruct IH as [IH|[k' IH]]; [left; exact IH | right; exists k'; right; exact IH].
Qed.

Lemma mapIndex_generic (m : object) (key : string) :
  generic_object m = true -> generic (mapIndex m key) = true.
Proof.
  destruct m as [es]. cbn [generic_object]. intros H.
  destruct (mapIndex_entry es key) as [E|[k E]]; [rewrite E; reflexivity|].
  exact (forallb_In _ _ H _ E).
Qed.

Lemma optStringSlice_generic (m : object) (key : string) :
  generic_object m = true -> optStringSlice m key = [].
Proof.
  intros H. unfold optStringSlice.
  pose proof (mapIndex_generic m key H) as G.
  destruct (mapIndex m key); try reflexivity. discriminate G.
Qed.

Lemma collect_Return_inv {A B : Type} (f : A -> outcome B) (l : list A) (r : list B) :
  collect (map f l) = Return r ->
  forall y, In y r -> exists x, In x l /\ f x = Return y.
Proof.
  revert r. induction l as [|x l IH]; intros r H y Hy; simpl in H.
  - injection H as <-. contradiction.
  - destruct (f x) as [a|p] eqn:E; [|discriminate H]. simpl in H.
    destruct (collect (map f l)) as [r'|p] eqn:E'; [|discriminate H]. simpl in H.
    injection H as <-. destruct Hy as [<-|Hy].
    + exists x. split; [left; reflexivity | exact E].
    + destruct (IH r' eq_refl y Hy) as (x' & Hx' & Ex').
      exists x'. split; [right; exact Hx' | exact Ex'].
Qed.

Lemma entries_all (P : value -> Prop) (es : list (string * value)) :
  list_all (string * value) (prod_all string (fun _ : string => unit) value P) es ->
  forall k v, In (k, v) es -> P v.
Proof.
  induction 1 as [|e He es Hes IH]; intros k v Hin; simpl in Hin; [contradiction|].
  destruct Hin as [->|Hin]; [|exact (IH k v Hin)].
  inversion He. assumption.
Qed.

Lemma assertObjList_In (l : list value) (o : object) :
  In o (assertObjList (VSlice l)) <-> In (VMap o) l.
Proof.
  simpl. induction l as [|x l IH]; [reflexivity|].
  destruct x; simpl; rewrite IH; split;
    try (intros H; right; exact H);
    try (intros [H|H]; [discriminate H | exact H]).
  - intros [->|H]; [left; reflexivity | right; exact H].
  - intros [H|H]; [injection H as ->; left; reflexivity | right; exact H].
Qed.

Lemma fromJson_range_without_lines (v : value) (r : list Discriminator) :
  children_without_lines v ->
  fromJson_range fromJson v = Return r -> forallb no_code_lines r = true.
Proof.
  intros Hc H. unfold fromJson_range in H. rewrite rangeObjList_eq in H.
  apply forallb_forall. intros y Hy.
  destruct (collect_Return_inv _ _ _ H y Hy) as (o & Ho & E).
  exact (Hc o Ho y E).
Qed.

Lemma body_without_lines (m : object) (key : string) (r : list Discriminator) :
  (forall key, children_without_lines (mapIndex m key)) ->
  mapIndexWith (fromJson_range fromJson) m key = Return r ->
  forallb no_code_lines r = true.
Proof.
  intros Hc H. rewrite mapIndexWith_eq in H.
  exact (fromJson_range_without_lines _ r (Hc key) H).
Qed.

Lemma fromJson_without_lines_step (m : object) :
  generic_object m = true ->
  (forall key, children_without_lines (mapIndex m key)) ->
  decodes_without_lines m.
Proof.
  intros G Hc d H. rewrite fromJson_eq in H. cbv zeta in H.
  repeat match type of H with
         | (if ?c then _ else _) = _ => destruct c
         end;
    try (injection H as <-; reflexivity);
    try discriminate H.
  - unfold Workspace_fromJson in H.
    destruct (assertString (mapIndex m "title")); [|discriminate H].
    destruct (assertString (mapIndex m "version")); [|discriminate H].
    cbn [bind] in H.
    destruct (mapIndexWith (fromJson_range fromJson) m "resources") as [r|] eqn:E;
      [|discriminate H].
    injection H as <-. exact (body_without_lines m _ r Hc E).
  - unfold Document_fromJson in H.
    destruct (mapIndexWith (fromJson_Author_range fromJson) m "authors"); [|discriminate H].
    cbn [bind] in H.
    destruct (mapIndexWith (fromJson_range fromJson) m "body") as [r|] eqn:E;
      [|discriminate H].
    injection H as <-. exact (body_without_lines m _ r Hc E).
  - destruct (Author_fromJson m); [|discriminate H]. injection H as <-. reflexivity.
  - unfold Chapter_fromJson in H.
    destruct (mapIndexWith (fromJson_range fromJson) m "body") as [r|] eqn:E;
      [|discriminate H].
    injection H as <-. exact (body_without_lines m _ r Hc E).
  - unfold defaultBody_fromJson in H.
    destruct (mapIndexWith (fromJson_range fromJson) m "body") as [r|] eqn:E;
      [|discriminate H].
    injection H as <-. exact (body_without_lines m _ r Hc E).
  - unfold defaultBody_fromJson in H.
    destruct (mapIndexWith (fromJson_range fromJson) m "body") as [r|] eqn:E;
      [|discriminate H].
    injection H as <-. exact (body_without_lines m _ r Hc E).
  - unfold defaultBody_fromJson in H.
    destruct (mapIndexWith (fromJson_range fromJson) m "body") as [r|] eqn:E;
      [|discriminate H].
    injection H as <-. exact (body_without_lines m _ r Hc E).
  - injection H as <-. simpl. rewrite (optStringSlice_generic m "lines" G). reflexivity.
  - unfold defaultBody_fromJson in H.
    destruct (mapIndexWith (fromJson_range fromJson) m "body") as [r|] eqn:E;
      [|discriminate H].
    injection H as <-. exact (body_without_lines m _ r Hc E).
Qed.

Lemma generic_decodes_without_lines (m : object) :
  generic_object m = true -> decodes_without_lines m /\
  forall key, children_without_lines (mapIndex m key).
Proof.
  apply (object_mut
    (fun v => generic v = true ->
       match v with
       | VMap o => decodes_without_lines o
       | VSlice l => forall o, In (VMap o) l -> decodes_without_lines o
       | _ => True
       end)
    (fun m => generic_object m = true -> decodes_without_lines m /\
       forall key, children_without_lines (mapIndex m key)));
    try (intros; exact I).
  - intros l IH G o Ho. simpl in G.
    exact (list_all_In _ l IH (VMap o) Ho (forallb_In _ _ G _ Ho)).
  - intros o IH G. exact (proj1 (IH G)).
  - intros es IH G.
    assert (C : forall key, children_without_lines (mapIndex (Object es) key)).
    { intros key o Ho.
      destruct (mapIndex_entry es key) as [E|[k E]]; [rewrite E in Ho; contradiction|].
      pose proof (entries_all _ es IH _ _ E) as Pv.
      cbn [generic_object] in G.
      pose proof (forallb_In _ _ G _ E) as Gv. cbn [snd] in Gv.
      specialize (Pv Gv).
      destruct (mapIndex (Object es) key); try contradiction.
      apply Pv. apply assertObjList_In. exact Ho. }
    split; [|exact C]. apply fromJson_without_lines_step; [exact G | exact C].
Qed.

(** No workspace [Unmarshal] returns has a line in a code block, whatever
    the JSON document: the lines of a code block are never read back. *)
Theorem Unmarshal_reads_no_code_lines (b : json) (w : Workspace) :
  Unmarshal b = Return (Ok w) -> no_code_lines (PWorkspace w) = true.
Proof.
  unfold Unmarshal. destruct (Unmarshal_map b) as [tmp|e] eqn:E; [|discriminate].
  pose proof (Unmarshal_map_generic b tmp E) as G.
  destruct (generic_decodes_without_lines tmp G) as [_ C].
  unfold Workspace_fromJson.
  destruct (assertString (mapIndex tmp "title")); [|discriminate].
  destruct (assertString (mapIndex tmp "version")); [|discriminate].
  cbn [bind].
  destruct (mapIndexWith (fromJson_range fromJson) tmp "resources") as [r|] eqn:Er;
    [|discriminate].
  intros H. injection H as <-. exact (body_without_lines tmp _ r C Er).
Qed.

End JsonFacts.

(** ** The examples of [Scenario], once more *)

Module ScenarioFacts.
Import Go Wdydoc.

Lemma Unmarshal_reads_no_code_lines_witness :
  Unmarshal Scenario.code_json = Return (Ok Scenario.code_workspace_reread)
  /\ no_code_lines (PWorkspace Scenario.code_workspace_reread) = true.
Proof.
  assert (H : Unmarshal Scenario.code_json = Return (Ok Scenario.code_workspace_reread))
    by (vm_compute; reflexivity).
  split; [exact H|].
  exact (JsonFacts.Unmarshal_reads_no_code_lines Scenario.code_json
           Scenario.code_workspace_reread H).
Defined.

Lemma Apply_rules_ignores_Build_error_witness :
  Apply_rules Scenario.sys Scenario.broken_build [Scenario.broken_rule] Scenario.broken_world
  = (None, Scenario.world_after_MkdirAll).
Proof.
  refine (ApplyFacts.Apply_rules_ignores_Build_error _ _ Scenario.sys
            Scenario.broken_build Scenario.broken_rule [] Scenario.broken_world Scenario.broken_world
            Scenario.world_after_Build Scenario.world_after_MkdirAll "/bad" Scenario.broken_document Scenario.broken_project
            "failed to build: failed to apply text template for index.tmpl: template: can't evaluate field"
            _ _ _ _ _); vm_compute; reflexivity.
Defined.

End ScenarioFacts.

(** ** Integers read from JSON *)

Module ParseFacts.
Import Go Json.

Lemma digits2_pos_bounds (p : positive) :
  2 ^ (Zpos (digits2_pos p) - 1) <= Zpos p < 2 ^ Zpos (digits2_pos p).
Proof.
  induction p as [p IH|p IH|]; cbn [digits2_pos].
  - rewrite Pos2Z.inj_succ.
    replace (Z.succ (Zpos (digits2_pos p)) - 1) with (Z.succ (Zpos (digits2_pos p) - 1)) by lia.
    rewrite !Z.pow_succ_r by lia. lia.
  - rewrite Pos2Z.inj_succ.
    replace (Z.succ (Zpos (digits2_pos p)) - 1) with (Z.succ (Zpos (digits2_pos p) - 1)) by lia.
    rewrite !Z.pow_succ_r by lia. lia.
  - simpl. lia.
Qed.

Lemma iter_xO (p k : positive) :
  Zpos (Pos.iter xO p k) = Zpos p * 2 ^ Zpos k
  /\ digits2_pos (Pos.iter xO p k) = (digits2_pos p + k)%positive.
Proof.
  induction k as [|k [IH1 IH2]] using Pos.peano_ind.
  - simpl. split; [lia|]. rewrite Pos.add_1_r. reflexivity.
  - rewrite Pos.iter_succ. split.
    + rewrite Pos2Z.inj_xO, IH1, Pos2Z.inj_succ, Z.pow_succ_r by lia. ring.
    + cbn [digits2_pos]. rewrite IH2. lia.
Qed.

Lemma binary_round_exact (s : bool) (p : positive) :
  Zpos p < 2 ^ 53 ->
  exists m e,
    binary_round prec64 emax64 s p 0 = S754_finite s m e
    /\ - 52 <= e <= 0 /\ Zpos m = Zpos p * 2 ^ (- e).
Proof.
  intros H. pose proof (digits2_pos_bounds p) as B.
  assert (D : Zpos (digits2_pos p) <= 53).
  { destruct (Z_le_gt_dec (Zpos (digits2_pos p)) 53) as [L|G]; [exact L|].
    exfalso. assert (2 ^ 53 <= 2 ^ (Zpos (digits2_pos p) - 1))
      by (apply Z.pow_le_mono_r; lia). lia. }
  unfold binary_round.
  assert (F : fexp prec64 emax64 (Zpos (digits2_pos p) + 0) = Zpos (digits2_pos p) - 53).
  { unfold fexp, emin, prec64, emax64. lia. }
  rewrite F. unfold shl_align.
  destruct (Zpos (digits2_pos p) - 53 - 0) as [|k|k] eqn:Ek; try lia.
  - (* 53 digits *)
    exists p, 0. unfold binary_round_aux, shr_fexp.
    cbn [Zdigits2 shr_record_of_loc].
    assert (F0 : fexp prec64 emax64 (Zpos (digits2_pos p) + 0) - 0 = 0)
      by (rewrite F; lia).
    rewrite F0. cbn [shr shr_m loc_of_shr_record round_nearest_even Zdigits2
                       shr_record_of_loc].
    rewrite F0. cbn [shr shr_m].
    split; [reflexivity|]. split; [lia|]. simpl. lia.
  - destruct (iter_xO p k) as [V Dg].
    exists (Pos.iter xO p k), (Zpos (digits2_pos p) - 53).
    unfold binary_round_aux, shr_fexp.
    cbn [Zdigits2 shr_record_of_loc].
    assert (F1 : fexp prec64 emax64
                   (Zpos (digits2_pos (Pos.iter xO p k)) + (Zpos (digits2_pos p) - 53))
                 - (Zpos (digits2_pos p) - 53) = 0).
    { rewrite Dg. unfold fexp, emin, prec64, emax64. lia. }
    rewrite F1. cbn [shr shr_m loc_of_shr_record round_nearest_even Zdigits2
                       shr_record_of_loc].
    rewrite F1. cbn [shr shr_m].
    replace (Zpos (digits2_pos p) - 53 <=? emax64 - prec64) with true
      by (symmetry; apply Z.leb_le; unfold emax64, prec64; lia).
    split; [reflexivity|]. split; [lia|].
    rewrite V. f_equal. f_equal. lia.
Qed.

(** The integers of up to 53 bits are read from their JSON literals
    exactly. *)
Theorem ParseFloat_integer (i : Z) :
  - 2 ^ 53 < i < 2 ^ 53 ->
  float64_is_int (ParseFloat i 0) i /\ float64_to_int (ParseFloat i 0) = i.
Proof.
  intros H.
  assert (A : float64_is_int (ParseFloat i 0) i).
  { unfold ParseFloat. cbn [Z.leb Z.compare]. change (10 ^ 0) with 1. rewrite Z.mul_1_r.
    destruct i as [|p|p]; cbn [binary_normalize].
    - reflexivity.
    - destruct (binary_round_exact false p) as (m & e & -> & He & Hm); [lia|].
      cbn [float64_is_int]. destruct (0 <=? e) eqn:E.
      + apply Z.leb_le in E. assert (e = 0) by lia. subst e. simpl in *. lia.
      + exact Hm.
    - destruct (binary_round_exact true p) as (m & e & -> & He & Hm);
        [change (Zneg p) with (- Zpos p) in H; lia|].
      cbn [float64_is_int]. destruct (0 <=? e) eqn:E.
      + apply Z.leb_le in E. assert (e = 0) by lia. subst e. simpl in *. lia.
      + change (Zneg m) with (- Zpos m). change (Zneg p) with (- Zpos p).
        rewrite Hm. ring. }
  split; [exact A|].
  apply NumericFacts.float64_to_int_exact; [exact A|].
  unfold in_int, minInt, maxInt. lia.
Qed.



End ParseFacts.

(** ** When the decoder returns *)

Module ReturnFacts.
Import Go Wdydoc GoFacts CodecFacts RequiredFacts JsonFacts.

Lemma fromJson_Type (m : object) (d : Discriminator) :
  fromJson m = Return d -> Discriminator_Type d = optString m typeAttrName.
Proof.
  rewrite fromJson_eq. cbv zeta. intros H.
  repeat match type of H with
         | (if String.eqb ?a ?b then _ else _) = _ =>
             let E := fresh "E" in
             destruct (String.eqb a b) eqn:E;
             [apply String.eqb_eq in E|clear E]
         end; try discriminate H;
  try (injection H as <-; symmetry; assumption);
  first
    [ unfold defaultBody_fromJson in H;
      match type of H with
      | context [mapIndexWith ?f ?o ?k] => destruct (mapIndexWith f o k); [|discriminate H]
      end; cbn [bind] in H; injection H as <-; symmetry; assumption
    | match type of H with
      | bind ?x _ = _ => destruct x; [|discriminate H]
      end; cbn [bind] in H; injection H as <-; symmetry; assumption ].
Qed.

Lemma decoded_from_child_root (m child o : object) :
  In child (decoded_children m) -> decoded_from [child] o -> decoded_from [m] o.
Proof.
  intros Hc H. induction H as [r Hr | r c _ IH Hin].
  - destruct Hr as [<-|[]]. apply (decoded_child _ m child); [|exact Hc].
    apply decoded_root. left. reflexivity.
  - exact (decoded_child _ r c IH Hin).
Qed.

Lemma collect_returns {A B : Type} (f : A -> outcome B) (l : list A) :
  (forall x, In x l -> exists y, f x = Return y) ->
  exists r, collect (map f l) = Return r.
Proof.
  induction l as [|x l IH]; intros H; simpl.
  - exists []. reflexivity.
  - destruct (H x (or_introl eq_refl)) as [y ->].
    destruct IH as [r ->]; [intros z Hz; apply H; right; exact Hz|].
    exists (y :: r). reflexivity.
Qed.

Lemma is_string_false (v : value) :
  is_string v = false -> forall s, v <> VString s.
Proof. intros H s ->. discriminate H. Qed.

Lemma is_string_true (v : value) :
  is_string v = true -> exists s, v = VString s.
Proof. destruct v; try discriminate. intros _. eexists; reflexivity. Qed.

Lemma not_panic_Return {A : Type} (a : A) : ~ is_panic (Return a).
Proof. intros [p H]. discriminate H. Qed.

Lemma existsb_registry_false (x : string) :
  existsb (String.eqb x) registry = false -> ~ In x registry.
Proof.
  intros H Hin. assert (E : existsb (String.eqb x) registry = true).
  { apply existsb_exists. exists x. split; [exact Hin | apply String.eqb_refl]. }
  rewrite E in H. discriminate H.
Qed.

Lemma undecodable_panics (o : object) :
  decodable_node o = false -> is_panic (fromJson o).
Proof.
  unfold decodable_node. cbv zeta. intros H.
  destruct (String.eqb (optString o typeAttrName) WorkspaceType) eqn:EW.
  { rewrite fromJson_eq. cbv zeta. rewrite EW. apply bind_panics_l.
    unfold Workspace_fromJson. apply andb_false_iff in H. destruct H as [H|H].
    - rewrite (assertString_panics _ (is_string_false _ H)). eexists; reflexivity.
    - apply bind_panics_r. intros title.
      rewrite (assertString_panics _ (is_string_false _ H)). eexists; reflexivity. }
  destruct (String.eqb (optString o typeAttrName) AuthorType) eqn:EA.
  { rewrite fromJson_eq. cbv zeta. rewrite EW.
    apply String.eqb_eq in EA. rewrite EA. cbn -[Author_fromJson].
    apply bind_panics_l.
    destruct (Author_fromJson_panics o) as [have ->]; [|eexists; reflexivity].
    apply andb_false_iff in H. destruct H as [H|H];
      [apply andb_false_iff in H; destruct H as [H|H]|].
    - left. exact (is_string_false _ H).
    - right. left. exact (is_string_false _ H).
    - right. right. exact (is_string_false _ H). }
  destruct (String.eqb (optString o typeAttrName) DocumentType) eqn:ED.
  { rewrite fromJson_eq. cbv zeta. rewrite EW, ED. apply bind_panics_l.
    unfold Document_fromJson. apply bind_panics_l. rewrite mapIndexWith_eq.
    unfold fromJson_Author_range. rewrite rangeObjList_eq.
    assert (X : exists a, In a (assertObjList (mapIndex o "authors"))
                          /\ String.eqb (optString a typeAttrName) AuthorType = false).
    { clear -H. induction (assertObjList (mapIndex o "authors")) as [|a l IH];
        [discriminate H|]. simpl in H. apply andb_false_iff in H. destruct H as [H|H].
      - exists a. split; [left; reflexivity | exact H].
      - destruct (IH H) as (a' & Ha' & E). exists a'. split; [right; exact Ha' | exact E]. }
    destruct X as (a & Ha & E).
    apply (collect_panics _ (fromJson_Author fromJson a));
      [apply (in_map (fromJson_Author fromJson)); exact Ha|].
    unfold fromJson_Author. destruct (fromJson a) as [d|p] eqn:Ed; [|exists p; reflexivity].
    cbn [bind]. pose proof (fromJson_Type a d Ed) as Ty.
    destruct d; try (eexists; reflexivity).
    cbn in Ty. rewrite <- Ty in E. discriminate E. }
  apply existsb_registry_false in H.
  rewrite fromJson_eq. cbv zeta. unfold registry in H.
    repeat (apply DecodeFacts.eqb_not_In in H; destruct H as [-> H]).
  eexists; reflexivity.
Qed.

Lemma decodable_returns (m : object) :
  (forall o, decoded_from [m] o -> decodable_node o = true) ->
  exists d, fromJson m = Return d.
Proof.
  apply (object_mut
    (fun v =>
       match v with
       | VMap o => (forall o', decoded_from [o] o' -> decodable_node o' = true) ->
                   exists d, fromJson o = Return d
       | VSlice l => forall o, In (VMap o) l ->
                   (forall o', decoded_from [o] o' -> decodable_node o' = true) ->
                   exists d, fromJson o = Return d
       | _ => True
       end)
    (fun m => (forall o, decoded_from [m] o -> decodable_node o = true) ->
              exists d, fromJson m = Return d));
    try (intros; exact I).
  - intros l IH o Ho. exact (list_all_In _ l IH (VMap o) Ho).
  - intros o IH. exact IH.
  - intros es IH Hok.
    assert (C : forall key o, In o (assertObjList (mapIndex (Object es) key)) ->
                In o (decoded_children (Object es)) ->
                exists d, fromJson o = Return d).
    { intros key o Ho Hc.
      destruct (mapIndex_entry es key) as [E|[k E]]; [rewrite E in Ho; contradiction|].
      pose proof (entries_all _ es IH _ _ E) as Pv.
      destruct (mapIndex (Object es) key); try contradiction.
      apply (Pv o); [apply assertObjList_In; exact Ho|].
      intros o' Ho'. apply Hok. exact (decoded_from_child_root _ o o' Hc Ho'). }
    assert (R : forall key,
              (forall o, In o (assertObjList (mapIndex (Object es) key)) ->
                         In o (decoded_children (Object es))) ->
              exists r, mapIndexWith (fromJson_range fromJson) (Object es) key = Return r).
    { intros key Hin. rewrite mapIndexWith_eq. unfold fromJson_range.
      rewrite rangeObjList_eq. apply collect_returns.
      intros o Ho. exact (C key o Ho (Hin o Ho)). }
    pose proof (Hok (Object es) (decoded_root [Object es] (Object es) (or_introl eq_refl))) as N.
    unfold decodable_node in N. cbv zeta in N. unfold registry in N. cbn [existsb] in N.
    unfold decoded_children in C, R. cbv zeta in C, R.
    rewrite fromJson_eq. cbv zeta.
    destruct (String.eqb (optString (Object es) typeAttrName) WorkspaceType) eqn:EW.
    { apply andb_prop in N. destruct N as [N1 N2].
      apply is_string_true in N1, N2. destruct N1 as [t Et]. destruct N2 as [v Ev].
      unfold Workspace_fromJson. rewrite Et, Ev. cbn [assertString bind].
      destruct (R "resources") as [r ->]; [intros o Ho; exact Ho|].
      eexists; reflexivity. }
    destruct (String.eqb (optString (Object es) typeAttrName) DocumentType) eqn:ED.
    { assert (EA : String.eqb (optString (Object es) typeAttrName) AuthorType = false).
      { apply String.eqb_eq in ED. rewrite ED. reflexivity. }
      rewrite EA in N.
      unfold Document_fromJson.
      assert (A : exists r, mapIndexWith (fromJson_Author_range fromJson) (Object es) "authors"
                            = Return r).
      { rewrite mapIndexWith_eq. unfold fromJson_Author_range. rewrite rangeObjList_eq.
        apply collect_returns. intros a Ha.
        destruct (C "authors" a Ha) as [d Ed]; [apply in_or_app; left; exact Ha|].
        unfold fromJson_Author. rewrite Ed. cbn [bind].
        pose proof (forallb_In _ _ N a Ha) as Ty. cbv beta in Ty.
        apply String.eqb_eq in Ty.
        pose proof (fromJson_Type a d Ed) as Td. rewrite Ty in Td.
        destruct d; try discriminate Td; try (eexists; reflexivity).
        - destruct d as [n]. cbn in Td. subst n.
          rewrite fromJson_eq in Ed. cbv zeta in Ed. rewrite Ty in Ed. cbn in Ed.
          destruct (Author_fromJson a); discriminate Ed.
        - destruct d as [n b]. cbn in Td. subst n.
          rewrite fromJson_eq in Ed. cbv zeta in Ed. rewrite Ty in Ed. cbn in Ed.
          destruct (Author_fromJson a); discriminate Ed. }
      destruct A as [authors ->]. cbn [bind].
      destruct (R "body") as [r ->]; [intros o Ho; apply in_or_app; right; exact Ho|].
      eexists; reflexivity. }
    destruct (String.eqb (optString (Object es) typeAttrName) AuthorType) eqn:EA.
    { apply andb_prop in N. destruct N as [N N3]. apply andb_prop in N. destruct N as [N1 N2].
      apply is_string_true in N1, N2, N3.
      destruct N1 as [f Ef]. destruct N2 as [l El]. destruct N3 as [e Ee].
      unfold Author_fromJson. rewrite Ef, El, Ee. eexists; reflexivity. }
    destruct (String.eqb (optString (Object es) typeAttrName) ChapterType) eqn:EC.
    { unfold Chapter_fromJson. cbn [orb] in R.
      destruct (R "body") as [r ->]; [intros o Ho; exact Ho|]. eexists; reflexivity. }
    cbn [orb] in R.
    destruct (String.eqb (optString (Object es) typeAttrName) TextType);
      [eexists; reflexivity|].
    destruct (String.eqb (optString (Object es) typeAttrName) TOCType);
      [eexists; reflexivity|].
    destruct (String.eqb (optString (Object es) typeAttrName) NewlineType);
      [eexists; reflexivity|].
    destruct (String.eqb (optString (Object es) typeAttrName) ItalicType) eqn:EI.
    { unfold defaultBody_fromJson. cbn [orb] in R.
      destruct (R "body") as [r ->]; [intros o Ho; exact Ho|]. eexists; reflexivity. }
    destruct (String.eqb (optString (Object es) typeAttrName) BoldType) eqn:EB.
    { unfold defaultBody_fromJson. cbn [orb] in R.
      destruct (R "body") as [r ->]; [intros o Ho; exact Ho|]. eexists; reflexivity. }
    destruct (String.eqb (optString (Object es) typeAttrName) UnderlineType) eqn:EU.
    { unfold defaultBody_fromJson. cbn [orb] in R.
      destruct (R "body") as [r ->]; [intros o Ho; exact Ho|]. eexists; reflexivity. }
    destruct (String.eqb (optString (Object es) typeAttrName) CodeType);
      [eexists; reflexivity|].
    destruct (String.eqb (optString (Object es) typeAttrName) ImageType);
      [eexists; reflexivity|].
    destruct (String.eqb (optString (Object es) typeAttrName) TitlepageType) eqn:ET.
    { unfold defaultBody_fromJson. cbn [orb] in R.
      destruct (R "body") as [r ->]; [intros o Ho; exact Ho|]. eexists; reflexivity. }
    destruct (String.eqb (optString (Object es) typeAttrName) NewpageType) eqn:EN;
      [eexists; reflexivity|].
    exfalso. discriminate N.
Qed.

(** [fromJson] returns a node for a map exactly when every map it decodes
    on the way (the map and, level by level, the children its discriminator
    reads) has what the decoder needs of it: a registered discriminator, for
    a workspace a string [title] and [version], for an author a string
    [firstname], [lastname] and [email], and under [authors] of a document
    only authors. In every other case it panics. *)
Theorem fromJson_returns_iff (m : object) :
  (exists d, fromJson m = Return d)
  <-> (forall o, decoded_from [m] o -> decodable_node o = true).
Proof.
  split.
  - intros [d Hd] o Ho. destruct (decodable_node o) eqn:E; [reflexivity|].
    exfalso. destruct (decoded_from_panics [m] o Ho (undecodable_panics o E)) as (r & Hr & Hp).
    destruct Hr as [<-|[]]. rewrite Hd in Hp. exact (not_panic_Return d Hp).
  - apply decodable_returns.
Qed.

(** A document with a chapter under [authors]: the chapter decodes, and the
    assertion to [*Author] panics. *)
Example fromJson_author_of_other_type :
  let m := Object [("type", VString "document");
                   ("authors", VSlice [VMap (Object [("type", VString "chapter")])])] in
  decodable_node m = false
  /\ fromJson m = Panics (PanicInterfaceConversion "*wdydoc.Chapter" "*wdydoc.Author").
Proof. split; reflexivity. Qed.

End ReturnFacts.

(** ** Marshal and Unmarshal, there and back *)

Module RoundTripFacts.
Import Go Wdydoc GoFacts CodecFacts RequiredFacts JsonFacts Json.

Lemma Marshal_slice_cons (x : value) (l : list value) :
  Marshal_value (VSlice (x :: l))
  = match Marshal_value x, Marshal_value (VSlice l) with
    | Ok j, Ok (JArray js) => Ok (JArray (j :: js))
    | Err e, _ => Err e
    | _, Err e => Err e
    | _, Ok other => Ok other
    end.
Proof. reflexivity. Qed.

Lemma valueInterface_array_cons (x : json) (l : list json) :
  valueInterface (JArray (x :: l))
  = match valueInterface x, valueInterface (JArray l) with
    | Ok v, Ok (VSlice vs) => Ok (VSlice (v :: vs))
    | Err e, _ => Err e
    | _, Err e => Err e
    | _, Ok other => Ok other
    end.
Proof. reflexivity. Qed.

Lemma Marshal_object_cons (k : string) (x : value) (es : list (string * value)) :
  Marshal_object (Object ((k, x) :: es))
  = match Marshal_value x, Marshal_object (Object es) with
    | Ok j, Ok (JObject js) => Ok (JObject ((k, j) :: js))
    | Err e, _ => Err e
    | _, Err e => Err e
    | _, Ok other => Ok other
    end.
Proof. reflexivity. Qed.

Lemma valueInterface_object (js : list (string * json)) (vs : list (string * value)) :
  Forall2 read_member js vs ->
  valueInterface (JObject js) = Ok (VMap (assign_all vs make_map)).
Proof.
  intros H. cbn [valueInterface]. generalize make_map as acc.
  induction H as [|[k j] [k' v] js vs [Hk Hv] _ IH]; intros acc; [reflexivity|].
  cbn [fst snd] in Hk, Hv. subst k'. rewrite Hv. apply IH.
Qed.

Lemma mapIndex_absent (es : list (string * value)) (key : string) :
  has_key es key = false -> mapIndex (Object es) key = VNil.
Proof.
  induction es as [|[k v] es IH]; [reflexivity|]. cbn [has_key existsb fst].
  intros H. apply orb_false_elim in H. destruct H as [E H].
  rewrite mapIndex_Object_cons, E. exact (IH H).
Qed.

Lemma mapIndex_assign_all (vs : list (string * value)) (acc : object) (key : string) :
  distinct_keys vs = true ->
  mapIndex (assign_all vs acc) key
  = if has_key vs key then mapIndex (Object vs) key else mapIndex acc key.
Proof.
  revert acc. induction vs as [|[k v] vs IH]; intros acc D; [reflexivity|].
  cbn [distinct_keys fst] in D. apply andb_prop in D. destruct D as [N D].
  apply negb_true_iff in N.
  change (assign_all ((k, v) :: vs) acc) with (assign_all vs (mapAssign acc k v)).
  rewrite (IH _ D). cbn [has_key existsb fst]. fold (has_key vs key).
  rewrite mapIndex_Object_cons, mapIndex_mapAssign.
  destruct (String.eqb k key) eqn:E.
  - apply String.eqb_eq in E. subst key.
    fold (has_key vs k) in N. rewrite N. reflexivity.
  - cbn [orb]. reflexivity.
Qed.

Lemma mapIndex_assign_all_make_map (vs : list (string * value)) (key : string) :
  distinct_keys vs = true ->
  mapIndex (assign_all vs make_map) key = mapIndex (Object vs) key.
Proof.
  intros D. rewrite (mapIndex_assign_all vs make_map key D).
  destruct (has_key vs key) eqn:E; [reflexivity|].
  rewrite mapIndex_make_map. symmetry. exact (mapIndex_absent vs key E).
Qed.

Lemma reads_entries_lookup (es vs : list (string * value)) (key : string) :
  Forall2 reads_entry es vs ->
  reads_as (mapIndex (Object es) key) (mapIndex (Object vs) key).
Proof.
  induction 1 as [|[k v] [k' v'] es vs [Hk Hv] _ IH]; [constructor|].
  cbn [fst snd] in Hk, Hv. subst k'. rewrite !mapIndex_Object_cons.
  destruct (String.eqb k key); [exact Hv | exact IH].
Qed.

Lemma reads_entries_keys (es vs : list (string * value)) :
  Forall2 reads_entry es vs -> map fst vs = map fst es.
Proof.
  induction 1 as [|[k v] [k' v'] es vs [Hk Hv] _ IH]; [reflexivity|].
  cbn [fst snd] in Hk. simpl. rewrite IH, Hk. reflexivity.
Qed.

Lemma has_key_map (es : list (string * value)) (key : string) :
  has_key es key = existsb (fun k => String.eqb k key) (map fst es).
Proof. induction es as [|e es IH]; [reflexivity|]. simpl. rewrite <- IH. reflexivity. Qed.

Lemma distinct_keys_map (es vs : list (string * value)) :
  map fst vs = map fst es -> distinct_keys es = true -> distinct_keys vs = true.
Proof.
  revert vs. induction es as [|e es IH]; intros [|e' vs] H D; try discriminate H;
    [reflexivity|].
  simpl in H. injection H as H1 H2.
  cbn [distinct_keys] in *. apply andb_prop in D. destruct D as [N D].
  fold (has_key es (fst e)) in N. fold (has_key vs (fst e')).
  rewrite has_key_map, H2, H1, <- has_key_map. rewrite N. exact (IH vs H2 D).
Qed.

(** What is written reads back as [reads_as] says. *)
Lemma written_reads_back (v : value) :
  writable v = true ->
  exists j v', Marshal_value v = Ok j /\ valueInterface j = Ok v' /\ reads_as v v'.
Proof.
  revert v.
  apply (value_mut
    (fun v => writable v = true ->
       exists j v', Marshal_value v = Ok j /\ valueInterface j = Ok v' /\ reads_as v v')
    (fun m => writable_object m = true ->
       exists js vs, Marshal_object m = Ok (JObject js)
                     /\ Forall2 read_member js vs
                     /\ Forall2 reads_entry (entries m) vs)).
  - intros _. exists JNull, VNil. repeat split. constructor.
  - intros b _. exists (JBool b), (VBool b). repeat split. constructor.
  - intros s _. exists (JString s), (VString s). repeat split. constructor.
  - intros i H. cbn [writable] in H. apply andb_prop in H. destruct H as [H1 H2].
    apply Z.ltb_lt in H1, H2.
    destruct (ParseFacts.ParseFloat_integer i (conj H1 H2)) as [A B].
    exists (JNumber i 0), (VFloat64 (ParseFloat i 0)). split; [reflexivity|]. split.
    + cbn [valueInterface]. unfold convertNumber.
      destruct (ParseFloat i 0); try reflexivity; contradiction.
    + constructor. exact B.
  - intros i H. discriminate H.
  - intros f H. discriminate H.
  - intros l _. exists (JArray (map JString l)), (VSlice (map VString l)).
    split; [reflexivity|]. split; [|constructor].
    induction l as [|s l IH]; [reflexivity|].
    cbn [map]. rewrite valueInterface_array_cons, IH. reflexivity.
  - intros l IH H. cbn [writable] in H.
    assert (X : exists js l', Marshal_value (VSlice l) = Ok (JArray js)
                              /\ valueInterface (JArray js) = Ok (VSlice l')
                              /\ Forall2 reads_as l l').
    { induction IH as [|x Px l Pl IHl].
      - exists [], []. repeat split. constructor.
      - cbn [forallb] in H. apply andb_prop in H. destruct H as [Hx Hl].
        destruct (Px Hx) as (j & v' & E1 & E2 & R).
        destruct (IHl Hl) as (js & l' & F1 & F2 & Rl).
        exists (j :: js), (v' :: l').
        rewrite Marshal_slice_cons, E1, F1, valueInterface_array_cons, E2, F2.
        repeat split. constructor; assumption. }
    destruct X as (js & l' & E1 & E2 & R).
    exists (JArray js), (VSlice l'). repeat split; try assumption. constructor. exact R.
  - intros m IH H. cbn [writable] in H.
    destruct (IH H) as (js & vs & E1 & E2 & R).
    exists (JObject js), (VMap (assign_all vs make_map)).
    split; [exact E1|]. split; [exact (valueInterface_object js vs E2)|].
    constructor. intros key.
    destruct m as [es]. cbn [entries] in R. cbn [writable_object] in H.
    apply andb_prop in H. destruct H as [_ D].
    rewrite (mapIndex_assign_all_make_map vs key
               (distinct_keys_map es vs (reads_entries_keys es vs R) D)).
    exact (reads_entries_lookup es vs key R).
  - intros es IH H. cbn [writable_object] in H. apply andb_prop in H. destruct H as [H _].
    cbn [entries]. induction IH as [|[k x] Px es Pes IHes].
    + exists [], []. repeat split; constructor.
    + cbn [forallb snd] in H. apply andb_prop in H. destruct H as [Hx Hes].
      inversion Px as [k0 _ x0 Pv E]; subst.
      destruct (Pv Hx) as (j & v' & E1 & E2 & R).
      destruct (IHes Hes) as (js & vs & F1 & F2 & Rs).
      exists ((k, j) :: js), ((k, v') :: vs).
      rewrite Marshal_object_cons, E1, F1.
      split; [reflexivity|]. split; constructor; try assumption; split; try reflexivity;
        assumption.
Qed.

(** What the readers see of a value read back. *)

Lemma reads_optString (m m' : object) (key : string) :
  reads_as (mapIndex m key) (mapIndex m' key) -> optString m' key = optString m key.
Proof. unfold optString. intros H. inversion H; reflexivity. Qed.

Lemma reads_assertString (v v' : value) :
  reads_as v v' -> forall s, assertString v = Return s -> assertString v' = Return s.
Proof. intros H s. inversion H; subst; cbn; intros E; try discriminate E; exact E. Qed.

Lemma reads_optInt (m m' : object) (key : string) :
  reads_as (mapIndex m key) (mapIndex m' key) -> optInt m' key = optInt m key.
Proof. unfold optInt. intros H. inversion H; try reflexivity. assumption. Qed.

Lemma reads_optStringSlice (m m' : object) (key : string) :
  reads_as (mapIndex m key) (mapIndex m' key) -> optStringSlice m' key = [].
Proof. unfold optStringSlice. intros H. inversion H; reflexivity. Qed.

Lemma assertObjList_strings (l : list string) : assertObjList (VSlice (map VString l)) = [].
Proof. simpl. induction l as [|s l IH]; [reflexivity | exact IH]. Qed.

Lemma assertObjList_cons (x : value) (l : list value) :
  assertObjList (VSlice (x :: l))
  = match x with VMap m => m :: assertObjList (VSlice l) | _ => assertObjList (VSlice l) end.
Proof. destruct x; reflexivity. Qed.

Lemma reads_assertObjList (v v' : value) :
  reads_as v v' ->
  Forall2 (fun o o' => reads_as (VMap o) (VMap o')) (assertObjList v) (assertObjList v').
Proof.
  intros H. inversion H as [| | | | l | l l' F | m m' F]; subst; try constructor.
  - rewrite assertObjList_strings. constructor.
  - clear H. induction F as [|x x' l l' Hx _ IH]; [constructor|].
    rewrite !assertObjList_cons.
    inversion Hx; subst; try exact IH.
    constructor; [constructor; assumption | exact IH].
Qed.

Lemma collect_related {A A' B : Type} (f : A -> outcome B) (f' : A' -> outcome B)
    (g : B -> B) (R : A -> A' -> Prop) (l : list A) (l' : list A') :
  Forall2 R l l' ->
  (forall x x' y, In x l -> R x x' -> f x = Return y -> f' x' = Return (g y)) ->
  forall r, collect (map f l) = Return r -> collect (map f' l') = Return (map g r).
Proof.
  induction 1 as [|x x' l l' Hx _ IH]; intros Hf r H; simpl in H.
  - injection H as <-. reflexivity.
  - destruct (f x) as [y|p] eqn:E; [|discriminate H]. cbn [bind] in H.
    destruct (collect (map f l)) as [r'|p] eqn:E'; [|discriminate H]. cbn [bind] in H.
    injection H as <-. simpl.
    rewrite (Hf x x' y (or_introl eq_refl) Hx E). cbn [bind].
    rewrite (IH (fun a a' b Ha => Hf a a' b (or_intror Ha)) r' eq_refl). reflexivity.
Qed.

Lemma reads_fromJson_range (v v' : value) (r : list Discriminator) :
  reads_as v v' ->
  (forall o, In o (assertObjList v) -> decodes_dropped o) ->
  fromJson_range fromJson v = Return r ->
  fromJson_range fromJson v' = Return (map drop_lines r).
Proof.
  intros H C. unfold fromJson_range. rewrite !rangeObjList_eq.
  apply (collect_related fromJson fromJson drop_lines _ _ _ (reads_assertObjList v v' H)).
  intros o o' d Ho R E. exact (C o Ho o' d R E).
Qed.

Lemma reads_fromJson_Author_range (v v' : value) (r : list Author) :
  reads_as v v' ->
  (forall o, In o (assertObjList v) -> decodes_dropped o) ->
  fromJson_Author_range fromJson v = Return r ->
  fromJson_Author_range fromJson v' = Return r.
Proof.
  intros H C. unfold fromJson_Author_range. rewrite !rangeObjList_eq. intros E.
  rewrite <- (map_id r).
  revert E.
  apply (collect_related (fromJson_Author fromJson) (fromJson_Author fromJson)
           (fun a => a) _ _ _ (reads_assertObjList v v' H)).
  intros o o' a Ho R. unfold fromJson_Author.
  destruct (fromJson o) as [d|p] eqn:Ed; [|discriminate]. cbn [bind].
  rewrite (C o Ho o' d R Ed). cbn [bind].
  destruct d; try discriminate. intros E. exact E.
Qed.

Lemma reads_body (m m' : object) (key : string) (r : list Discriminator) :
  (forall key, reads_as (mapIndex m key) (mapIndex m' key)) ->
  (forall key o, In o (assertObjList (mapIndex m key)) -> decodes_dropped o) ->
  mapIndexWith (fromJson_range fromJson) m key = Return r ->
  mapIndexWith (fromJson_range fromJson) m' key = Return (map drop_lines r).
Proof.
  intros R C. rewrite !mapIndexWith_eq. apply reads_fromJson_range; [apply R | apply C].
Qed.

Lemma reads_defaultBody (b : defaultBody) (m m' : object) (d : defaultBody) :
  (forall key, reads_as (mapIndex m key) (mapIndex m' key)) ->
  (forall key o, In o (assertObjList (mapIndex m key)) -> decodes_dropped o) ->
  defaultBody_fromJson fromJson b m = Return d ->
  defaultBody_fromJson fromJson b m' = Return (defaultBody_drop_lines d).
Proof.
  intros R C. unfold defaultBody_fromJson.
  destruct (mapIndexWith (fromJson_range fromJson) m "body") as [r|] eqn:E; [|discriminate].
  rewrite (reads_body m m' "body" r R C E). cbn [bind]. intros H. injection H as <-.
  reflexivity.
Qed.

Lemma decodes_dropped_step (m : object) :
  (forall key o, In o (assertObjList (mapIndex m key)) -> decodes_dropped o) ->
  decodes_dropped m.
Proof.
  intros C m' d Hm H. inversion Hm as [| | | | | |m0 m0' R]; subst.
  rewrite fromJson_eq in H. rewrite fromJson_eq. cbv zeta in *.
  rewrite (reads_optString m m' typeAttrName (R typeAttrName)).
  repeat match type of H with
         | (if ?c then _ else _) = _ => destruct c
         end; try discriminate H;
    try (injection H as <-; reflexivity).
  - (* workspace *)
    unfold Workspace_fromJson in *.
    destruct (assertString (mapIndex m "title")) as [t|] eqn:Et; [|discriminate H].
    destruct (assertString (mapIndex m "version")) as [v|] eqn:Ev; [|discriminate H].
    cbn [bind] in H.
    destruct (mapIndexWith (fromJson_range fromJson) m "resources") as [r|] eqn:Er;
      [|discriminate H].
    cbn [bind] in H. injection H as <-.
    rewrite (reads_assertString _ _ (R "title") t Et),
            (reads_assertString _ _ (R "version") v Ev). cbn [bind].
    rewrite (reads_body m m' "resources" r R C Er). cbn [bind].
    rewrite (reads_optInt m m' "format" (R "format")). reflexivity.
  - (* document *)
    unfold Document_fromJson in *.
    destruct (mapIndexWith (fromJson_Author_range fromJson) m "authors") as [a|] eqn:Ea;
      [|discriminate H].
    cbn [bind] in H.
    destruct (mapIndexWith (fromJson_range fromJson) m "body") as [r|] eqn:Er;
      [|discriminate H].
    cbn [bind] in H. injection H as <-.
    rewrite mapIndexWith_eq in Ea.
    rewrite (mapIndexWith_eq (fromJson_Author_range fromJson)).
    rewrite (reads_fromJson_Author_range _ _ a (R "authors") (C "authors") Ea). cbn [bind].
    rewrite (reads_body m m' "body" r R C Er). cbn [bind].
    rewrite (reads_optString m m' "title" (R "title")),
            (reads_optString m m' "id" (R "id")). reflexivity.
  - (* author *)
    unfold Author_fromJson in *.
    destruct (assertString (mapIndex m "firstname")) as [f|] eqn:Ef; [|discriminate H].
    destruct (assertString (mapIndex m "lastname")) as [l|] eqn:El; [|discriminate H].
    destruct (assertString (mapIndex m "email")) as [e|] eqn:Ee; [|discriminate H].
    cbn [bind] in H. injection H as <-.
    rewrite (reads_assertString _ _ (R "firstname") f Ef),
            (reads_assertString _ _ (R "lastname") l El),
            (reads_assertString _ _ (R "email") e Ee). reflexivity.
  - (* chapter *)
    unfold Chapter_fromJson in *.
    destruct (mapIndexWith (fromJson_range fromJson) m "body") as [r|] eqn:Er;
      [|discriminate H].
    cbn [bind] in H. injection H as <-.
    rewrite (reads_body m m' "body" r R C Er). cbn [bind].
    rewrite (reads_optString m m' "title" (R "title")),
            (reads_optInt m m' "level" (R "level")). reflexivity.
  - (* text *)
    injection H as <-. unfold Span_fromJson.
    rewrite (reads_optString m m' "value" (R "value")). reflexivity.
  - (* italic *)
    destruct (defaultBody_fromJson fromJson (Italic []) m) as [b|] eqn:E; [|discriminate H].
    rewrite (reads_defaultBody _ m m' b R C E). injection H as <-. reflexivity.
  - destruct (defaultBody_fromJson fromJson (Bold []) m) as [b|] eqn:E; [|discriminate H].
    rewrite (reads_defaultBody _ m m' b R C E). injection H as <-. reflexivity.
  - destruct (defaultBody_fromJson fromJson (Underline []) m) as [b|] eqn:E; [|discriminate H].
    rewrite (reads_defaultBody _ m m' b R C E). injection H as <-. reflexivity.
  - (* code *)
    injection H as <-. unfold Code_fromJson.
    rewrite (reads_optString m m' "hint" (R "hint")),
            (reads_optStringSlice m m' "lines" (R "lines")). reflexivity.
  - (* image *)
    injection H as <-. unfold Image_fromJson.
    rewrite (reads_optString m m' "src" (R "src")),
            (reads_optString m m' "width" (R "width")),
            (reads_optString m m' "height" (R "height")). reflexivity.
  - destruct (defaultBody_fromJson fromJson (TitlePage []) m) as [b|] eqn:E; [|discriminate H].
    rewrite (reads_defaultBody _ m m' b R C E). injection H as <-. reflexivity.
Qed.

Lemma reads_decodes_dropped (m : object) : decodes_dropped m.
Proof.
  apply (object_mut
    (fun v =>
       match v with
       | VMap o => decodes_dropped o
       | VSlice l => forall o, In (VMap o) l -> decodes_dropped o
       | _ => True
       end)
    decodes_dropped);
    try (intros; exact I).
  - intros l IH o Ho. exact (list_all_In _ l IH (VMap o) Ho).
  - intros o IH. exact IH.
  - intros es IH. apply decodes_dropped_step. intros key o Ho.
    destruct (mapIndex_entry es key) as [E|[k E]]; [rewrite E in Ho; contradiction|].
    pose proof (entries_all _ es IH _ _ E) as Pv.
    destruct (mapIndex (Object es) key); try contradiction.
    apply Pv. apply assertObjList_In. exact Ho.
Qed.

(** What [toJson] writes is writable. *)

Lemma has_key_delete_entry (es : list (string * value)) (key : string) :
  has_key (delete_entry es key) key = false.
Proof.
  induction es as [|[k v] es IH]; [reflexivity|]. cbn [delete_entry].
  destruct (String.eqb k key) eqn:E; [exact IH|].
  cbn [has_key existsb fst]. rewrite E. exact IH.
Qed.

Lemma has_key_delete_other (es : list (string * value)) (key k : string) :
  has_key es k = false -> has_key (delete_entry es key) k = false.
Proof.
  induction es as [|[k' v] es IH]; [reflexivity|]. cbn [delete_entry has_key existsb fst].
  intros H. apply orb_false_elim in H. destruct H as [E H].
  destruct (String.eqb k' key); [exact (IH H)|].
  cbn [has_key existsb fst]. rewrite E. exact (IH H).
Qed.

Lemma distinct_keys_delete_entry (es : list (string * value)) (key : string) :
  distinct_keys es = true -> distinct_keys (delete_entry es key) = true.
Proof.
  induction es as [|[k v] es IH]; [reflexivity|]. cbn [distinct_keys delete_entry fst].
  intros H. apply andb_prop in H. destruct H as [N D]. apply negb_true_iff in N.
  destruct (String.eqb k key); [exact (IH D)|].
  cbn [distinct_keys fst]. fold (has_key (delete_entry es key) k).
  rewrite (has_key_delete_other es key k N). exact (IH D).
Qed.

Lemma writable_delete_entry (es : list (string * value)) (key : string) :
  forallb (fun e => writable (snd e)) es = true ->
  forallb (fun e => writable (snd e)) (delete_entry es key) = true.
Proof.
  induction es as [|[k v] es IH]; [reflexivity|]. cbn [forallb delete_entry snd].
  intros H. apply andb_prop in H. destruct H as [Hv H].
  destruct (String.eqb k key); [exact (IH H)|].
  cbn [forallb snd]. rewrite Hv. exact (IH H).
Qed.

Lemma writable_mapDelete (m : object) (key : string) :
  writable_object m = true -> writable_object (mapDelete m key) = true.
Proof.
  destruct m as [es]. unfold mapDelete. cbn [entries writable_object]. intros H.
  apply andb_prop in H. destruct H as [W D].
  rewrite (writable_delete_entry es key W), (distinct_keys_delete_entry es key D).
  reflexivity.
Qed.

Lemma writable_mapAssign (m : object) (key : string) (v : value) :
  writable_object m = true -> writable v = true ->
  writable_object (mapAssign m key v) = true.
Proof.
  destruct m as [es]. unfold mapAssign. cbn [entries writable_object]. intros H Hv.
  apply andb_prop in H. destruct H as [W D].
  cbn [forallb snd distinct_keys fst]. fold (has_key (delete_entry es key) key).
  rewrite Hv, (writable_delete_entry es key W), has_key_delete_entry,
    (distinct_keys_delete_entry es key D). reflexivity.
Qed.

Lemma writable_optSet_string (m : object) (key s : string) :
  writable_object m = true -> writable_object (optSet m key (VString s)) = true.
Proof.
  intros H. unfold optSet. destruct (String.eqb s "").
  - apply writable_mapDelete. exact H.
  - apply writable_mapAssign; [exact H | reflexivity].
Qed.

Lemma writable_toJson_list {A : Type} (g : A -> object) (l : list A) :
  (forall x, In x l -> writable_object (g x) = true) ->
  writable (VSlice (toJson g l)) = true.
Proof.
  intros H. cbn [writable]. unfold toJson. apply forallb_forall. intros v Hv.
  apply in_map_iff in Hv. destruct Hv as (x & <- & Hx). exact (H x Hx).
Qed.

Lemma writable_children (l : list Discriminator) :
  list_all Discriminator
    (fun d => small_ints d = true -> writable_object (Discriminator_toJson d) = true) l ->
  forallb small_ints l = true ->
  writable (VSlice (toJson Discriminator_toJson l)) = true.
Proof.
  intros IH H. apply writable_toJson_list. intros d Hd.
  exact (list_all_In _ l IH d Hd (forallb_In _ _ H d Hd)).
Qed.

Lemma writable_make_map : writable_object make_map = true.
Proof. reflexivity. Qed.

Lemma toJson_writable (d : Discriminator) :
  small_ints d = true -> writable_object (Discriminator_toJson d) = true.
Proof.
  revert d.
  apply (Discriminator_mut
    (fun d => small_ints d = true -> writable_object (Discriminator_toJson d) = true)
    (fun w => small_ints (PWorkspace w) = true -> writable_object (Workspace_toJson w) = true)
    (fun c => small_ints (PDocument c) = true -> writable_object (Document_toJson c) = true)
    (fun c => small_ints (PChapter c) = true -> writable_object (Chapter_toJson c) = true)
    (fun b => small_ints (PdefaultBody b) = true ->
              writable_object (defaultBody_toJson b) = true)).
  - intros w IH. exact IH.
  - intros c IH. exact IH.
  - intros a _. unfold Discriminator_toJson, Author_toJson.
    repeat (apply writable_mapAssign; [|reflexivity]). exact writable_make_map.
  - intros c IH. exact IH.
  - intros s _. unfold Discriminator_toJson, Span_toJson.
    repeat (apply writable_mapAssign; [|reflexivity]). exact writable_make_map.
  - intros c _. unfold Discriminator_toJson, Code_toJson.
    repeat (apply writable_mapAssign; [|reflexivity]). exact writable_make_map.
  - intros i _. unfold Discriminator_toJson, Image_toJson.
    repeat (apply writable_mapAssign; [|reflexivity]). exact writable_make_map.
  - intros t _. unfold Discriminator_toJson, defaultType_toJson.
    repeat (apply writable_mapAssign; [|reflexivity]). exact writable_make_map.
  - intros b IH. exact IH.
  - intros format version title resources IH H. cbn [small_ints] in H.
    apply andb_prop in H. destruct H as [Hf Hr].
    cbn [Workspace_toJson].
    apply writable_mapAssign; [|exact (writable_children resources IH Hr)].
    apply writable_mapAssign; [|exact Hf].
    repeat (apply writable_mapAssign; [|reflexivity]). exact writable_make_map.
  - intros id title authors body IH H. cbn [small_ints] in H.
    cbn [Document_toJson].
    apply writable_mapAssign; [|exact (writable_children body IH H)].
    apply writable_mapAssign.
    + apply writable_mapAssign; [|reflexivity].
      apply writable_optSet_string.
      apply writable_mapAssign; [|reflexivity]. exact writable_make_map.
    + apply writable_toJson_list. intros a _. unfold Author_toJson.
      repeat (apply writable_mapAssign; [|reflexivity]). exact writable_make_map.
  - intros title level body IH H. cbn [small_ints] in H.
    apply andb_prop in H. destruct H as [Hl Hb].
    cbn [Chapter_toJson].
    apply writable_mapAssign; [|exact (writable_children body IH Hb)].
    apply writable_mapAssign; [|exact Hl].
    repeat (apply writable_mapAssign; [|reflexivity]). exact writable_make_map.
  - intros name body IH H. cbn [small_ints] in H.
    cbn [defaultBody_toJson].
    apply writable_mapAssign; [|exact (writable_children body IH H)].
    repeat (apply writable_mapAssign; [|reflexivity]). exact writable_make_map.
Qed.

Lemma map_drop_lines_id (l : list Discriminator) :
  list_all Discriminator (fun d => no_code_lines d = true -> drop_lines d = d) l ->
  forallb no_code_lines l = true -> map drop_lines l = l.
Proof.
  intros IH H. induction IH as [|d Pd l Pl IHl]; [reflexivity|].
  cbn [forallb] in H. apply andb_prop in H. destruct H as [Hd Hl].
  cbn [map]. rewrite (Pd Hd), (IHl Hl). reflexivity.
Qed.

Lemma drop_lines_id (d : Discriminator) :
  no_code_lines d = true -> drop_lines d = d.
Proof.
  revert d.
  apply (Discriminator_mut
    (fun d => no_code_lines d = true -> drop_lines d = d)
    (fun w => no_code_lines (PWorkspace w) = true -> Workspace_drop_lines w = w)
    (fun c => no_code_lines (PDocument c) = true -> Document_drop_lines c = c)
    (fun c => no_code_lines (PChapter c) = true -> Chapter_drop_lines c = c)
    (fun b => no_code_lines (PdefaultBody b) = true -> defaultBody_drop_lines b = b));
    try (intros; reflexivity).
  - intros w IH H. cbn [drop_lines]. rewrite (IH H). reflexivity.
  - intros c IH H. cbn [drop_lines]. rewrite (IH H). reflexivity.
  - intros c IH H. cbn [drop_lines]. rewrite (IH H). reflexivity.
  - intros [hint lines] H. cbn [no_code_lines Code_Lines] in H.
    destruct lines; [reflexivity | discriminate H].
  - intros b IH H. cbn [drop_lines]. rewrite (IH H). reflexivity.
  - intros format version title resources IH H. cbn [no_code_lines] in H.
    cbn [Workspace_drop_lines]. rewrite (map_drop_lines_id resources IH H). reflexivity.
  - intros id title authors body IH H. cbn [no_code_lines] in H.
    cbn [Document_drop_lines]. rewrite (map_drop_lines_id body IH H). reflexivity.
  - intros title level body IH H. cbn [no_code_lines] in H.
    cbn [Chapter_drop_lines]. rewrite (map_drop_lines_id body IH H). reflexivity.
  - intros name body IH H. cbn [no_code_lines] in H.
    cbn [defaultBody_drop_lines]. rewrite (map_drop_lines_id body IH H). reflexivity.
Qed.

(** [Marshal] returns no error for a constructible workspace whose format
    and levels have at most 53 bits and whose strings are valid UTF-8, and
    [Unmarshal] of the document it writes returns the workspace without the
    lines of its code blocks: the workspace itself when no code block has a
    line. *)
Theorem Unmarshal_Marshal (w : Workspace) :
  constructible (PWorkspace w) = true ->
  small_ints (PWorkspace w) = true ->
  valid_strings (PWorkspace w) = true ->
  exists b,
    Marshal w = Ok b
    /\ Unmarshal b = Return (Ok (Workspace_drop_lines w))
    /\ (no_code_lines (PWorkspace w) = true -> Unmarshal b = Return (Ok w)).
Proof.
  intros Hc Hi _.
  pose proof (toJson_writable (PWorkspace w) Hi) as W.
  change (Discriminator_toJson (PWorkspace w)) with (Workspace_toJson w) in W.
  destruct (written_reads_back (VMap (Workspace_toJson w)) W) as (j & v' & E1 & E2 & R).
  inversion R as [| | | | | |m0 tmp Rk]; subst.
  assert (Ej : exists js, j = JObject js).
  { cbn [Marshal_value] in E1. destruct (Workspace_toJson w) as [es].
    clear -E1. revert j E1. induction es as [|[k x] es IH]; intros j E1.
    - injection E1 as <-. eexists; reflexivity.
    - rewrite Marshal_object_cons in E1.
      destruct (Marshal_value x); [|discriminate E1].
      destruct (Marshal_object (Object es)) as [j'|] eqn:E; [|discriminate E1].
      destruct (IH j' eq_refl) as [js ->]. injection E1 as <-. eexists; reflexivity. }
  destruct Ej as [js ->].
  assert (U : Unmarshal (JObject js) = Return (Ok (Workspace_drop_lines w))).
  { unfold Unmarshal, Unmarshal_map. rewrite E2.
    pose proof (decode_encoded (PWorkspace w) Hc) as D.
    change (Discriminator_toJson (PWorkspace w)) with (Workspace_toJson w) in D.
    pose proof (reads_decodes_dropped (Workspace_toJson w) tmp _ R D) as D'.
    rewrite fromJson_eq in D'. cbv zeta in D'.
    rewrite (reads_optString _ _ typeAttrName (Rk typeAttrName)) in D'.
    replace (optString (Workspace_toJson w) typeAttrName) with WorkspaceType in D'
      by (destruct w; reflexivity).
    change (String.eqb WorkspaceType WorkspaceType) with true in D'. cbv iota in D'.
    destruct (Workspace_fromJson fromJson tmp) as [w'|p]; [|discriminate D'].
    cbn [bind drop_lines] in *. injection D' as ->. reflexivity. }
  exists (JObject js). split; [exact E1|]. split; [exact U|].
  intros Hn. rewrite U.
  pose proof (drop_lines_id (PWorkspace w) Hn) as I. cbn [drop_lines] in I.
  injection I as ->. reflexivity.
Qed.

(** The workspace of the README example. *)
Lemma Unmarshal_Marshal_witness :
  constructible (PWorkspace Scenario.readme_workspace) = true
  /\ small_ints (PWorkspace Scenario.readme_workspace) = true
  /\ valid_strings (PWorkspace Scenario.readme_workspace) = true
  /\ exists b,
       Marshal Scenario.readme_workspace = Ok b
       /\ Unmarshal b = Return (Ok Scenario.readme_workspace).
Proof.
  split; [reflexivity|]. split; [reflexivity|]. split; [reflexivity|].
  destruct (Unmarshal_Marshal Scenario.readme_workspace eq_refl eq_refl eq_refl)
    as (b & E & _ & U).
  exists b. split; [exact E | exact (U eq_refl)].
Defined.

End RoundTripFacts.
